(** * Assessment-GliderAI: the polyglot execution engine of [app.py]

    A shallow embedding of the language executors ([execute_python],
    [execute_javascript], [execute_java], [execute_cpp]) and of the step
    tracer of [debug_solution], with the properties the specification
    states about them.

    Conventions of the embedding.
    - Python [str] values are Rocq [string]s; text outside ASCII is kept as
      its UTF-8 bytes.  The text functions below are exact on ASCII text: a
      byte above 127 is treated as part of a character that is neither a
      space, a digit nor a cased letter.
    - Python [int] is [Z].  A Python [float] is kept as the decimal number
      its literal denotes ([pyfloat]); the rounding to binary64 is not
      computed, and printing a float is a parameter of the functions that
      need it.
    - The operating system (file system, child processes, elapsed time) and
      the Python interpreter running submitted code are parameters: every
      theorem holds for all of their behaviours.
    - Code of a submission that runs inside the server (its functions, the
      [__repr__] and [__str__] of its objects) is a parameter too: what it
      returns or raises, and what it does to the trace slot
      ([sys.settrace]).  Other things such code can do to the interpreter
      (rebinding the functions of a module, starting threads) are not
      modelled. *)

From Stdlib Require Import ZArith NArith String Ascii List Bool Lia.
From stdpp Require Import base option list gmap strings pretty.
Import ListNotations.

#[local] Set Warnings "-register-all".

Local Open Scope string_scope.
Local Open Scope Z_scope.

(** ** Python text primitives *)

Module PyText.

Definition code (c : ascii) : N := N_of_ascii c.

(** The double quote, as a character and as a one-character string. *)
Definition dquote : ascii := "034"%char.
Definition dq : string := String dquote EmptyString.

Definition is_digit (c : ascii) : bool :=
  ((48 <=? code c) && (code c <=? 57))%N.

Definition digit_value (c : ascii) : Z := Z.of_N (code c) - 48.

(** [str.isspace] on ASCII: tab .. carriage return, the four separators
    0x1c .. 0x1f, and the space. *)
Definition str_isspace (c : ascii) : bool :=
  (((9 <=? code c) && (code c <=? 13)) || ((28 <=? code c) && (code c <=? 32)))%N.

(** The C [isspace] that [int()] and [float()] use on ASCII text. *)
Definition c_isspace (c : ascii) : bool :=
  (((9 <=? code c) && (code c <=? 13)) || (code c =? 32))%N.

Fixpoint lstrip_with (sp : ascii -> bool) (s : string) : string :=
  match s with
  | String c s' => if sp c then lstrip_with sp s' else s
  | EmptyString => EmptyString
  end.

Fixpoint rstrip_with (sp : ascii -> bool) (s : string) : string :=
  match s with
  | EmptyString => EmptyString
  | String c s' =>
      match rstrip_with sp s' with
      | EmptyString => if sp c then EmptyString else String c EmptyString
      | r => String c r
      end
  end.

(** [s.strip()] *)
Definition strip (s : string) : string :=
  rstrip_with str_isspace (lstrip_with str_isspace s).

(** [s.split(sep)] for a one-character separator. *)
Fixpoint split (sep : ascii) (s : string) : list string :=
  match s with
  | EmptyString => [EmptyString]
  | String c s' =>
      if Ascii.eqb c sep then EmptyString :: split sep s'
      else match split sep s' with
           | h :: t => String c h :: t
           | [] => [String c EmptyString]
           end
  end.

(** [c in s] for a one-character [c]. *)
Fixpoint contains (c : ascii) (s : string) : bool :=
  match s with
  | EmptyString => false
  | String d s' => Ascii.eqb c d || contains c s'
  end.

(** [s.startswith(p)] *)
Definition startswith (p s : string) : bool := String.prefix p s.

(** [s[n:]] *)
Fixpoint slice_from (n : nat) (s : string) : string :=
  match n, s with
  | O, _ => s
  | S _, EmptyString => EmptyString
  | S k, String _ s' => slice_from k s'
  end.

(** [s[:n]] *)
Fixpoint slice_to (n : nat) (s : string) : string :=
  match n, s with
  | O, _ => EmptyString
  | S _, EmptyString => EmptyString
  | S k, String c s' => String c (slice_to k s')
  end.

Definition lower_char (c : ascii) : ascii :=
  if ((65 <=? code c) && (code c <=? 90))%N then ascii_of_N (code c + 32) else c.

(** [s.lower()] *)
Fixpoint lower (s : string) : string :=
  match s with
  | EmptyString => EmptyString
  | String c s' => String (lower_char c) (lower s')
  end.

(** [s.replace(old, new)] for a non-empty [old]: the occurrences are found
    left to right and do not overlap; [skip] counts the characters of a
    matched occurrence still to be passed over. *)
Fixpoint replace_from (old new : string) (skip : nat) (s : string) : string :=
  match s with
  | EmptyString => EmptyString
  | String c s' =>
      match skip with
      | S k => replace_from old new k s'
      | O =>
          if String.prefix old s
          then new +:+ replace_from old new (String.length old - 1) s'
          else String c (replace_from old new O s')
      end
  end.

Definition replace (old new s : string) : string := replace_from old new O s.

(** [sep.join(parts)] *)
Fixpoint join (sep : string) (parts : list string) : string :=
  match parts with
  | [] => EmptyString
  | [p] => p
  | p :: rest => p +:+ sep +:+ join sep rest
  end.

(** *** [int(text)] *)

(** [sys.int_info.default_max_str_digits] *)
Definition int_max_str_digits : nat := 4300.

(** The digits of [digit (_? digit)*], underscores removed; [prev] is the
    character just read ([None] at the start). *)
Fixpoint digit_run (prev : option ascii) (s : string) : option string :=
  match s with
  | EmptyString =>
      match prev with
      | Some c => if is_digit c then Some EmptyString else None
      | None => None
      end
  | String c s' =>
      if Ascii.eqb c "_" then
        match prev with
        | Some p => if is_digit p then digit_run (Some c) s' else None
        | None => None
        end
      else if is_digit c then String c <$> digit_run (Some c) s'
      else None
  end.

Fixpoint decimal_value (acc : Z) (s : string) : Z :=
  match s with
  | EmptyString => acc
  | String c s' => decimal_value (10 * acc + digit_value c) s'
  end.

Definition split_sign (s : string) : bool * string :=
  match s with
  | String "+" r => (false, r)
  | String "-" r => (true, r)
  | _ => (false, s)
  end.

(** [int(s)] in base ten; [None] stands for [ValueError]. *)
Definition py_int (s : string) : option Z :=
  let '(neg, body) := split_sign (rstrip_with c_isspace (lstrip_with c_isspace s)) in
  match digit_run None body with
  | Some ds =>
      if (int_max_str_digits <? String.length ds)%nat then None
      else Some (if neg then - decimal_value 0 ds else decimal_value 0 ds)
  | None => None
  end.

(** *** [float(text)] *)

(** The number a float literal denotes: [(-1)^neg * mant * 10^exp10]. *)
Inductive pyfloat : Type :=
  | FNan
  | FInf (neg : bool)
  | FDec (neg : bool) (mant : Z) (exp10 : Z).

(** Underscores are allowed only between two digits; the result is the text
    without them. *)
Fixpoint drop_underscores (prev : option ascii) (s : string) : option string :=
  match s with
  | EmptyString =>
      match prev with
      | Some "_"%char => None
      | _ => Some EmptyString
      end
  | String c s' =>
      if Ascii.eqb c "_" then
        match prev with
        | Some p => if is_digit p then drop_underscores (Some c) s' else None
        | None => None
        end
      else
        match prev with
        | Some "_"%char =>
            if is_digit c then String c <$> drop_underscores (Some c) s' else None
        | _ => String c <$> drop_underscores (Some c) s'
        end
  end.

(** The longest prefix of digits, and the rest. *)
Fixpoint span_digits (s : string) : string * string :=
  match s with
  | String c s' =>
      if is_digit c then let '(d, r) := span_digits s' in (String c d, r)
      else (EmptyString, s)
  | EmptyString => (EmptyString, EmptyString)
  end.

(** The exponent part: empty, or [e] or [E], an optional sign and at least
    one digit, up to the end of the text. *)
Definition exponent_part (s : string) : option Z :=
  match s with
  | EmptyString => Some 0
  | String c r =>
      if Ascii.eqb c "e" || Ascii.eqb c "E" then
        let '(neg, ds) := split_sign r in
        match span_digits ds with
        | (String d ds', EmptyString) =>
            let e := decimal_value 0 (String d ds') in
            Some (if neg then - e else e)
        | _ => None
        end
      else None
  end.

Definition decimal_part (neg : bool) (s : string) : option pyfloat :=
  let '(ip, r1) := span_digits s in
  let '(fp, r2) :=
    match r1 with
    | String "." r => span_digits r
    | _ => (EmptyString, r1)
    end in
  match ip +:+ fp with
  | EmptyString => None
  | ds =>
      e ← exponent_part r2;
      Some (FDec neg (decimal_value 0 ds) (e - Z.of_nat (String.length fp)))
  end.

(** [float(s)]; [None] stands for [ValueError]. *)
Definition py_float (s : string) : option pyfloat :=
  let s1 := rstrip_with c_isspace (lstrip_with c_isspace s) in
  s2 ← (if contains "_" s1 then drop_underscores None s1 else Some s1);
  let '(neg, body) := split_sign s2 in
  let l := lower body in
  if String.eqb l "inf" || String.eqb l "infinity" then Some (FInf neg)
  else if String.eqb l "nan" then Some FNan
  else decimal_part neg body.

End PyText.

Import PyText.

(** ** Python values *)

Module PyValue.

(** The values that travel between the host and the submissions: test
    arguments, expected values and results.  [VObject n] is any other
    object (a function, a class, an instance), identified by [n]. *)
Inductive value : Type :=
  | VNone
  | VBool (b : bool)
  | VInt (z : Z)
  | VFloat (f : pyfloat)
  | VStr (s : string)
  | VList (items : list value)
  | VTuple (items : list value)
  | VDict (entries : list (string * value))
  | VObject (n : nat).

Definition isinstance_bool (v : value) : bool :=
  match v with VBool _ => true | _ => false end.

Definition isinstance_str (v : value) : bool :=
  match v with VStr _ => true | _ => false end.

(** [bool] is a subclass of [int]: [isinstance(True, int)] holds. *)
Definition isinstance_int (v : value) : bool :=
  match v with VInt _ | VBool _ => true | _ => false end.

Definition isinstance_float (v : value) : bool :=
  match v with VFloat _ => true | _ => false end.

Definition isinstance_list (v : value) : bool :=
  match v with VList _ => true | _ => false end.

Definition isinstance_tuple (v : value) : bool :=
  match v with VTuple _ => true | _ => false end.

(** Truth value of an object ([if not func]); an object without [__bool__]
    or [__len__] is true. *)
Definition truthy (v : value) : bool :=
  match v with
  | VNone => false
  | VBool b => b
  | VInt z => negb (z =? 0)
  | VFloat (FDec _ m _) => negb (m =? 0)
  | VFloat _ => true
  | VStr s => negb (String.eqb s EmptyString)
  | VList l | VTuple l => match l with [] => false | _ => true end
  | VDict d => match d with [] => false | _ => true end
  | VObject _ => true
  end.

(** [d[k] = v] on a dict kept in insertion order. *)
Fixpoint dict_set (k : string) (v : value) (d : list (string * value))
  : list (string * value) :=
  match d with
  | [] => [(k, v)]
  | (k', v') :: d' =>
      if String.eqb k k' then (k', v) :: d' else (k', v') :: dict_set k v d'
  end.

Definition hex_digit (n : N) : ascii :=
  ascii_of_N (if (n <? 10)%N then 48 + n else 87 + n).

(** Two lowercase hexadecimal digits. *)
Definition hex2 (n : N) : string :=
  String (hex_digit (n / 16 mod 16)) (String (hex_digit (n mod 16)) EmptyString).

(** Four lowercase hexadecimal digits. *)
Definition hex4 (n : N) : string := hex2 (n / 256) +:+ hex2 (n mod 256).

(** [repr(s)] of a string: single quotes unless the text has a single quote
    and no double quote. *)
Definition repr_char (quote : ascii) (c : ascii) : string :=
  if Ascii.eqb c quote || Ascii.eqb c "\" then String "\" (String c EmptyString)
  else if Ascii.eqb c "009" then "\t"
  else if Ascii.eqb c "010" then "\n"
  else if Ascii.eqb c "013" then "\r"
  else if ((code c <? 32) || (code c =? 127))%N then "\x" +:+ hex2 (code c)
  else String c EmptyString.

Fixpoint repr_chars (quote : ascii) (s : string) : string :=
  match s with
  | EmptyString => EmptyString
  | String c s' => repr_char quote c +:+ repr_chars quote s'
  end.

Definition repr_str (s : string) : string :=
  let quote := if contains "'" s && negb (contains dquote s) then dquote else "'"%char in
  String quote (repr_chars quote s) +:+ String quote EmptyString.

Section Printing.

(** [repr] of a float and of an object other than the data values. *)
Variable float_repr : pyfloat -> string.
Variable object_repr : nat -> string.

(** [repr(v)] *)
Fixpoint py_repr (v : value) : string :=
  match v with
  | VNone => "None"
  | VBool true => "True"
  | VBool false => "False"
  | VInt z => pretty z
  | VFloat f => float_repr f
  | VStr s => repr_str s
  | VList l => "[" +:+ join ", " (map py_repr l) +:+ "]"
  | VTuple [x] => "(" +:+ py_repr x +:+ ",)"
  | VTuple l => "(" +:+ join ", " (map py_repr l) +:+ ")"
  | VDict d =>
      "{" +:+ join ", " (map (fun '(k, x) => repr_str k +:+ ": " +:+ py_repr x) d) +:+ "}"
  | VObject n => object_repr n
  end.

(** [str(v)] *)
Definition py_str (v : value) : string :=
  match v with
  | VStr s => s
  | _ => py_repr v
  end.

End Printing.

End PyValue.

Import PyValue.

(** ** The [json] module: [json.dumps] and [json.loads] *)

Module Json.

(** UTF-8 bytes of a code point. *)
Definition utf8 (cp : N) : string :=
  let b (n : N) := ascii_of_N n in
  (if cp <? 128 then String (b cp) EmptyString
   else if cp <? 2048 then
     String (b (192 + cp / 64)) (String (b (128 + cp mod 64)) EmptyString)
   else if cp <? 65536 then
     String (b (224 + cp / 4096))
       (String (b (128 + cp / 64 mod 64)) (String (b (128 + cp mod 64)) EmptyString))
   else
     String (b (240 + cp / 262144))
       (String (b (128 + cp / 4096 mod 64))
          (String (b (128 + cp / 64 mod 64)) (String (b (128 + cp mod 64)) EmptyString))))%N.

(** *** Encoding *)

Definition escape_ascii (c : ascii) : string :=
  if Ascii.eqb c dquote then "\" +:+ dq
  else if Ascii.eqb c "\" then "\\"
  else if Ascii.eqb c "010" then "\n"
  else if Ascii.eqb c "013" then "\r"
  else if Ascii.eqb c "009" then "\t"
  else if Ascii.eqb c "008" then "\b"
  else if Ascii.eqb c "012" then "\f"
  else if ((code c <? 32) || (code c =? 127))%N then "\u" +:+ hex4 (code c)
  else String c EmptyString.

(** A code point above 127 is written as [\uXXXX], as a surrogate pair
    above the basic plane. *)
Definition escape_code_point (cp : N) : string :=
  (if cp <? 65536 then "\u" +:+ hex4 cp
   else "\u" +:+ hex4 (55296 + (cp - 65536) / 1024)
        +:+ "\u" +:+ hex4 (56320 + (cp - 65536) mod 1024))%N.

(** The body of an encoded string; [need] continuation bytes of the
    character being read are still expected, [acc] holds its bits so far. *)
Fixpoint encode_chars (need : nat) (acc : N) (s : string) : string :=
  match s with
  | EmptyString => EmptyString
  | String c s' =>
      let n := code c in
      match need with
      | S k =>
          let acc' := (acc * 64 + n mod 64)%N in
          match k with
          | O => escape_code_point acc' +:+ encode_chars O 0%N s'
          | S _ => encode_chars k acc' s'
          end
      | O =>
          if (n <? 128)%N then escape_ascii c +:+ encode_chars O 0%N s'
          else if (n <? 224)%N then encode_chars 1 (n mod 32)%N s'
          else if (n <? 240)%N then encode_chars 2 (n mod 16)%N s'
          else encode_chars 3 (n mod 8)%N s'
      end
  end.

Definition encode_string (s : string) : string :=
  dq +:+ encode_chars O 0%N s +:+ dq.

Section Dumps.

Variable float_repr : pyfloat -> string.

(** [json.dumps(v)]; [None] stands for the [TypeError] raised on an
    object that is not serializable. *)
Fixpoint json_dumps (v : value) : option string :=
  let fix items (l : list value) : option (list string) :=
    match l with
    | [] => Some []
    | x :: r => sx ← json_dumps x; sr ← items r; Some (sx :: sr)
    end in
  let fix members (d : list (string * value)) : option (list string) :=
    match d with
    | [] => Some []
    | (k, x) :: r =>
        sx ← json_dumps x; sr ← members r;
        Some ((encode_string k +:+ ": " +:+ sx) :: sr)
    end in
  match v with
  | VNone => Some "null"
  | VBool true => Some "true"
  | VBool false => Some "false"
  | VInt z => Some (pretty z)
  | VFloat FNan => Some "NaN"
  | VFloat (FInf false) => Some "Infinity"
  | VFloat (FInf true) => Some "-Infinity"
  | VFloat f => Some (float_repr f)
  | VStr s => Some (encode_string s)
  | VList l | VTuple l => ss ← items l; Some ("[" +:+ join ", " ss +:+ "]")
  | VDict d => ss ← members d; Some ("{" +:+ join ", " ss +:+ "}")
  | VObject _ => None
  end.

End Dumps.

(** *** Decoding *)

Definition is_ws (c : ascii) : bool :=
  Ascii.eqb c " " || Ascii.eqb c "009" || Ascii.eqb c "010" || Ascii.eqb c "013".

Definition skip_ws (s : string) : string := lstrip_with is_ws s.

Definition hex_value (c : ascii) : option N :=
  let n := code c in
  (if (48 <=? n) && (n <=? 57) then Some (n - 48)
   else if (97 <=? n) && (n <=? 102) then Some (n - 87)
   else if (65 <=? n) && (n <=? 70) then Some (n - 55)
   else None)%N.

Definition is_high_surrogate (u : N) : bool := ((55296 <=? u) && (u <=? 56319))%N.
Definition is_low_surrogate (u : N) : bool := ((56320 <=? u) && (u <=? 57343))%N.

Inductive scan_mode : Type :=
  | Plain                          (* between escapes *)
  | Escape                         (* a backslash was read *)
  | Hex (more : nat) (acc : N).    (* inside the digits of [\uXXXX] *)

Definition flush (pending : option N) : string :=
  match pending with
  | Some h => utf8 h
  | None => EmptyString
  end.

(** The decoded text of a string whose opening quote has been read, and
    what follows its closing quote.  [pending] is a high surrogate waiting
    for its low half. *)
Fixpoint scan_string (mode : scan_mode) (pending : option N) (s : string)
  : option (string * string) :=
  let emit (t : string) (r : option (string * string)) :=
    '(body, rest) ← r; Some (t +:+ body, rest) in
  match s with
  | EmptyString => None
  | String c s' =>
      match mode with
      | Plain =>
          if Ascii.eqb c dquote then Some (flush pending, s')
          else if Ascii.eqb c "\" then scan_string Escape pending s'
          else if (code c <? 32)%N then None
          else emit (flush pending +:+ String c EmptyString) (scan_string Plain None s')
      | Escape =>
          if Ascii.eqb c "u" then scan_string (Hex 4 0%N) pending s'
          else
            t ← (if Ascii.eqb c dquote then Some dq
                 else if Ascii.eqb c "\" then Some "\"
                 else if Ascii.eqb c "/" then Some "/"
                 else if Ascii.eqb c "b" then Some (String "008" EmptyString)
                 else if Ascii.eqb c "f" then Some (String "012" EmptyString)
                 else if Ascii.eqb c "n" then Some (String "010" EmptyString)
                 else if Ascii.eqb c "r" then Some (String "013" EmptyString)
                 else if Ascii.eqb c "t" then Some (String "009" EmptyString)
                 else None);
            emit (flush pending +:+ t) (scan_string Plain None s')
      | Hex more acc =>
          h ← hex_value c;
          let u := (acc * 16 + h)%N in
          match more with
          | S (S k) => scan_string (Hex (S k) u) pending s'
          | _ =>
              match pending with
              | Some hi =>
                  if is_low_surrogate u
                  then emit (utf8 (65536 + (hi - 55296) * 1024 + (u - 56320))%N)
                            (scan_string Plain None s')
                  else if is_high_surrogate u
                  then emit (utf8 hi) (scan_string Plain (Some u) s')
                  else emit (utf8 hi +:+ utf8 u) (scan_string Plain None s')
              | None =>
                  if is_high_surrogate u then scan_string Plain (Some u) s'
                  else emit (utf8 u) (scan_string Plain None s')
              end
          end
      end
  end.

(** The longest number at the head of the text: an optional minus sign, an
    integer part without a superfluous leading zero, an optional fraction
    (a point and digits) and an optional exponent ([e] or [E], an optional
    sign and digits).  The result is its text, whether it has a fraction
    or an exponent, and the rest. *)
Definition scan_number (s : string) : option (string * bool * string) :=
  let '(sign, s1) :=
    match s with
    | String "-" r => ("-", r)
    | _ => (EmptyString, s)
    end in
  ipr ← match s1 with
        | String "0" r => Some ("0", r)
        | _ => match span_digits s1 with
               | (EmptyString, _) => None
               | (ds, r) => Some (ds, r)
               end
        end;
  let '(ip, r1) := ipr in
  let '(frac, r2) :=
    match r1 with
    | String "." r =>
        match span_digits r with
        | (EmptyString, _) => (EmptyString, r1)
        | (ds, r') => ("." +:+ ds, r')
        end
    | _ => (EmptyString, r1)
    end in
  let '(ex, r3) :=
    match r2 with
    | String c r =>
        if Ascii.eqb c "e" || Ascii.eqb c "E" then
          let '(sg, r') :=
            match r with
            | String "+" t => ("+", t)
            | String "-" t => ("-", t)
            | _ => (EmptyString, r)
            end in
          match span_digits r' with
          | (EmptyString, _) => (EmptyString, r2)
          | (ds, r'') => (String c sg +:+ ds, r'')
          end
        else (EmptyString, r2)
    | EmptyString => (EmptyString, r2)
    end in
  Some (sign +:+ ip +:+ frac +:+ ex,
        negb (String.eqb frac EmptyString && String.eqb ex EmptyString), r3).

(** The result of decoding: a value, a text that is not JSON
    ([JSONDecodeError]), or an integer literal longer than [int()] accepts
    (a plain [ValueError]). *)
Inductive decoded (A : Type) : Type :=
  | Decoded (a : A)
  | Malformed
  | DigitLimit.
Arguments Decoded {A} a.
Arguments Malformed {A}.
Arguments DigitLimit {A}.

#[global] Instance decoded_bind : MBind decoded := fun A B k m =>
  match m with
  | Decoded a => k a
  | Malformed => Malformed
  | DigitLimit => DigitLimit
  end.

Definition well_formed {A} (o : option A) : decoded A :=
  match o with
  | Some a => Decoded a
  | None => Malformed
  end.

(** One JSON value at the head of the text, and the rest.  [fuel] bounds
    the nesting depth and the number of items read. *)
Fixpoint scan_value (fuel : nat) (s : string) : decoded (value * string) :=
  match fuel with
  | O => Malformed
  | S n =>
      match s with
      | String "034" r =>
          '(t, r') ← well_formed (scan_string Plain None r); Decoded (VStr t, r')
      | String "[" r =>
          match skip_ws r with
          | String "]" r' => Decoded (VList [], r')
          | r' => '(l, r'') ← scan_items n r'; Decoded (VList l, r'')
          end
      | String "{" r =>
          match skip_ws r with
          | String "}" r' => Decoded (VDict [], r')
          | r' => '(d, r'') ← scan_members n [] r'; Decoded (VDict d, r'')
          end
      | _ =>
          if startswith "null" s then Decoded (VNone, slice_from 4 s)
          else if startswith "true" s then Decoded (VBool true, slice_from 4 s)
          else if startswith "false" s then Decoded (VBool false, slice_from 5 s)
          else
            match scan_number s with
            | Some (text, true, r) =>
                f ← well_formed (py_float text); Decoded (VFloat f, r)
            | Some (text, false, r) =>
                match py_int text with
                | Some z => Decoded (VInt z, r)
                | None => DigitLimit
                end
            | None =>
                if startswith "NaN" s then Decoded (VFloat FNan, slice_from 3 s)
                else if startswith "Infinity" s
                then Decoded (VFloat (FInf false), slice_from 8 s)
                else if startswith "-Infinity" s
                then Decoded (VFloat (FInf true), slice_from 9 s)
                else Malformed
            end
      end
  end

with scan_items (fuel : nat) (s : string) : decoded (list value * string) :=
  match fuel with
  | O => Malformed
  | S n =>
      '(v, r) ← scan_value n s;
      match skip_ws r with
      | String "]" r' => Decoded ([v], r')
      | String "," r' => '(l, r'') ← scan_items n (skip_ws r'); Decoded (v :: l, r'')
      | _ => Malformed
      end
  end

with scan_members (fuel : nat) (acc : list (string * value)) (s : string)
  : decoded (list (string * value) * string) :=
  match fuel with
  | O => Malformed
  | S n =>
      match s with
      | String "034" r =>
          '(k, r1) ← well_formed (scan_string Plain None r);
          match skip_ws r1 with
          | String ":" r2 =>
              '(v, r3) ← scan_value n (skip_ws r2);
              let acc' := dict_set k v acc in
              match skip_ws r3 with
              | String "}" r4 => Decoded (acc', r4)
              | String "," r4 => scan_members n acc' (skip_ws r4)
              | _ => Malformed
              end
          | _ => Malformed
          end
      | _ => Malformed
      end
  end.

(** [json.loads(s)] *)
Definition json_loads (s : string) : decoded value :=
  '(v, r) ← scan_value (2 * String.length s + 2) (skip_ws s);
  match skip_ws r with
  | EmptyString => Decoded v
  | _ => Malformed
  end.

End Json.

Import Json.

(** ** The host: exceptions, file system, child processes *)

Module Host.

(** An exception object as a handler sees it: [type(e).__name__], [str(e)]
    and whether [isinstance(e, Exception)] holds ([SystemExit],
    [KeyboardInterrupt] and [GeneratorExit] derive from [BaseException]
    only). *)
Record raised : Type := Exc {
  exc_type : string;
  exc_text : string;
  exc_is_Exception : bool
}.

Definition RuntimeError (msg : string) : raised := Exc "RuntimeError" msg true.
Definition NameError (msg : string) : raised := Exc "NameError" msg true.
Definition TypeError (msg : string) : raised := Exc "TypeError" msg true.

(** [subprocess.TimeoutExpired(cmd, timeout)] *)
Definition TimeoutExpired (cmd : list string) (timeout : nat) : raised :=
  Exc "TimeoutExpired"
      ("Command '[" +:+ join ", " (map repr_str cmd) +:+ "]' timed out after "
       +:+ pretty timeout +:+ " seconds")
      true.

(** [json.JSONDecodeError] on the document [doc]; the text of its message
    (a description and a position) is not modelled. *)
Definition JSONDecodeError (doc : string) : raised :=
  Exc "JSONDecodeError" ("Invalid JSON document: " +:+ doc) true.

(** The [ValueError] of [int()] on a literal of too many digits (the
    beginning of its message). *)
Definition DigitLimitError : raised :=
  Exc "ValueError"
      ("Exceeds the limit (" +:+ pretty int_max_str_digits
       +:+ " digits) for integer string conversion") true.

(** What a call does: it returns, it raises, or it never comes back. *)
Inductive outcome (A : Type) : Type :=
  | Returns (a : A)
  | Raises (e : raised)
  | NeverReturns.
Arguments Returns {A} a.
Arguments Raises {A} e.
Arguments NeverReturns {A}.

Inductive node : Type :=
  | Dir
  | File (content : string).

(** The part of the machine the executors act on: the file system, the
    commands spawned so far (oldest first) and the seconds elapsed. *)
Record world : Type := World {
  files : gmap string node;
  spawned : list (list string);
  clock : nat
}.

(** What a child process does when it is started in a given world. *)
Inductive behaviour : Type :=
  | CannotStart (e : raised)
      (* the program cannot be launched: [FileNotFoundError], ... *)
  | Exits (seconds : nat) (returncode : Z) (out err : string)
          (effect : nat -> gmap string node -> gmap string node)
      (* it ends by itself after [seconds] *)
  | RunsForever (effect : nat -> gmap string node -> gmap string node).
      (* it runs until it is killed *)
(** [effect t fs] is the file system after the child has run for [t]
    seconds from [fs]. *)

Record platform : Type := Platform {
  (** [os.name] *)
  os_name : string;
  (** [repr] of a float *)
  float_repr : pyfloat -> string;
  (** [repr] of an object that is not a data value *)
  object_repr : nat -> string;
  (** the directory [tempfile.mkdtemp()] creates, or the error it raises *)
  mkdtemp_choice : world -> raised + string;
  (** the error, if any, of opening [path] for writing and writing [text] *)
  write_failure : string -> string -> world -> option raised;
  (** the child started by [argv] with working directory [cwd] *)
  child : list string -> option string -> world -> behaviour;
  (** what [shutil.rmtree(dir, ignore_errors=True)] cannot remove in a
      world: whether the path, at or below [dir], is left behind (an
      entry of a directory made read-only, a file held open on Windows) *)
  rmtree_leaves : string -> world -> string -> bool
}.

(** State and exceptions: a computation runs from a world to an outcome
    and the world it leaves. *)
Definition exec (A : Type) : Type := world -> outcome A * world.

Definition ret {A} (a : A) : exec A := fun w => (Returns a, w).

Definition raise {A} (e : raised) : exec A := fun w => (Raises e, w).

Definition bind {A B} (m : exec A) (k : A -> exec B) : exec B :=
  fun w =>
    match m w with
    | (Returns a, w') => k a w'
    | (Raises e, w') => (Raises e, w')
    | (NeverReturns, w') => (NeverReturns, w')
    end.

(** [try: body finally: cleanup], for a cleanup that does not raise. *)
Definition try_finally {A} (body : exec A) (cleanup : world -> world) : exec A :=
  fun w =>
    match body w with
    | (NeverReturns, w') => (NeverReturns, w')
    | (r, w') => (r, cleanup w')
    end.

Module Import Notations.
Notation "'do' x <- m ; k" := (bind m (fun x => k))
  (at level 10, x name, m at level 100, k at level 200).
Notation "'do_' m ; k" := (bind m (fun _ => k))
  (at level 10, m at level 100, k at level 200).
End Notations.

Section Operations.

Variable P : platform.

Definition sep : string := if String.eqb (os_name P) "nt" then "\" else "/".

(** [os.path.join(dir, name)] for a relative [name]. *)
Definition path_join (dir name : string) : string := dir +:+ sep +:+ name.

(** [path] is [dir] or lies below it. *)
Definition under (dir path : string) : bool :=
  String.eqb path dir || startswith (dir +:+ sep) path.

(** [tempfile.mkdtemp()] *)
Definition mkdtemp : exec string :=
  fun w =>
    match mkdtemp_choice P w with
    | inl e => (Raises e, w)
    | inr d => (Returns d, World (<[d := Dir]> (files w)) (spawned w) (clock w))
    end.

(** [with open(path, 'w') as f: f.write(text)] *)
Definition write_text (path text : string) : exec unit :=
  fun w =>
    match write_failure P path text w with
    | Some e => (Raises e, w)
    | None => (Returns tt, World (<[path := File text]> (files w)) (spawned w) (clock w))
    end.

(** [shutil.rmtree(dir, ignore_errors=True)]: the directory and what is
    below it are removed, except what cannot be; a removal that fails is
    passed over in silence, so nothing is raised. *)
Definition rmtree (dir : string) (w : world) : world :=
  World (filter (fun kv => under dir kv.1 = false \/ rmtree_leaves P dir w kv.1 = true)
                (files w))
        (spawned w) (clock w).

Record completed : Type := Completed {
  returncode : Z;
  stdout : string;
  stderr : string
}.

(** [subprocess.run(argv, capture_output=True, text=True,
    timeout=timeout, cwd=cwd)]: a child that has not ended when the
    timeout expires is killed and [TimeoutExpired] is raised. *)
Definition subprocess_run (argv : list string) (cwd : option string) (timeout : nat)
  : exec completed :=
  fun w =>
    let log := (spawned w ++ [argv])%list in
    match child P argv cwd w with
    | CannotStart e => (Raises e, World (files w) log (clock w))
    | Exits seconds rc out err effect =>
        if (seconds <=? timeout)%nat
        then (Returns (Completed rc out err),
              World (effect seconds (files w)) log (clock w + seconds))
        else (Raises (TimeoutExpired argv timeout),
              World (effect timeout (files w)) log (clock w + timeout))
    | RunsForever effect =>
        (Raises (TimeoutExpired argv timeout),
         World (effect timeout (files w)) log (clock w + timeout))
    end.

End Operations.

(** [yields Q m]: every value [m] returns satisfies [Q]. *)
Definition yields {A} (Q : A -> Prop) (m : exec A) : Prop :=
  forall w a, fst (m w) = Returns a -> Q a.

(** [bounded n m]: from every world, [m] comes back (it returns or
    raises) and at most [n] seconds have passed. *)
Definition bounded {A} (n : nat) (m : exec A) : Prop :=
  forall w, fst (m w) <> NeverReturns
            /\ (clock w <= clock (snd (m w)) <= clock w + n)%nat.

End Host.

Import Host Host.Notations.

(** ** The language executors *)

Module Executors.

Definition nl : string := String "010" EmptyString.

(** The text of a [str] object, for use after an [isinstance(val, str)]
    test. *)
Definition text_of (val : value) : string :=
  match val with
  | VStr s => s
  | _ => EmptyString
  end.

(** What the two [replace] calls of the marshallers write for one
    character. *)
Definition escape_char (c : ascii) : string :=
  if Ascii.eqb c "\" then "\\"
  else if Ascii.eqb c dquote then "\" +:+ dq
  else String c EmptyString.

Definition escaped (s : string) : string :=
  replace dq ("\" +:+ dq) (replace "\" "\\" s).

(** The first line of the captured output that starts with [RESULT:]
    ([for line in output.split('\n'): if line.startswith('RESULT:')]). *)
Definition first_result_line (output : string) : option string :=
  List.find (startswith "RESULT:") (split "010" output).

(** The result parsing of [execute_java], from the stripped payload. *)
Definition java_result (result_str : string) : value :=
  match (if contains "." result_str
         then VFloat <$> py_float result_str
         else VInt <$> py_int result_str) with
  | Some result => result
  | None =>
      (* except ValueError *)
      if String.eqb (lower result_str) "true" then VBool true
      else if String.eqb (lower result_str) "false" then VBool false
      else VStr result_str
  end.

(** The result parsing of [execute_cpp], from the stripped payload. *)
Definition cpp_result (result_str : string) : value :=
  match (if contains "." result_str
         then VFloat <$> py_float result_str
         else VInt <$> py_int result_str) with
  | Some result => result
  | None =>
      (* except ValueError *)
      if String.eqb result_str "1" then VBool true
      else if String.eqb result_str "0" then VBool false
      else VStr result_str
  end.

(** The values without structure: a Float, an Integer, a Boolean or a
    String. *)
Definition scalar (v : value) : bool :=
  match v with
  | VFloat _ | VInt _ | VBool _ | VStr _ => true
  | _ => false
  end.

(** Whether the number conversion the parsers try first succeeds on the
    payload: [float()] when it has a decimal point, [int()] otherwise. *)
Definition number_text (result_str : string) : bool :=
  if contains "." result_str
  then bool_decide (is_Some (py_float result_str))
  else bool_decide (is_Some (py_int result_str)).

Section WithPlatform.

Variable P : platform.

Definition str (v : value) : string := py_str (float_repr P) (object_repr P) v.

(** [python_to_java], local to [execute_java]. *)
Fixpoint python_to_java (val : value) : string :=
  if isinstance_bool val then
    (if truthy val then "true" else "false")
  else if isinstance_str val then
    let escaped := replace dq ("\" +:+ dq) (replace "\" "\\" (text_of val)) in
    dq +:+ escaped +:+ dq
  else if isinstance_int val || isinstance_float val then
    str val
  else
    match val with
    | VList l | VTuple l =>
        let items := join ", " (map python_to_java l) in
        "new Object[]{" +:+ items +:+ "}"
    | _ => str val
    end.

(** [python_to_cpp], local to [execute_cpp]. *)
Definition python_to_cpp (val : value) : string :=
  if isinstance_bool val then
    (if truthy val then "true" else "false")
  else if isinstance_str val then
    let escaped := replace dq ("\" +:+ dq) (replace "\" "\\" (text_of val)) in
    dq +:+ escaped +:+ dq
  else if isinstance_int val || isinstance_float val then
    str val
  else str val.

Definition javascript_harness (code : string) (args_json : string) (problem_name : string)
  : string :=
  join nl
    [ code;
      "";
      "// Test harness";
      "const args = " +:+ args_json +:+ ";";
      "const result = " +:+ problem_name +:+ "(...args);";
      "console.log('RESULT:' + JSON.stringify(result));";
      "" ].

Definition execute_javascript (code : string) (test_args : list value)
    (problem_name : string) : exec (value * string * string) :=
  do temp_dir <- mkdtemp P;
  try_finally
    (let js_file := path_join P temp_dir "solution.js" in
     do args_json <-
       match json_dumps (float_repr P) (VTuple test_args) with
       | Some t => ret t
       | None => raise (TypeError "Object is not JSON serializable")
       end;
     do_ write_text P js_file (javascript_harness code args_json problem_name);
     do proc <- subprocess_run P ["node"; js_file] None 5;
     if negb (returncode proc =? 0) then
       raise (RuntimeError ("JavaScript error: " +:+ stderr proc))
     else
       let output := stdout proc in
       match first_result_line output with
       | Some line =>
           let result_str := slice_from 7 line in
           match json_loads result_str with
           | Decoded result => ret (result, output, stderr proc)
           | Malformed => raise (JSONDecodeError result_str)
           | DigitLimit => raise DigitLimitError
           end
       | None => raise (RuntimeError ("Could not find RESULT in output: " +:+ output))
       end)
    (rmtree P temp_dir).

Definition java_harness (code : string) (java_args : string) (problem_name : string)
  : string :=
  join nl
    [ "";
      replace "public class" "class" code;
      "";
      "public class TestRunner {";
      "    public static void main(String[] args) {";
      "        Solution sol = new Solution();";
      "        Object result = sol." +:+ problem_name +:+ "(" +:+ java_args +:+ ");";
      "        System.out.println(" +:+ dq +:+ "RESULT:" +:+ dq +:+ " + result);";
      "    }";
      "}";
      "" ].

Definition execute_java (code : string) (test_args : list value)
    (problem_name : string) : exec (value * string * string) :=
  do temp_dir <- mkdtemp P;
  try_finally
    (let java_file := path_join P temp_dir "TestRunner.java" in
     let java_args := join ", " (map python_to_java test_args) in
     do_ write_text P java_file (java_harness code java_args problem_name);
     (* Compile *)
     do compile_proc <- subprocess_run P ["javac"; java_file] (Some temp_dir) 10;
     if negb (returncode compile_proc =? 0) then
       raise (RuntimeError ("Java compilation error: " +:+ stderr compile_proc))
     else
       (* Run *)
       do run_proc <- subprocess_run P ["java"; "-cp"; temp_dir; "TestRunner"] None 5;
       if negb (returncode run_proc =? 0) then
         raise (RuntimeError ("Java runtime error: " +:+ stderr run_proc))
       else
         let output := stdout run_proc in
         match first_result_line output with
         | Some line =>
             let result_str := strip (slice_from 7 line) in
             ret (java_result result_str, output, stderr run_proc)
         | None => raise (RuntimeError ("Could not find RESULT in output: " +:+ output))
         end)
    (rmtree P temp_dir).

Definition cpp_harness (code : string) (cpp_args : string) (problem_name : string)
  : string :=
  join nl
    [ "";
      "#include <iostream>";
      "#include <vector>";
      "#include <string>";
      "#include <sstream>";
      "using namespace std;";
      "";
      code;
      "";
      "int main() {";
      "    auto result = " +:+ problem_name +:+ "(" +:+ cpp_args +:+ ");";
      "    cout << " +:+ dq +:+ "RESULT:" +:+ dq +:+ " << result << endl;";
      "    return 0;";
      "}";
      "" ].

Definition execute_cpp (code : string) (test_args : list value)
    (problem_name : string) : exec (value * string * string) :=
  do temp_dir <- mkdtemp P;
  try_finally
    (let cpp_file := path_join P temp_dir "solution.cpp" in
     let exe_file :=
       path_join P temp_dir
         (if String.eqb (os_name P) "nt" then "solution.exe" else "solution") in
     let cpp_args := join ", " (map python_to_cpp test_args) in
     do_ write_text P cpp_file (cpp_harness code cpp_args problem_name);
     (* Compile *)
     do compile_proc <-
       subprocess_run P ["g++"; "-std=c++17"; cpp_file; "-o"; exe_file] None 10;
     if negb (returncode compile_proc =? 0) then
       raise (RuntimeError ("C++ compilation error: " +:+ stderr compile_proc))
     else
       (* Run *)
       do run_proc <- subprocess_run P [exe_file] None 5;
       if negb (returncode run_proc =? 0) then
         raise (RuntimeError ("C++ runtime error: " +:+ stderr run_proc))
       else
         (* Parse result *)
         let output := stdout run_proc in
         match first_result_line output with
         | Some line =>
             let result_str := strip (slice_from 7 line) in
             ret (cpp_result result_str, output, stderr run_proc)
         | None => raise (RuntimeError ("Could not find RESULT in output: " +:+ output))
         end)
    (rmtree P temp_dir).

End WithPlatform.

(** *** The in-process executor *)

(** What running Python code in the host interpreter does: it finishes,
    normally or by raising, having written [out] and [err] to the
    redirected streams; or it never finishes. *)
Inductive run (A : Type) : Type :=
  | Finished (out err : string) (r : raised + A)
  | Diverges.
Arguments Finished {A} out err r.
Arguments Diverges {A}.

Record interpreter : Type := Interpreter {
  (** [exec(code, namespace)] from an empty namespace: the names it binds *)
  py_exec : string -> run (gmap string value);
  (** the call of [func] on the arguments, in that namespace *)
  py_call : gmap string value -> value -> list value -> run value;
  (** [str(e)] on an exception the submission raised: [None] when it
      gives the message [exc_text e], or what the submission's [__str__]
      raises *)
  str_raises : raised -> option raised
}.

Section WithInterpreter.

Variable I : interpreter.

(** The [except Exception as e] clause of [execute_python], on an
    exception of the submission.  An exception that does not derive from
    [Exception] passes through; formatting the message is not guarded,
    so what [str(e)] raises leaves the executor too. *)
Definition python_handler (e : raised) (captured_out : string)
  : outcome (value * string * string) :=
  if exc_is_Exception e
  then match str_raises I e with
       | None => Returns (VNone, captured_out, exc_type e +:+ ": " +:+ exc_text e)
       | Some e' => Raises e'
       end
  else Raises e.

Definition execute_python (code : string) (test_args : list value)
    (problem_name : string) : outcome (value * string * string) :=
  match py_exec I code with
  | Diverges => NeverReturns
  | Finished out1 err1 (inl e) => python_handler e out1
  | Finished out1 err1 (inr namespace) =>
      let func := default VNone (namespace !! problem_name) in
      if negb (truthy func) then
        (* the executor's own [NameError], caught by the same clause *)
        let e := NameError ("Function " +:+ problem_name +:+ " not found") in
        Returns (VNone, out1, exc_type e +:+ ": " +:+ exc_text e)
      else
        match py_call I namespace func test_args with
        | Diverges => NeverReturns
        | Finished out2 err2 (inl e) => python_handler e (out1 +:+ out2)
        | Finished out2 err2 (inr result) =>
            Returns (result, out1 +:+ out2, err1 +:+ err2)
        end
  end.

End WithInterpreter.

End Executors.

Import Executors.

(** ** The step tracer of [debug_solution] *)

Module Tracer.

(** [s.splitlines()]: a line ends at a line feed, a carriage return (with
    the line feed that follows it, if any), a vertical tab, a form feed or
    one of the separators 0x1c .. 0x1e. *)
Definition is_linebreak (c : ascii) : bool :=
  (((10 <=? code c) && (code c <=? 13)) || ((28 <=? code c) && (code c <=? 30)))%N.

Fixpoint splitlines (s : string) : list string :=
  match s with
  | EmptyString => []
  | String c s' =>
      if is_linebreak c then
        match c, s' with
        | "013"%char, String "010" s'' => EmptyString :: splitlines s''
        | _, _ => EmptyString :: splitlines s'
        end
      else
        match splitlines s' with
        | line :: rest => String c line :: rest
        | [] => [String c EmptyString]
        end
  end.

(** [s.isdigit()] on ASCII text. *)
Fixpoint all_digits (s : string) : bool :=
  match s with
  | EmptyString => true
  | String c s' => is_digit c && all_digits s'
  end.

Definition isdigit (s : string) : bool :=
  negb (String.eqb s EmptyString) && all_digits s.

(** What [sys.settrace] holds. *)
Inductive tracefn : Type :=
  | RequestTracer               (* the [tracer] closure of the request *)
  | Foreign (n : nat).          (* a hook some other code installed *)

(** [len(s)] and [s[:n]] on a text kept as UTF-8: a byte [10xxxxxx]
    continues the character before it. *)
Definition is_continuation (c : ascii) : bool :=
  ((128 <=? code c) && (code c <? 192))%N.

Fixpoint char_length (s : string) : nat :=
  match s with
  | EmptyString => 0
  | String c s' => if is_continuation c then char_length s' else S (char_length s')
  end.

Fixpoint take_chars (n : nat) (s : string) : string :=
  match s with
  | EmptyString => EmptyString
  | String c s' =>
      if is_continuation c then String c (take_chars n s')
      else match n with
           | O => EmptyString
           | S k => String c (take_chars k s')
           end
  end.

(** What [repr(obj)] does: it gives a text, or it raises; and for the
    exception it raises, whether [str] of it gives its message
    ([None]) or raises in turn. *)
Inductive repr_result : Type :=
  | ReprText (text : string)
  | ReprRaises (e : raised) (str_fails : option raised).

(** An object met while tracing: the name of its type, what [repr] does
    on it, and what its [__repr__], which is code of the submission,
    does to the trace slot while it runs: nothing ([None]), or
    [sys.settrace(f)].  A [__repr__] that never returns is not
    modelled. *)
Record pyobj : Type := PyObj {
  obj_type : string;
  obj_repr : repr_result;
  obj_settrace : option (option tracefn)
}.

(** The trace slot after [repr(obj)] has run. *)
Definition after_repr (obj : pyobj) (slot : option tracefn) : option tracefn :=
  match obj_settrace obj with
  | Some f => f
  | None => slot
  end.

(** [s if len(s) <= 200 else s[:200] + '…'] *)
Definition cut (s : string) : string :=
  if (200 <? char_length s)%nat then take_chars 200 s +:+ "…" else s.

(** [_safe_repr(obj)], with [max_len] at its default of 200.  The clause
    [except Exception] lets an exception outside that hierarchy through,
    and the message it formats is not guarded. *)
Definition _safe_repr (obj : pyobj) : outcome string :=
  match obj_repr obj with
  | ReprText text => Returns (cut text)
  | ReprRaises e str_fails =>
      if exc_is_Exception e then
        match str_fails with
        | None =>
            Returns (cut ("<unreprable " +:+ obj_type obj +:+ ": " +:+ exc_text e +:+ ">"))
        | Some e' => Raises e'
        end
      else Raises e
  end.

(** A frame as the trace function reads it; [f_locals] is [None] when
    reading the locals raises. *)
Record frame : Type := Frame {
  co_filename : string;
  f_lineno : Z;
  f_locals : option (list (string * pyobj))
}.

(** One call the interpreter has for the trace function,
    [tracer(frame, event, arg)], with what the submission has done to
    the trace slot since the call before: nothing ([None]), or
    [sys.settrace(f)]. *)
Record trace_event : Type := Event {
  ev_frame : frame;
  ev_name : string;
  ev_arg : pyobj;
  ev_settrace : option (option tracefn)
}.

(** One record of the trace. *)
Record step : Type := Step {
  step_event : string;
  step_line : Z;
  step_code : string;
  step_locals : list (string * string);
  step_return : option string
}.

(** The variables the closure shares with [debug_solution], and the
    interpreter's trace slot. *)
Record tstate : Type := TState {
  trace : list step;
  truncated : bool;
  sys_trace : option tracefn
}.

(** The comprehension [{k: _safe_repr(v) for k, v in items}]: the
    previews in order, up to the first that raises ... *)
Fixpoint previews (items : list (string * pyobj)) : outcome (list (string * string)) :=
  match items with
  | [] => Returns []
  | (k, v) :: rest =>
      match _safe_repr v with
      | Returns s =>
          match previews rest with
          | Returns l => Returns ((k, s) :: l)
          | other => other
          end
      | Raises e => Raises e
      | NeverReturns => NeverReturns
      end
  end.

(** ... and the trace slot as the [__repr__]s that ran leave it. *)
Fixpoint after_previews (items : list (string * pyobj)) (slot : option tracefn)
  : option tracefn :=
  match items with
  | [] => slot
  | (k, v) :: rest =>
      match _safe_repr v with
      | Returns _ => after_previews rest (after_repr v slot)
      | _ => after_repr v slot
      end
  end.

(** [try: locals_snapshot = {...} except Exception: locals_snapshot = {}] *)
Definition locals_snapshot (fr : frame) : outcome (list (string * string)) :=
  match f_locals fr with
  | Some items =>
      match previews items with
      | Raises e => if exc_is_Exception e then Returns [] else Raises e
      | other => other
      end
  | None => Returns []
  end.

Section Tracing.

Variable breakpoints : gset Z.
Variable max_steps : Z.
Variable code_lines : list string.

(** The record the closure builds for an event, when building it does
    not raise ... *)
Definition step_of (ev : trace_event) : outcome step :=
  let line_no := f_lineno (ev_frame ev) in
  match locals_snapshot (ev_frame ev) with
  | Returns locals =>
      let this_step :=
        Step (ev_name ev) line_no
             (if (1 <=? line_no) && (line_no <=? Z.of_nat (length code_lines))
              then default EmptyString (code_lines !! Z.to_nat (line_no - 1))
              else EmptyString)
             locals in
      if String.eqb (ev_name ev) "return" then
        match _safe_repr (ev_arg ev) with
        | Returns r => Returns (this_step (Some r))
        | Raises e => Raises e
        | NeverReturns => NeverReturns
        end
      else Returns (this_step None)
  | Raises e => Raises e
  | NeverReturns => NeverReturns
  end.

(** ... and the trace slot after the [__repr__]s it has run. *)
Definition slot_of (ev : trace_event) (slot : option tracefn) : option tracefn :=
  let slot1 :=
    match f_locals (ev_frame ev) with
    | Some items => after_previews items slot
    | None => slot
    end in
  if String.eqb (ev_name ev) "return" then after_repr (ev_arg ev) slot1 else slot1.

(** The closure [tracer]: the state after one call of it.  When the
    call raises, the interpreter unsets the trace function. *)
Definition tracer (st : tstate) (ev : trace_event) : tstate :=
  let fr := ev_frame ev in
  if negb (String.eqb (co_filename fr) "<string>") then st
  else if bool_decide (ev_name ev ∈ ["call"; "line"; "return"]) then
    let line_no := f_lineno fr in
    let record_this :=
      bool_decide (breakpoints = ∅) || bool_decide (line_no ∈ breakpoints) in
    if record_this then
      match step_of ev with
      | Returns this_step =>
          let trace' := (trace st ++ [this_step])%list in
          if Z.of_nat (length trace') >=? max_steps
          then TState trace' true None
          else TState trace' (truncated st) (slot_of ev (sys_trace st))
      | _ => TState (trace st) (truncated st) None
      end
    else st
  else st.

(** The traced call, event by event: the submission's own
    [sys.settrace], if any, takes effect first; the interpreter then
    makes the call of the closure if a trace function is installed (in a
    frame the closure already traces, also when the installed function
    is another one), and makes no call when none is. *)
Fixpoint deliver (st : tstate) (events : list trace_event) : tstate :=
  match events with
  | [] => st
  | ev :: rest =>
      let st1 :=
        match ev_settrace ev with
        | Some f => TState (trace st) (truncated st) f
        | None => st
        end in
      match sys_trace st1 with
      | Some _ => deliver (tracer st1 ev) rest
      | None => deliver st1 rest
      end
  end.

(** The tracer is recording: the hook is installed, nothing was cut and
    the trace is below the cap. *)
Definition recording (st : tstate) : Prop :=
  sys_trace st = Some RequestTracer /\ truncated st = false
  /\ Z.of_nat (length (trace st)) < max_steps.

(** The tracer has stopped at the cap: the hook is gone, the flag is set
    and the trace holds exactly [max_steps] records. *)
Definition stopped (st : tstate) : Prop :=
  sys_trace st = None /\ truncated st = true
  /\ Z.of_nat (length (trace st)) = max_steps.

End Tracing.

(** The request, with its fields at the types the handler expects. *)
Record debug_request : Type := Request {
  req_problem : string;
  req_code : string;
  req_testIndex : option Z;            (* ['testIndex'], an integer *)
  req_customArgsJson : option string;  (* ['customArgsJson'], a string *)
  req_breakpoints : list value;
  req_maxSteps : option Z
}.

Inductive response : Type :=
  | InvalidProblem
  | InvalidTestIndex
  | CustomArgsNotArray
  | InvalidCustomArgsJson
  | FunctionNotFound (func_name : string)
  | TraceFailed (error : string) (steps : list step) (out err : string)
  | TraceDone (steps : list step) (was_truncated : bool) (out err : string)
              (ret_preview args_used : string).

(** The answers given before the [try] block is entered, and so before
    any submitted code has run. *)
Definition answered_before_tracing (r : outcome response) : bool :=
  match r with
  | Returns InvalidProblem | Returns InvalidTestIndex
  | Returns CustomArgsNotArray | Returns InvalidCustomArgsJson => true
  | Raises e => String.eqb (exc_type e) "ValueError"
  | _ => false
  end.

(** What the traced call does: the events the interpreter has for the
    trace function, in order, the captured streams and the result. *)
Inductive traced_call : Type :=
  | CallFinished (events : list trace_event) (out err : string) (r : raised + pyobj)
  | CallDiverges.

Record debugger : Type := Debugger {
  (** the argument tuple as it is after the call, which may have put
      objects of its own into a list of it *)
  args_after : list value -> pyobj;
  (** [exec(code, namespace)] *)
  dbg_exec : string -> run (gmap string value);
  (** the call of the function on the arguments *)
  dbg_call : gmap string value -> value -> list value -> traced_call;
  (** [str(e)] on an exception the submission raised: [None] when it
      gives the message [exc_text e], or what the submission's [__str__]
      raises *)
  dbg_str_raises : raised -> option raised
}.

(** [tests[i]] with Python's negative indices. *)
Definition py_index {A} (l : list A) (i : Z) : option A :=
  if (0 <=? i) then l !! Z.to_nat i
  else if (- Z.of_nat (length l) <=? i) then l !! Z.to_nat (Z.of_nat (length l) + i)
  else None.

(** [int(b)] for the breakpoints that pass the filter. *)
Definition breakpoint_line (b : value) : option (option Z) :=
  match b with
  | VInt z => Some (Some z)
  | VBool t => Some (Some (if t then 1 else 0))
  | VStr s => if isdigit s then Some (py_int s) else None
  | _ => None
  end.
(** The outer [None] is a breakpoint the filter drops; [Some None] is a
    conversion that raises. *)

Fixpoint breakpoint_set (bs : list value) : option (gset Z) :=
  match bs with
  | [] => Some ∅
  | b :: rest =>
      match breakpoint_line b with
      | None => breakpoint_set rest
      | Some None => None
      | Some (Some z) => (fun s => {[z]} ∪ s) <$> breakpoint_set rest
      end
  end.

Section Debug.

Variable D : debugger.
(** The catalogue: for each problem, the argument tuples of its tests. *)
Variable PROBLEMS : gmap string (list (list value)).

(** The arguments of the call, or the end of the request: an error
    answer, or the [ValueError] of an integer literal of too many
    digits, which is no [JSONDecodeError] and leaves the handler. *)
Definition choose_args (req : debug_request) (tests : list (list value))
  : outcome response + list value :=
  match req_testIndex req with
  | Some i =>
      match py_index tests i with
      | Some args => inr args
      | None => inl (Returns InvalidTestIndex)
      end
  | None =>
      match req_customArgsJson req with
      | Some (String c t) =>
          match json_loads (String c t) with
          | Decoded (VList parsed) => inr parsed
          | Decoded _ => inl (Returns CustomArgsNotArray)
          | Malformed => inl (Returns InvalidCustomArgsJson)
          | DigitLimit => inl (Raises DigitLimitError)
          end
      | _ =>
          match tests with
          | first :: _ => inr first
          | [] => inr []
          end
      end
  end.

(** The clause [except Exception as e] of the handler, followed by
    [finally]: the trace slot is emptied; the message is formatted
    inside the clause, unguarded. *)
Definition failed (e : raised) (steps : list step) (out err : string)
  : outcome response * option tracefn :=
  if exc_is_Exception e
  then match dbg_str_raises D e with
       | None => (Returns (TraceFailed (exc_type e +:+ ": " +:+ exc_text e) steps out err),
                  None)
       | Some e' => (Raises e', None)
       end
  else (Raises e, None).

(** The answer of a completed run, built after [finally] has emptied
    the trace slot: [_safe_repr(retval)], then [_safe_repr(args)], each
    running the [__repr__] of objects of the submission. *)
Definition completed_run (st : tstate) (out err : string) (retval : pyobj)
    (args : list value) : outcome response * option tracefn :=
  let slot1 := after_repr retval None in
  match _safe_repr retval with
  | Returns ret_preview =>
      let used := args_after D args in
      let slot2 := after_repr used slot1 in
      match _safe_repr used with
      | Returns args_used =>
          (Returns (TraceDone (trace st) (truncated st) out err ret_preview args_used),
           slot2)
      | Raises e => (Raises e, slot2)
      | NeverReturns => (NeverReturns, slot2)
      end
  | Raises e => (Raises e, slot1)
  | NeverReturns => (NeverReturns, slot1)
  end.

(** The handler, from a trace slot holding [slot]; the result is the
    answer and the trace slot it leaves. *)
Definition debug_solution (slot : option tracefn) (req : debug_request)
  : outcome response * option tracefn :=
  match PROBLEMS !! req_problem req with
  | None => (Returns InvalidProblem, slot)
  | Some tests =>
      let func_name :=
        if String.eqb (req_problem req) "palindrome" then "is_palindrome"
        else req_problem req in
      match choose_args req tests with
      | inl answer => (answer, slot)
      | inr args =>
          match breakpoint_set (req_breakpoints req) with
          | None => (Raises DigitLimitError, slot)
          | Some breakpoints =>
              let max_steps := default 500 (req_maxSteps req) in
              let code_lines := splitlines (req_code req) in
              (* try: *)
              match dbg_exec D (req_code req) with
              | Diverges => (NeverReturns, slot)
              | Finished _ _ (inl e) => failed e [] EmptyString EmptyString
              | Finished _ _ (inr namespace) =>
                  match namespace !! func_name with
                  | None => (Returns (FunctionNotFound func_name), None)
                  | Some user_func =>
                      (* sys.settrace(tracer) *)
                      let st0 := TState [] false (Some RequestTracer) in
                      match dbg_call D namespace user_func args with
                      | CallDiverges => (NeverReturns, Some RequestTracer)
                      | CallFinished events out err r =>
                          let st := deliver breakpoints max_steps code_lines st0 events in
                          match r with
                          | inr retval => completed_run st out err retval args
                          | inl e => failed e (trace st) out err
                          end
                      end
                  end
              end
          end
      end
  end.

End Debug.

End Tracer.

Import Tracer.

(** ** String literals of the target languages *)

Module TargetLiteral.

Inductive target : Type := Java | Cpp.

(** The simple escape sequences of each language.  Octal, hexadecimal and
    Unicode escapes are not read by this model ([None]); the marshallers
    never write one. *)
Definition simple_escape (lang : target) (c : ascii) : option ascii :=
  if Ascii.eqb c "\" then Some "\"%char
  else if Ascii.eqb c dquote then Some dquote
  else if Ascii.eqb c "'" then Some "'"%char
  else if Ascii.eqb c "n" then Some "010"%char
  else if Ascii.eqb c "t" then Some "009"%char
  else if Ascii.eqb c "r" then Some "013"%char
  else if Ascii.eqb c "b" then Some "008"%char
  else if Ascii.eqb c "f" then Some "012"%char
  else
    match lang with
    | Java => if Ascii.eqb c "s" then Some " "%char else None
    | Cpp =>
        if Ascii.eqb c "?" then Some "?"%char
        else if Ascii.eqb c "a" then Some "007"%char
        else if Ascii.eqb c "v" then Some "011"%char
        else None
    end.

(** A line terminator may not occur inside a string literal. *)
Definition line_terminator (c : ascii) : bool :=
  Ascii.eqb c "010" || Ascii.eqb c "013".

(** The characters a literal denotes, from just after its opening quote;
    the closing quote must be the last character of the text. *)
Fixpoint read_body (lang : target) (s : string) : option string :=
  match s with
  | EmptyString => None
  | String c s' =>
      if Ascii.eqb c dquote then
        match s' with
        | EmptyString => Some EmptyString
        | _ => None
        end
      else if Ascii.eqb c "\" then
        match s' with
        | String e s'' =>
            ch ← simple_escape lang e; String ch <$> read_body lang s''
        | EmptyString => None
        end
      else if line_terminator c then None
      else String c <$> read_body lang s'
  end.

(** The string a double-quoted literal denotes; [None] when the text is
    not one well-formed literal. *)
Definition read_literal (lang : target) (text : string) : option string :=
  match text with
  | String "034" body => read_body lang body
  | _ => None
  end.

Fixpoint no_line_terminator (s : string) : bool :=
  match s with
  | EmptyString => true
  | String c s' => negb (line_terminator c) && no_line_terminator s'
  end.

End TargetLiteral.

Import TargetLiteral.

(** ** Concrete hosts, interpreters and requests *)

Module Scenarios.

Definition unchanged (t : nat) (fs : gmap string node) : gmap string node := fs.

(** A machine on which the compilers reject the harness and every other
    program prints the line [RESULT:5]. *)
Definition rejecting_compiler : platform :=
  Platform "posix" (fun _ => "0.0") (fun _ => "<object>")
    (fun _ => inr "/tmp/tmpa1")
    (fun _ _ _ => None)
    (fun argv _ _ =>
       match argv with
       | "javac" :: _ | "g++" :: _ =>
           Exits 1 1 EmptyString "error: incompatible types"
                 (fun _ fs => <["/tmp/tmpa1/partial.o" := File "obj"]> fs)
       | _ => Exits 0 0 ("RESULT:5" +:+ nl) EmptyString unchanged
       end)
    (fun _ _ _ => false).

(** A machine on which compilation succeeds, leaving its product in the
    temporary directory, and the submission then never ends. *)
Definition endless_program : platform :=
  Platform "posix" (fun _ => "0.0") (fun _ => "<object>")
    (fun _ => inr "/tmp/tmpb2")
    (fun _ _ _ => None)
    (fun argv _ _ =>
       match argv with
       | "javac" :: _ =>
           Exits 2 0 EmptyString EmptyString
                 (fun _ fs => <["/tmp/tmpb2/TestRunner.class" := File "class"]> fs)
       | "g++" :: _ =>
           Exits 2 0 EmptyString EmptyString
                 (fun _ fs => <["/tmp/tmpb2/solution" := File "exe"]> fs)
       | _ => RunsForever (fun _ fs => <["/tmp/tmpb2/scratch.txt" := File "x"]> fs)
       end)
    (fun _ _ _ => false).

(** A machine on which every program ends at once with status 0 and
    prints [out]. *)
Definition printing (out : string) : platform :=
  Platform "posix" (fun _ => "0.0") (fun _ => "<object>")
    (fun _ => inr "/tmp/tmpc3")
    (fun _ _ _ => None)
    (fun _ _ _ => Exits 0 0 out EmptyString unchanged)
    (fun _ _ _ => false).

(** A machine on which the submission, run by [node], makes a
    directory [keep] beside its script, writes a file in it and makes the
    directory read-only, so that [rmtree] can remove neither; it also
    writes [notes.txt] in its working directory, which is the server's. *)
Definition locking_program : platform :=
  Platform "posix" (fun _ => "0.0") (fun _ => "<object>")
    (fun _ => inr "/tmp/tmpd4")
    (fun _ _ _ => None)
    (fun _ _ _ =>
       Exits 1 0 ("RESULT:5" +:+ nl) EmptyString
             (fun _ fs =>
                <["notes.txt" := File "kept"]>
                  (<["/tmp/tmpd4/keep/out.txt" := File "x"]>
                     (<["/tmp/tmpd4/keep" := Dir]> fs))))
    (fun _ _ path =>
       bool_decide (path ∈ ["/tmp/tmpd4"; "/tmp/tmpd4/keep"; "/tmp/tmpd4/keep/out.txt"])).

Definition empty_world : world := World ∅ [] 0.

(** [def spin(): while True: pass]: the definition is executed, the call
    never ends. *)
Definition spin_interpreter : interpreter :=
  Interpreter
    (fun _ => Finished EmptyString EmptyString (inr {["spin" := VObject 1]}))
    (fun _ _ _ => Diverges)
    (fun _ => None).

(** [import sys; sys.exit(1)] at the top of the submission. *)
Definition exit_interpreter : interpreter :=
  Interpreter
    (fun _ => Finished "bye" EmptyString (inl (Exc "SystemExit" "1" false)))
    (fun _ _ _ => Diverges)
    (fun _ => None).


(** A submission that prints [hi] and defines [two_sum] correctly, and one
    call of it that raises [ZeroDivisionError]. *)
Definition two_sum_interpreter : interpreter :=
  Interpreter
    (fun _ => Finished "hi" EmptyString (inr {["two_sum" := VObject 1]}))
    (fun _ _ args =>
       match args with
       | [VList [VInt 2; VInt 7; VInt 11; VInt 15]; VInt 9] =>
           Finished EmptyString EmptyString (inr (VList [VInt 0; VInt 1]))
       | [VList [VInt 1; VInt 2; VInt 3]; VInt 10] =>
           Finished EmptyString EmptyString (inr (VList [VInt (-1); VInt (-1)]))
       | _ =>
           Finished "!" EmptyString (inl (Exc "ZeroDivisionError" "division by zero" true))
       end)
    (fun _ => None).

(** A submission that raises, at its top, an exception of a class of
    its own whose [__str__] raises [RuntimeError]:
    [class Mute(Exception): def __str__(self): raise RuntimeError('no')]. *)
Definition mute_interpreter : interpreter :=
  Interpreter
    (fun _ => Finished "hi" EmptyString (inl (Exc "Mute" EmptyString true)))
    (fun _ _ _ => Diverges)
    (fun e => if String.eqb (exc_type e) "Mute" then Some (RuntimeError "no") else None).

Definition two_sum_args : list value :=
  [VList [VInt 2; VInt 7; VInt 11; VInt 15]; VInt 9].

Definition no_pair_args : list value :=
  [VList [VInt 1; VInt 2; VInt 3]; VInt 10].

(** A traced call of [summation(2, 3)] for the one-line submission
    [def summation(a, b): return a + b]: a [call], a [line] and a [return]
    event, all on line 1 of the submitted code. *)
Definition summation_code : string := "def summation(a, b): return a + b".

Definition five : pyobj := PyObj "int" (ReprText "5") None.
Definition none : pyobj := PyObj "NoneType" (ReprText "None") None.

Definition user_frame (line : Z) : frame :=
  Frame "<string>" line
        (Some [("a", PyObj "int" (ReprText "2") None); ("b", PyObj "int" (ReprText "3") None)]).

Definition three_events : list trace_event :=
  [ Event (user_frame 1) "call" none None;
    Event (user_frame 1) "line" none None;
    Event (user_frame 1) "return" five None ].

Definition small_debugger : debugger :=
  Debugger
    (fun _ => PyObj "tuple" (ReprText "(2, 3)") None)
    (fun _ => Finished EmptyString EmptyString (inr {["summation" := VObject 1]}))
    (fun _ _ _ => CallFinished three_events EmptyString EmptyString (inr five))
    (fun _ => None).

(** A submission that keeps the trace function it finds installed and
    returns an object whose [__repr__] puts it back. *)
Definition keeper_code : string :=
  join nl
    [ "import sys";
      "class Keeper:";
      "    hook = None";
      "    def __repr__(self):";
      "        sys.settrace(Keeper.hook)";
      "        return 'Keeper()'";
      "def summation(a, b):";
      "    Keeper.hook = sys.gettrace()";
      "    return Keeper()" ].

(** The object it returns: its [__repr__] calls
    [sys.settrace(Keeper.hook)], and the hook kept is the tracer of the
    request. *)
Definition keeper : pyobj := PyObj "Keeper" (ReprText "Keeper()") (Some (Some RequestTracer)).

(** The traced call of [summation(2, 3)] for it: the call on line 7, the
    lines 8 and 9, and the return on line 9. *)
Definition keeper_events : list trace_event :=
  [ Event (user_frame 7) "call" none None;
    Event (user_frame 8) "line" none None;
    Event (user_frame 9) "line" none None;
    Event (user_frame 9) "return" keeper None ].

Definition keeper_debugger : debugger :=
  Debugger
    (fun _ => PyObj "tuple" (ReprText "(2, 3)") None)
    (fun _ => Finished EmptyString EmptyString
                (inr {["sys" := VObject 1; "Keeper" := VObject 2; "summation" := VObject 3]}))
    (fun _ _ _ => CallFinished keeper_events EmptyString EmptyString (inr keeper))
    (fun _ => None).

Definition keeper_request : debug_request :=
  Request "summation" keeper_code None None [] None.

Definition keeper_trace : list step :=
  [ Step "call" 7 "def summation(a, b):" [("a", "2"); ("b", "3")] None;
    Step "line" 8 "    Keeper.hook = sys.gettrace()" [("a", "2"); ("b", "3")] None;
    Step "line" 9 "    return Keeper()" [("a", "2"); ("b", "3")] None;
    Step "return" 9 "    return Keeper()" [("a", "2"); ("b", "3")] (Some "Keeper()") ].

(** A submission that puts the trace function back each time the tracer
    has taken it out at the cap. *)
Definition reinstalling_code : string :=
  join nl
    [ "import sys";
      "def touch(): pass";
      "def summation(a, b):";
      "    hook = sys.gettrace()";
      "    sys.settrace(hook); touch()";
      "    sys.settrace(hook); touch()";
      "    return a + b" ].

(** The traced call of [summation(2, 3)] for it under a cap of 3: the
    call on line 3 and the lines 4 and 5 reach the cap; each
    [sys.settrace(hook)] then makes the call of [touch] that follows it
    an event for the tracer, which takes itself out again. *)
Definition touch_frame : frame := Frame "<string>" 2 (Some []).

Definition reinstalling_events : list trace_event :=
  [ Event (user_frame 3) "call" none None;
    Event (user_frame 4) "line" none None;
    Event (Frame "<string>" 5
                 (Some [("a", PyObj "int" (ReprText "2") None);
                        ("b", PyObj "int" (ReprText "3") None);
                        ("hook", PyObj "function" (ReprText "<function tracer>") None)]))
          "line" none None;
    Event touch_frame "call" none (Some (Some RequestTracer));
    Event touch_frame "call" none (Some (Some RequestTracer)) ].

Definition reinstalling_debugger : debugger :=
  Debugger
    (fun _ => PyObj "tuple" (ReprText "(2, 3)") None)
    (fun _ => Finished EmptyString EmptyString
                (inr {["sys" := VObject 1; "touch" := VObject 2; "summation" := VObject 3]}))
    (fun _ _ _ => CallFinished reinstalling_events EmptyString EmptyString (inr five))
    (fun _ => None).

Definition reinstalling_request : debug_request :=
  Request "summation" reinstalling_code None None [] (Some 3).

Definition small_catalogue : gmap string (list (list value)) :=
  {["summation" := [[VInt 2; VInt 3]; [VInt (-1); VInt 1]; [VInt 0; VInt 0]]]}.

Definition request_with_cap (cap : Z) : debug_request :=
  Request "summation" summation_code None None [] (Some cap).

(** The record of the [call] event of that run. *)
Definition call_step : step :=
  Step "call" 1 summation_code [("a", "2"); ("b", "3")] None.

End Scenarios.

Import Scenarios.

(** ** The [.env] loader *)

Module Env.

(** The lines of a text file as iterating over it yields them in text
    mode, without their terminators: a line ends at a line feed, at a
    carriage return, or at the two together. *)
Fixpoint text_lines (s : string) : list string :=
  match s with
  | EmptyString => []
  | String c s' =>
      if Ascii.eqb c "010" then EmptyString :: text_lines s'
      else if Ascii.eqb c "013" then
        match s' with
        | String "010" s'' => EmptyString :: text_lines s''
        | _ => EmptyString :: text_lines s'
        end
      else
        match text_lines s' with
        | line :: rest => String c line :: rest
        | [] => [String c EmptyString]
        end
  end.

(** [s.split(sep, 1)] when [sep] occurs in [s]: the text before the first
    occurrence and the text after it. *)
Fixpoint split_first (sep : ascii) (s : string) : option (string * string) :=
  match s with
  | EmptyString => None
  | String c s' =>
      if Ascii.eqb c sep then Some (EmptyString, s')
      else '(k, v) ← split_first sep s'; Some (String c k, v)
  end.

(** What one line of the file assigns, if anything: blank lines, lines
    that start with [#] and lines without [=] assign nothing. *)
Definition assignment (raw : string) : option (string * string) :=
  let line := strip raw in
  if String.eqb line EmptyString || startswith "#" line then None
  else '(k, v) ← split_first "=" line; Some (strip k, strip v).

(** A [dict] of strings, in insertion order. *)
Fixpoint env_set (k v : string) (d : list (string * string)) : list (string * string) :=
  match d with
  | [] => [(k, v)]
  | (k', v') :: d' =>
      if String.eqb k k' then (k', v) :: d' else (k', v') :: env_set k v d'
  end.

Fixpoint env_get (k : string) (d : list (string * string)) : option string :=
  match d with
  | [] => None
  | (k', v') :: d' => if String.eqb k k' then Some v' else env_get k d'
  end.

Definition parse_lines (lines : list string) : list (string * string) :=
  fold_left
    (fun env_dict raw =>
       match assignment raw with
       | Some (k, v) => env_set k v env_dict
       | None => env_dict
       end)
    lines [].

(** No line of [lines] assigns the name [k]. *)
Definition unassigned (k : string) (lines : list string) : Prop :=
  forall raw v, In raw lines -> assignment raw <> Some (k, v).

(** [_parse_env_file(path)]; the file is [None] when it does not exist. *)
Definition _parse_env_file (file : option string) : list (string * string) :=
  match file with
  | None => []
  | Some content => parse_lines (text_lines content)
  end.

(** [_validate_env_dict(env_dict)] *)
Definition _validate_env_dict (env_dict : list (string * string)) : bool :=
  let key := default EmptyString (env_get "OPENAI_API_KEY" env_dict) in
  startswith "sk-" key && (20 <? String.length key)%nat.

(** [os.environ[k] = v] on a POSIX system: a name or value with a NUL
    character is refused with [ValueError], the empty name with
    [OSError]. *)
Definition environ_set (k v : string) (environ : gmap string string)
  : raised + gmap string string :=
  if contains "000" k || contains "000" v
  then inl (Exc "ValueError" "embedded null byte" true)
  else if String.eqb k EmptyString
  then inl (Exc "OSError" "[Errno 22] Invalid argument" true)
  else inr (<[k := v]> environ).

(** The assignments of [items], in order, up to the first that is
    refused; the environment is returned as the failure leaves it. *)
Fixpoint environ_update (items : list (string * string)) (environ : gmap string string)
  : option raised * gmap string string :=
  match items with
  | [] => (None, environ)
  | (k, v) :: rest =>
      match environ_set k v environ with
      | inl e => (Some e, environ)
      | inr environ' => environ_update rest environ'
      end
  end.

(** The assignments of the lines of a file, in order. *)
Definition line_items (lines : list string) : list (string * string) :=
  omap assignment lines.

(** [_load_env_file(path)] *)
Definition _load_env_file (file : option string) (environ : gmap string string)
  : option raised * gmap string string :=
  match file with
  | None => (None, environ)
  | Some content => environ_update (line_items (text_lines content)) environ
  end.

(** [reload_env_if_valid()]: the pair it returns (the key, [None] for no
    key, and the message), or the exception, and the environment it
    leaves. *)
Definition reload_env_if_valid (file : option string) (environ : gmap string string)
  : (raised + (option string * string)) * gmap string string :=
  let env_dict := _parse_env_file file in
  if (match env_dict with [] => false | _ => true end) && _validate_env_dict env_dict then
    match environ_update env_dict environ with
    | (Some e, environ') => (inl e, environ')
    | (None, environ') =>
        (inr (env_get "OPENAI_API_KEY" env_dict, "loaded from .env"), environ')
    end
  else
    let existing := default EmptyString (environ !! "OPENAI_API_KEY") in
    if negb (String.eqb existing EmptyString)
    then (inr (Some existing, "from environment"), environ)
    else (inr (None, "no API key found"), environ).

End Env.

Import Env.

(** ** Hints *)

Module Hints.

(** [d.get(k)] and [k in d] on a dict with string keys. *)
Fixpoint dict_get (k : string) (d : list (string * value)) : option value :=
  match d with
  | [] => None
  | (k', v) :: d' => if String.eqb k k' then Some v else dict_get k d'
  end.

Definition has_key (k : string) (d : list (string * value)) : bool :=
  bool_decide (is_Some (dict_get k d)).

Definition default_bullets : value := VList [VStr "No hints available yet."].
Definition default_pseudocode : value := VStr EmptyString.

Definition default_hints : value :=
  VDict [("bullets", default_bullets); ("pseudocode", default_pseudocode)].

(** [get_hints_for(problem_name, language)] over the table [HINTS]. *)
Definition get_hints_for (HINTS : gmap string value) (problem_name language : string)
  : value :=
  match HINTS !! problem_name with
  | None => default_hints
  | Some entry =>
      match entry with
      | VDict e =>
          if has_key language e then default default_hints (dict_get language e)
          else if has_key "bullets" e || has_key "pseudocode" e then
            VDict [("bullets", default default_bullets (dict_get "bullets" e));
                   ("pseudocode", default default_pseudocode (dict_get "pseudocode" e))]
          else if has_key "default" e then default default_hints (dict_get "default" e)
          else default_hints
      | _ => default_hints
      end
  end.

(** A dict that has both keys of a hints dict. *)
Definition is_hints (v : value) : bool :=
  match v with
  | VDict d => has_key "bullets" d && has_key "pseudocode" d
  | _ => false
  end.

(** A table in which whatever is stored under a key other than [bullets]
    and [pseudocode] is a hints dict. *)
Definition well_formed_table (HINTS : gmap string value) : Prop :=
  forall problem_name e k v,
    HINTS !! problem_name = Some (VDict e) ->
    k <> "bullets" -> k <> "pseudocode" ->
    dict_get k e = Some v -> is_hints v = true.

End Hints.

Import Hints.

(** ** Submission of a solution *)

Module Submit.

Section Equality.

(** The comparison when a float, or an object that is not a data value,
    is one of the operands. *)
Variable special_eq : value -> value -> bool.

Definition int_of (v : value) : option Z :=
  match v with
  | VInt z => Some z
  | VBool b => Some (if b then 1 else 0)
  | _ => None
  end.

(** [a == b] *)
Fixpoint py_eq (a b : value) {struct a} : bool :=
  match a, b with
  | VObject _, _ | _, VObject _ | VFloat _, _ | _, VFloat _ =>
      match a, b with
      | (VObject _ | VFloat _ | VInt _ | VBool _), (VObject _ | VFloat _ | VInt _ | VBool _) =>
          special_eq a b
      | VObject _, _ | _, VObject _ => special_eq a b
      | _, _ => false
      end
  | VNone, VNone => true
  | (VInt _ | VBool _), (VInt _ | VBool _) =>
      bool_decide (int_of a = int_of b)
  | VStr s, VStr t => String.eqb s t
  | VList l, VList m | VTuple l, VTuple m =>
      (fix all2 (l m : list value) : bool :=
         match l, m with
         | [], [] => true
         | x :: l', y :: m' => py_eq x y && all2 l' m'
         | _, _ => false
         end) l m
  | VDict d, VDict e =>
      (length d =? length e)%nat
      && (fix sub (d : list (string * value)) : bool :=
            match d with
            | [] => true
            | (k, x) :: d' =>
                match dict_get k e with
                | Some y => py_eq x y && sub d'
                | None => false
                end
            end) d
  | _, _ => false
  end.

End Equality.

Definition executor : Type :=
  string -> list value -> string -> exec (value * string * string).

(** [execute_python] beside the executors that act on the machine. *)
Definition in_process (I : interpreter) : executor :=
  fun code test_args problem_name w => (execute_python I code test_args problem_name, w).

(** The table [LANGUAGE_EXECUTORS]. *)
Definition LANGUAGE_EXECUTORS (P : platform) (I : interpreter) : gmap string executor :=
  {[ "python" := in_process I;
     "javascript" := execute_javascript P;
     "java" := execute_java P;
     "cpp" := execute_cpp P ]}.

(** One entry of the answer; the [traceback] text of a failure is left
    out. *)
Record test_result : Type := TestResult {
  test_num : nat;
  args_text : string;
  expected_text : string;
  actual : option string;
  passed : bool;
  error : option string;
  test_stdout : option string;
  test_stderr : option string
}.

Inductive submit_response : Type :=
  | InvalidJson                       (* 400, [Invalid JSON data] *)
  | SubmitInvalidProblem              (* 400, [Invalid problem] *)
  | UnsupportedLanguage (language : string)   (* 400 *)
  | Judged (n_passed n_failed total : nat) (results : list test_result).

(** The body of the request: [None] for a body that is false (absent,
    empty); the fields are at the types the handler expects. *)
Record submit_request : Type := SubmitRequest {
  sub_problem : option string;
  sub_code : option string;
  sub_language : option string
}.

Section Handler.

Variable P : platform.
Variable I : interpreter.
Variable special_eq : value -> value -> bool.
(** The catalogue: for each problem its tests, arguments and expected
    value. *)
Variable PROBLEMS : gmap string (list (list value * value)).

(** The loop over the tests, from the test numbered [S i]. *)
Fixpoint run_cases (run : executor) (code func_name : string) (i : nat)
    (tests : list (list value * value)) (results : list test_result)
    (n_passed n_failed : nat) : exec (list test_result * nat * nat) :=
  match tests with
  | [] => ret (results, n_passed, n_failed)
  | (args, expected) :: rest =>
      fun w =>
        let entry := TestResult (S i) (str P (VTuple args)) (str P expected) in
        match run code args func_name w with
        | (Returns (result, out, err), w') =>
            if py_eq special_eq result expected
            then run_cases run code func_name (S i) rest
                   (results ++ [entry (Some (str P result)) true None (Some out) (Some err)])
                   (S n_passed) n_failed w'
            else run_cases run code func_name (S i) rest
                   (results ++ [entry (Some (str P result)) false None (Some out) (Some err)])
                   n_passed (S n_failed) w'
        | (Raises e, w') =>
            if exc_is_Exception e
            then run_cases run code func_name (S i) rest
                   (results ++ [entry None false
                                  (Some (exc_type e +:+ ": " +:+ exc_text e)) None None])
                   n_passed (S n_failed) w'
            else (Raises e, w')
        | (NeverReturns, w') => (NeverReturns, w')
        end
  end.

(** [submit_solution()] *)
Definition submit_solution (data : option submit_request) : exec submit_response :=
  match data with
  | None => ret InvalidJson
  | Some data =>
      let code := default EmptyString (sub_code data) in
      let language := default "python" (sub_language data) in
      match sub_problem data ≫= (fun name => (fun tests => (name, tests)) <$> PROBLEMS !! name) with
      | None => ret SubmitInvalidProblem
      | Some (problem_name, tests) =>
          match LANGUAGE_EXECUTORS P I !! language with
          | None => ret (UnsupportedLanguage language)
          | Some run =>
              let func_name :=
                if String.eqb problem_name "palindrome" then "is_palindrome"
                else problem_name in
              do r <- run_cases run code func_name 0 tests [] 0 0;
              ret (Judged r.1.2 r.2 (length tests) r.1.1)
          end
      end
  end.

End Handler.

(** An executor that always comes back, and raises nothing outside the
    [Exception] hierarchy. *)
Definition well_behaved (run : executor) : Prop :=
  forall code test_args name w,
    match fst (run code test_args name w) with
    | Returns _ => True
    | Raises e => exc_is_Exception e = true
    | NeverReturns => False
    end.

(** A machine whose failures (no temporary directory, no write, no
    launch) are all ordinary exceptions. *)
Definition civil (P : platform) : Prop :=
  (forall w e, mkdtemp_choice P w = inl e -> exc_is_Exception e = true)
  /\ (forall path text w e, write_failure P path text w = Some e -> exc_is_Exception e = true)
  /\ (forall argv cwd w e, child P argv cwd w = CannotStart e -> exc_is_Exception e = true).

(** A computation that comes back and raises nothing outside the
    [Exception] hierarchy. *)
Definition polite {A} (m : exec A) : Prop :=
  forall w,
    match fst (m w) with
    | Returns _ => True
    | Raises e => exc_is_Exception e = true
    | NeverReturns => False
    end.

(** A value that is no number, no Boolean and no string: [None], a list,
    a tuple or a dict. *)
Definition structured (v : value) : bool :=
  match v with
  | VNone | VList _ | VTuple _ | VDict _ => true
  | _ => false
  end.

(** The name of the function called for a problem. *)
Definition entry_point (problem_name : string) : string :=
  if String.eqb problem_name "palindrome" then "is_palindrome" else problem_name.

(** What the executor does on each test in turn, each from the world the
    test before has left. *)
Fixpoint executions (run : executor) (code func_name : string)
    (tests : list (list value * value)) (w : world)
  : list (outcome (value * string * string)) :=
  match tests with
  | [] => []
  | (args, _) :: rest =>
      fst (run code args func_name w)
      :: executions run code func_name rest (snd (run code args func_name w))
  end.

(** The body of the loop of [submit_solution]: the entry of the answer
    for the test numbered [i], from what the executor did on it.  A
    value that equals the expected one passes; any other value, and an
    exception of the [Exception] hierarchy, fails. *)
Definition verdict (P : platform) (special_eq : value -> value -> bool) (i : nat)
    (test : list value * value) (o : outcome (value * string * string)) : test_result :=
  let entry := TestResult i (str P (VTuple test.1)) (str P test.2) in
  match o with
  | Returns (result, out, err) =>
      entry (Some (str P result)) (py_eq special_eq result test.2) None (Some out) (Some err)
  | Raises e =>
      entry None false (Some (exc_type e +:+ ": " +:+ exc_text e)) None None
  | NeverReturns => entry None false None None None
  end.

(** The entries for the tests numbered from [S i]. *)
Fixpoint verdicts (P : platform) (special_eq : value -> value -> bool) (i : nat)
    (tests : list (list value * value)) (outcomes : list (outcome (value * string * string)))
  : list test_result :=
  match tests, outcomes with
  | test :: tests', o :: outcomes' =>
      verdict P special_eq (S i) test o :: verdicts P special_eq (S i) tests' outcomes'
  | _, _ => []
  end.

End Submit.

Import Submit.

(** ** The practice test runner, [run_tests.py] *)

Module Practice.

(** The global counters [PASSED], [FAILED] and [TODO]. *)
Record counters : Type := Counters {
  PASSED : nat;
  FAILED : nat;
  TODO : nat
}.

(** A practice function: what the call of it on the arguments does. *)
Definition practice_function : Type := list value -> outcome value.

Section Check.

Variable special_eq : value -> value -> bool.

(** [check(name, func, args, expected)].  The clause
    [except NotImplementedError] is matched on the name of the type. *)
Definition check (func : practice_function) (args : list value) (expected : value)
    (c : counters) : outcome counters :=
  match func args with
  | Returns result =>
      if py_eq special_eq result expected
      then Returns (Counters (S (PASSED c)) (FAILED c) (TODO c))
      else Returns (Counters (PASSED c) (S (FAILED c)) (TODO c))
  | Raises e =>
      if String.eqb (exc_type e) "NotImplementedError"
      then Returns (Counters (PASSED c) (FAILED c) (S (TODO c)))
      else if exc_is_Exception e
      then Returns (Counters (PASSED c) (S (FAILED c)) (TODO c))
      else Raises e
  | NeverReturns => NeverReturns
  end.

(** A run of checks, one after the other. *)
Fixpoint check_all (checks : list (practice_function * list value * value))
    (c : counters) : outcome counters :=
  match checks with
  | [] => Returns c
  | (func, args, expected) :: rest =>
      match check func args expected c with
      | Returns c' => check_all rest c'
      | Raises e => Raises e
      | NeverReturns => NeverReturns
      end
  end.

End Check.

(** The end of [main]: the exit status of the script. *)
Definition exit_status (c : counters) : nat :=
  if (0 <? FAILED c)%nat then 1 else 0.

Definition total (c : counters) : nat := PASSED c + FAILED c + TODO c.

(** The practice functions of [problems/], as shipped: called with as
    many arguments as it has parameters, each raises [NotImplementedError]
    with its own message; called with another number of arguments, the
    call itself raises [TypeError] (its message is not modelled). *)
Definition not_implemented (parameters : nat) (msg : string) : practice_function :=
  fun args =>
    if (length args =? parameters)%nat
    then Raises (Exc "NotImplementedError" msg true)
    else Raises (TypeError "wrong number of positional arguments").

Definition coin_change : practice_function :=
  not_implemented 2 "DP with size amount+1 initialized to inf except 0".
Definition frequency_sort : practice_function :=
  not_implemented 1 "Use a Counter and sorted with custom key".
Definition group_anagrams : practice_function :=
  not_implemented 1 "Use dict keyed by tuple of counts or sorted string".
Definition max_subarray : practice_function :=
  not_implemented 1 "Use Kadane's algorithm tracking current and best sum".
Definition merge_intervals : practice_function :=
  not_implemented 1 "Sort by start then merge in one pass".
Definition number_of_islands : practice_function :=
  not_implemented 1 "Iterate all cells; when '1' found, flood-fill and increment count".
Definition product_except_self : practice_function :=
  not_implemented 1 "Compute prefix and suffix products in O(n)".
Definition three_sum : practice_function :=
  not_implemented 1 "Sort and two-pointer per index; deduplicate carefully".
Definition two_sum_sorted : practice_function :=
  not_implemented 2 "Use left/right pointers moving inward based on sum".

(** The shipped functions, each with the number of its parameters. *)
Definition shipped : list (practice_function * nat) :=
  [(coin_change, 2%nat); (frequency_sort, 1%nat); (group_anagrams, 1%nat);
   (max_subarray, 1%nat); (merge_intervals, 1%nat); (number_of_islands, 1%nat);
   (product_except_self, 1%nat); (three_sum, 1%nat); (two_sum_sorted, 2%nat)].

(** The checks [run_tests.py] makes of [coin_change] and of
    [two_sum_sorted]. *)
Definition coin_checks : list (practice_function * list value * value) :=
  [ (coin_change, [VList [VInt 1; VInt 2; VInt 5]; VInt 11], VInt 3);
    (coin_change, [VList [VInt 2]; VInt 3], VInt (-1));
    (two_sum_sorted, [VList [VInt 2; VInt 7; VInt 11; VInt 15]; VInt 9],
       VList [VInt 0; VInt 1]);
    (two_sum_sorted, [VList [VInt 1; VInt 2; VInt 3; VInt 4; VInt 4; VInt 9]; VInt 8],
       VList [VInt 3; VInt 4]) ].

End Practice.

Import Practice.

(** ** What the tracer records, event by event *)

Module TraceSpec.

(** The events the closure [tracer] makes a record of: those of the
    submitted code ([<string>]), of kind [call], [line] or [return], on a
    line of the breakpoint set when there is one. *)
Definition recordable (breakpoints : gset Z) (ev : trace_event) : bool :=
  String.eqb (co_filename (ev_frame ev)) "<string>"
  && bool_decide (ev_name ev ∈ ["call"; "line"; "return"])
  && (bool_decide (breakpoints = ∅) || bool_decide (f_lineno (ev_frame ev) ∈ breakpoints)).

(** The record made of an event, when one is made. *)
Definition record_of (code_lines : list string) (ev : trace_event) : step :=
  match step_of code_lines ev with
  | Returns s => s
  | _ => Step (ev_name ev) (f_lineno (ev_frame ev)) EmptyString [] None
  end.

(** The longest preview [_safe_repr] gives: 200 characters and the
    ellipsis. *)
Definition preview_limit : nat := 201.

(** A record whose previews are all within the limit. *)
Definition previews_bounded (s : step) : Prop :=
  Forall (fun kv => (char_length kv.2 <= preview_limit)%nat) (step_locals s)
  /\ match step_return s with
     | Some r => (char_length r <= preview_limit)%nat
     | None => True
     end.

(** An object whose [__repr__] leaves the trace slot alone and for which
    [_safe_repr] gives a preview. *)
Definition tame (obj : pyobj) : bool :=
  match obj_settrace obj, _safe_repr obj with
  | None, Returns _ => true
  | _, _ => false
  end.

(** An event at which the submission leaves the tracing to the handler:
    it has not called [sys.settrace] since the event before, and the
    objects the tracer previews at the event are tame. *)
Definition quiet (ev : trace_event) : bool :=
  match ev_settrace ev with
  | None => true
  | Some _ => false
  end
  && match f_locals (ev_frame ev) with
     | Some items => forallb (fun kv => tame kv.2) items
     | None => true
     end
  && (negb (String.eqb (ev_name ev) "return") || tame (ev_arg ev)).

(** A submission that leaves the tracing to the handler in every traced
    call. *)
Definition leaves_tracing_alone (D : debugger) : Prop :=
  forall namespace user_func args events out err r,
    dbg_call D namespace user_func args = CallFinished events out err r ->
    Forall (fun ev => quiet ev = true) events.

End TraceSpec.

Import TraceSpec.

(** ** Two problems of the catalogue and requests on them *)

Module Cases.

(** The tests of [summation] and of [two_sum] in [PROBLEMS]. *)
Definition summation_tests : list (list value * value) :=
  [ ([VInt 2; VInt 3], VInt 5);
    ([VInt (-1); VInt 1], VInt 0);
    ([VInt 0; VInt 0], VInt 0) ].

Definition two_sum_tests : list (list value * value) :=
  [ ([VList [VInt 2; VInt 7; VInt 11; VInt 15]; VInt 9], VList [VInt 0; VInt 1]);
    ([VList [VInt 3; VInt 2; VInt 4]; VInt 6], VList [VInt 1; VInt 2]);
    ([VList [VInt 3; VInt 3]; VInt 6], VList [VInt 0; VInt 1]);
    ([VList [VInt 1; VInt 2; VInt 3]; VInt 10], VList [VInt (-1); VInt (-1)]) ].

Definition two_problems : gmap string (list (list value * value)) :=
  {[ "summation" := summation_tests; "two_sum" := two_sum_tests ]}.

(** No float and no foreign object is compared in these tests. *)
Definition no_special (a b : value) : bool := false.

Definition submission (problem language : string) : option submit_request :=
  Some (SubmitRequest (Some problem) (Some "code") (Some language)).

(** A machine on which no temporary directory can be created. *)
Definition full_disk : platform :=
  Platform "posix" (fun _ => "0.0") (fun _ => "<object>")
    (fun _ => inl (Exc "OSError" "[Errno 28] No space left on device" true))
    (fun _ _ _ => None)
    (fun _ _ _ => Exits 0 0 EmptyString EmptyString unchanged)
    (fun _ _ _ => false).

(** A string argument with quotes and a backslash in it. *)
Definition quoted : string := "say " +:+ dq +:+ "hi" +:+ dq +:+ " \ bye".

End Cases.

Import Cases.

(** * Properties *)

(** ** The built-ins, on sample inputs *)

Example strip_sample : strip ("  a b " +:+ String "009" nl) = "a b".
Proof. reflexivity. Qed.

Example split_sample : split "010" ("a" +:+ nl +:+ "b" +:+ nl) = ["a"; "b"; ""].
Proof. reflexivity. Qed.

Example splitlines_sample :
  splitlines ("ab" +:+ nl +:+ "cd" +:+ String "013" nl +:+ nl +:+ "e" +:+ nl)
  = ["ab"; "cd"; ""; "e"].
Proof. reflexivity. Qed.

Example replace_sample :
  replace "public class" "class" "public class A {} public class B {}"
  = "class A {} class B {}".
Proof. reflexivity. Qed.

Example py_int_sample :
  map py_int ["1"; "+1"; "-1"; " 12 "; "1_0"; "_1"; "1_"; "1__0"; "- 1"; "+-1"; ""; "007"; "1.0"]
  = [Some 1; Some 1; Some (-1); Some 12; Some 10; None; None; None; None; None; None;
     Some 7; None].
Proof. reflexivity. Qed.

Example py_float_sample :
  map py_float ["1."; ".5"; "."; "1.5e"; "1.5e+"; "1.5e3"; "1_0.5"; "1_.5"; "1._5";
                "-Infinity"; "+nan"; "infin"; ".e5"; "+.5e-1"; "1 .5"; "1..2"; "a.b"; "1e5"]
  = [Some (FDec false 1 0); Some (FDec false 5 (-1)); None; None; None;
     Some (FDec false 15 2); Some (FDec false 105 (-1)); None; None;
     Some (FInf true); Some FNan; None; None; Some (FDec false 5 (-2)); None; None; None;
     Some (FDec false 1 5)].
Proof. reflexivity. Qed.

Example json_loads_sample :
  map json_loads ["[0,1]"; "[-1,-1]"; " [0, 1] "; "01"; "-0"; "1.5"; "1."; "NaN"; "[1,]";
                  "[ ]"; "1 2"; ""; "True"; "[[[[5]]]]"; "{" +:+ dq +:+ "k" +:+ dq +:+ ": [true, null]}";
                  dq +:+ "aé\n" +:+ dq]
  = [Decoded (VList [VInt 0; VInt 1]); Decoded (VList [VInt (-1); VInt (-1)]);
     Decoded (VList [VInt 0; VInt 1]); Malformed; Decoded (VInt 0);
     Decoded (VFloat (FDec false 15 (-1))); Malformed; Decoded (VFloat FNan); Malformed;
     Decoded (VList []); Malformed; Malformed; Malformed;
     Decoded (VList [VList [VList [VList [VInt 5]]]]);
     Decoded (VDict [("k", VList [VBool true; VNone])]);
     Decoded (VStr ("a" +:+ utf8 233 +:+ nl))].
Proof. vm_compute. reflexivity. Qed.

Example json_dumps_sample :
  json_dumps (fun _ => "1.5")
    (VTuple [VList [VInt 2; VInt 7; VInt 11; VInt 15]; VInt 9; VStr ("a" +:+ dq +:+ "\" +:+ nl);
             VFloat (FDec false 15 (-1)); VNone; VBool true])
  = Some ("[[2, 7, 11, 15], 9, " +:+ dq +:+ "a\" +:+ dq +:+ "\\\n" +:+ dq
          +:+ ", 1.5, null, true]").
Proof. vm_compute. reflexivity. Qed.

(** ** Marshalling of arguments *)

Lemma append_assoc (x y z : string) : (x +:+ y) +:+ z = x +:+ (y +:+ z).
Proof.
  induction x as [|c x IH]; [reflexivity|].
  change (String c ((x +:+ y) +:+ z) = String c (x +:+ (y +:+ z))).
  now f_equal.
Qed.

Lemma append_nil_r (x : string) : x +:+ EmptyString = x.
Proof.
  induction x as [|c x IH]; [reflexivity|].
  change (String c (x +:+ EmptyString) = String c x).
  now f_equal.
Qed.

Section ReplaceFacts.

Variables (c : ascii) (new : string).

Lemma prefix_single (d : ascii) (s : string) :
  String.prefix (String c EmptyString) (String d s) = Ascii.eqb c d.
Proof.
  simpl. destruct (ascii_dec c d) as [->|Hne].
  - rewrite Ascii.eqb_refl. now destruct s.
  - symmetry. now apply Ascii.eqb_neq.
Qed.

(** Replacing a one-character text works character by character. *)
Lemma replace_single_cons (d : ascii) (s : string) :
  replace (String c EmptyString) new (String d s)
  = (if Ascii.eqb c d then new else String d EmptyString)
    +:+ replace (String c EmptyString) new s.
Proof.
  unfold replace. cbn [replace_from]. rewrite prefix_single.
  destruct (Ascii.eqb c d); reflexivity.
Qed.

Lemma replace_single_app (x y : string) :
  replace (String c EmptyString) new (x +:+ y)
  = replace (String c EmptyString) new x +:+ replace (String c EmptyString) new y.
Proof.
  induction x as [|d x IH]; [reflexivity|].
  change (String d x +:+ y) with (String d (x +:+ y)).
  rewrite !replace_single_cons, IH.
  destruct (Ascii.eqb c d); cbn; [|reflexivity].
  now rewrite append_assoc.
Qed.

End ReplaceFacts.

Lemma escaped_cons (c : ascii) (s : string) :
  escaped (String c s) = escape_char c +:+ escaped s.
Proof.
  unfold escaped, escape_char.
  rewrite (replace_single_cons "\" "\\" c s).
  unfold dq at 1 3. rewrite replace_single_app. fold dq.
  destruct (Ascii.eqb_spec "\"%char c) as [<-|Hb].
  - reflexivity.
  - destruct (Ascii.eqb_spec c "\"%char) as [->|_]; [congruence|].
    unfold dq at 1. rewrite replace_single_cons. fold dq.
    rewrite (Ascii.eqb_sym dquote c).
    destruct (Ascii.eqb c dquote); reflexivity.
Qed.

Lemma read_body_escaped (lang : target) (s : string) :
  no_line_terminator s = true ->
  read_body lang (escaped s +:+ dq) = Some s.
Proof.
  induction s as [|c s IH]; intros Hs; [reflexivity|].
  cbn in Hs. apply andb_prop in Hs as [Hc Hs].
  rewrite escaped_cons, append_assoc. specialize (IH Hs).
  remember (escaped s +:+ dq) as rest eqn:Hrest. clear Hrest.
  unfold escape_char.
  destruct (Ascii.eqb_spec c "\"%char) as [->|Hb].
  - change ("\\" +:+ rest) with (String "\" (String "\" rest)).
    cbn. rewrite IH. reflexivity.
  - destruct (Ascii.eqb_spec c dquote) as [->|Hq].
    + change (("\" +:+ dq) +:+ rest) with (String "\" (String dquote rest)).
      cbn. rewrite IH. reflexivity.
    + change (String c EmptyString +:+ rest) with (String c rest).
      cbn [read_body].
      apply Ascii.eqb_neq in Hb, Hq. rewrite Hb, Hq.
      apply negb_true_iff in Hc. rewrite Hc, IH. reflexivity.
Qed.

Lemma python_to_java_str (P : platform) (s : string) :
  python_to_java P (VStr s) = dq +:+ escaped s +:+ dq.
Proof. reflexivity. Qed.

Lemma python_to_cpp_str (P : platform) (s : string) :
  python_to_cpp P (VStr s) = dq +:+ escaped s +:+ dq.
Proof. reflexivity. Qed.

(** X19: the round trip holds for every string without a line feed or a
    carriage return, embedded quotes and backslashes included: read as a
    Java or C++ string literal, the text the marshallers write for it
    gives the string back. *)
Lemma marshal_round_trip (P : platform) (lang : target) (s : string) :
  no_line_terminator s = true ->
  read_literal lang (python_to_java P (VStr s)) = Some s
  /\ read_literal lang (python_to_cpp P (VStr s)) = Some s.
Proof.
  intros Hs. rewrite python_to_java_str, python_to_cpp_str.
  split; apply (read_body_escaped lang s Hs).
Qed.

Example marshal_quote_backslash :
  let s := "say " +:+ dq +:+ "hi" +:+ dq +:+ " \ bye" in
  python_to_java (printing EmptyString) (VStr s)
  = dq +:+ "say \" +:+ dq +:+ "hi\" +:+ dq +:+ " \\ bye" +:+ dq
  /\ read_literal Java (python_to_java (printing EmptyString) (VStr s)) = Some s
  /\ read_literal Cpp (python_to_cpp (printing EmptyString) (VStr s)) = Some s.
Proof. repeat split; reflexivity. Qed.

(** C6, at the failing input: a string with a line feed is written with
    the raw line feed between the quotes, which neither Java nor C++
    reads as a string literal, so the round trip does not give the string
    back. *)
Theorem marshal_line_feed_not_a_literal :
  forall P : platform,
    let s := "a" +:+ nl +:+ "b" in
    python_to_java P (VStr s) = dq +:+ s +:+ dq
    /\ python_to_cpp P (VStr s) = dq +:+ s +:+ dq
    /\ read_literal Java (python_to_java P (VStr s)) = None
    /\ read_literal Cpp (python_to_cpp P (VStr s)) = None.
Proof. intros P. repeat split; reflexivity. Qed.

(** C7: a Boolean argument is written [true] or [false] by both
    marshallers, never [1] or [0], although [isinstance(val, int)] holds
    for it: the test for [bool] comes first. *)
Theorem boolean_marshalled_as_literal :
  forall (P : platform) (b : bool),
    isinstance_int (VBool b) = true
    /\ python_to_java P (VBool b) = (if b then "true" else "false")
    /\ python_to_cpp P (VBool b) = (if b then "true" else "false")
    /\ python_to_java P (VBool b) <> "1" /\ python_to_java P (VBool b) <> "0"
    /\ python_to_cpp P (VBool b) <> "1" /\ python_to_cpp P (VBool b) <> "0".
Proof. intros P [|]; cbn; repeat split; discriminate. Qed.

(** ** Parsing of the result line *)

Lemma digit_facts (c : ascii) :
  is_digit c = true ->
  c_isspace c = false /\ str_isspace c = false /\ Ascii.eqb c "_" = false
  /\ Ascii.eqb "." c = false /\ c <> "+"%char /\ c <> "-"%char.
Proof.
  destruct c as [[] [] [] [] [] [] [] []]; cbn; try discriminate;
    intros _; repeat split; discriminate.
Qed.

Lemma all_digits_lstrip (sp : ascii -> bool) (s : string) :
  (forall c, is_digit c = true -> sp c = false) ->
  all_digits s = true -> lstrip_with sp s = s.
Proof.
  intros Hsp. destruct s as [|c s]; [reflexivity|]. cbn.
  intros [Hc _]%andb_prop. now rewrite (Hsp c Hc).
Qed.

Lemma all_digits_rstrip (sp : ascii -> bool) (s : string) :
  (forall c, is_digit c = true -> sp c = false) ->
  all_digits s = true -> rstrip_with sp s = s.
Proof.
  intros Hsp. induction s as [|c s IH]; [reflexivity|]. cbn.
  intros [Hc Hs]%andb_prop. rewrite (IH Hs), (Hsp c Hc). now destruct s.
Qed.

Lemma all_digits_run (s : string) (prev : option ascii) :
  all_digits s = true ->
  (s <> EmptyString \/ exists p, prev = Some p /\ is_digit p = true) ->
  digit_run prev s = Some s.
Proof.
  revert prev. induction s as [|c s IH]; intros prev Hs Hne.
  - destruct Hne as [Hne|(p & -> & Hp)]; [congruence|]. cbn. now rewrite Hp.
  - cbn in Hs. apply andb_prop in Hs as [Hc Hs]. cbn [digit_run].
    destruct (digit_facts c Hc) as (_ & _ & -> & _).
    rewrite Hc, (IH (Some c) Hs); [reflexivity|]. right. eauto.
Qed.

Lemma all_digits_no_point (s : string) :
  all_digits s = true -> contains "." s = false.
Proof.
  induction s as [|c s IH]; [reflexivity|]. cbn [all_digits contains].
  intros [Hc Hs]%andb_prop.
  destruct (digit_facts c Hc) as (_ & _ & _ & -> & _). now apply IH.
Qed.

(** [int()] accepts every non-empty run of at most 4300 ASCII digits. *)
Lemma py_int_digits (s : string) :
  isdigit s = true ->
  (String.length s <= int_max_str_digits)%nat ->
  py_int s = Some (decimal_value 0 s).
Proof.
  unfold isdigit. intros [Hne Hs]%andb_prop Hlen. unfold py_int.
  rewrite (all_digits_lstrip c_isspace), (all_digits_rstrip c_isspace); try assumption;
    try (intros c Hc; now destruct (digit_facts c Hc)).
  assert (split_sign s = (false, s)) as ->.
  { destruct s as [|c s]; [reflexivity|]. cbn in Hs.
    apply andb_prop in Hs as [Hc _].
    destruct (digit_facts c Hc) as (_ & _ & _ & _ & Hp & Hm).
    unfold split_sign.
    destruct c as [[] [] [] [] [] [] [] []]; try reflexivity; congruence. }
  rewrite all_digits_run; [|assumption|].
  - apply Nat.leb_le in Hlen. unfold Nat.ltb.
    destruct (S int_max_str_digits <=? String.length s)%nat eqn:E; [|reflexivity].
    apply Nat.leb_le in E. apply Nat.leb_le in Hlen. lia.
  - left. intros ->. discriminate.
Qed.

Lemma lower_char_cases (c d : ascii) :
  lower_char c = d -> c = d \/ c = ascii_of_N (code d - 32).
Proof.
  destruct c as [[] [] [] [] [] [] [] []]; intros <-;
    first [left; reflexivity | right; reflexivity].
Qed.

Lemma java_result_true (s : string) :
  lower s = "true" -> java_result s = VBool true.
Proof.
  destruct s as [|c1 [|c2 [|c3 [|c4 [|c5 s]]]]]; cbn; try discriminate.
  intros [= H1 H2 H3 H4].
  apply lower_char_cases in H1, H2, H3, H4.
  destruct H1 as [->| ->], H2 as [->| ->], H3 as [->| ->], H4 as [->| ->];
    vm_compute; reflexivity.
Qed.

Lemma java_result_false (s : string) :
  lower s = "false" -> java_result s = VBool false.
Proof.
  destruct s as [|c1 [|c2 [|c3 [|c4 [|c5 [|c6 s]]]]]]; cbn; try discriminate.
  intros [= H1 H2 H3 H4 H5].
  apply lower_char_cases in H1, H2, H3, H4, H5.
  destruct H1 as [->| ->], H2 as [->| ->], H3 as [->| ->], H4 as [->| ->],
           H5 as [->| ->]; vm_compute; reflexivity.
Qed.

Lemma number_text_false (s : string) :
  number_text s = false ->
  (if contains "." s then VFloat <$> py_float s else VInt <$> py_int s) = None.
Proof.
  unfold number_text. destruct (contains "." s).
  - destruct (py_float s); [|reflexivity].
    intros H. apply bool_decide_eq_false in H. exfalso. apply H. eauto.
  - destruct (py_int s); [|reflexivity].
    intros H. apply bool_decide_eq_false in H. exfalso. apply H. eauto.
Qed.

(** C2, as stated, fails: a payload with a decimal point that [float()]
    rejects is returned as a String, not as a Float; and the String is
    the payload without its surrounding blanks, not the payload itself. *)
Lemma point_payload_not_float :
  let output := "RESULT:v1.2" +:+ nl +:+ "RESULT: ok " +:+ nl in
  first_result_line output = Some "RESULT:v1.2"
  /\ contains "." (slice_from 7 "RESULT:v1.2") = true
  /\ java_result (strip (slice_from 7 "RESULT:v1.2")) = VStr "v1.2"
  /\ cpp_result (strip (slice_from 7 "RESULT:v1.2")) = VStr "v1.2"
  /\ fst (execute_java (printing output) EmptyString [] "f" empty_world)
     = Returns (VStr "v1.2", output, EmptyString)
  /\ fst (execute_cpp (printing output) EmptyString [] "f" empty_world)
     = Returns (VStr "v1.2", output, EmptyString)
  /\ java_result (strip (slice_from 7 "RESULT: ok ")) = VStr "ok"
  /\ cpp_result (strip (slice_from 7 "RESULT: ok ")) = VStr "ok".
Proof. vm_compute. repeat split; reflexivity. Qed.

(** C2, amended.  Let [p] be the text after [RESULT:] on the first line of
    the output that starts with it, without its surrounding blanks.  If
    [p] has a decimal point and [float()] accepts it, the result is that
    Float; if it has none and [int()] accepts it (as it does every run of
    at most 4300 digits), that Integer; otherwise, for Java, the Boolean
    when [p] is [true] or [false] in any case; and otherwise the String
    [p].  For C++ nothing is said of the payloads [1] and [0]. *)
Theorem result_line_classification (output line : string) :
  first_result_line output = Some line ->
  let p := strip (slice_from 7 line) in
  startswith "RESULT:" line = true
  /\ (forall f, contains "." p = true -> py_float p = Some f ->
        java_result p = VFloat f /\ cpp_result p = VFloat f)
  /\ (forall n, contains "." p = false -> py_int p = Some n ->
        java_result p = VInt n /\ (p <> "1" -> p <> "0" -> cpp_result p = VInt n))
  /\ (isdigit p = true -> (String.length p <= int_max_str_digits)%nat ->
        java_result p = VInt (decimal_value 0 p)
        /\ (p <> "1" -> p <> "0" -> cpp_result p = VInt (decimal_value 0 p)))
  /\ (lower p = "true" -> java_result p = VBool true)
  /\ (lower p = "false" -> java_result p = VBool false)
  /\ (number_text p = false -> lower p <> "true" -> lower p <> "false" ->
        java_result p = VStr p)
  /\ (number_text p = false -> cpp_result p = VStr p).
Proof.
  intros Hline p.
  assert (Hdig : isdigit p = true -> (String.length p <= int_max_str_digits)%nat ->
                 contains "." p = false /\ py_int p = Some (decimal_value 0 p)).
  { intros Hd Hlen. split; [|now apply py_int_digits].
    apply all_digits_no_point. now apply andb_prop in Hd as [_ Hd]. }
  split; [|split; [|split; [|split; [|split; [|split; [|split]]]]]].
  - unfold first_result_line in Hline. now apply find_some in Hline as [_ H].
  - intros f Hpt Hf. unfold java_result, cpp_result. now rewrite Hpt, Hf.
  - intros n Hpt Hn. unfold java_result, cpp_result. now rewrite Hpt, Hn.
  - intros Hd Hlen. destruct (Hdig Hd Hlen) as [Hpt Hn].
    unfold java_result, cpp_result. now rewrite Hpt, Hn.
  - apply java_result_true.
  - apply java_result_false.
  - intros Hn Ht Hf. unfold java_result. rewrite (number_text_false p Hn).
    apply String.eqb_neq in Ht, Hf. now rewrite Ht, Hf.
  - intros Hn. unfold cpp_result. rewrite (number_text_false p Hn).
    assert (p <> "1" /\ p <> "0") as [H1 H0].
    { split; intros E; rewrite E in Hn; vm_compute in Hn; discriminate. }
    apply String.eqb_neq in H1, H0. now rewrite H1, H0.
Qed.

Lemma result_line_classification_witness :
  first_result_line ("RESULT: 1.5" +:+ nl) = Some "RESULT: 1.5"
  /\ java_result "1.5" = VFloat (FDec false 15 (-1))
  /\ cpp_result "1.5" = VFloat (FDec false 15 (-1))
  /\ java_result "42" = VInt 42
  /\ cpp_result "42" = VInt 42
  /\ java_result "TRUE" = VBool true
  /\ java_result "False" = VBool false
  /\ java_result "[0, 1]" = VStr "[0, 1]"
  /\ cpp_result "[0, 1]" = VStr "[0, 1]".
Proof.
  pose proof (result_line_classification ("RESULT: 1.5" +:+ nl) "RESULT: 1.5" eq_refl)
    as (_ & Hfloat & _).
  pose proof (result_line_classification ("RESULT:42" +:+ nl) "RESULT:42" eq_refl)
    as (_ & _ & _ & Hdigits & _).
  pose proof (result_line_classification ("RESULT:TRUE" +:+ nl) "RESULT:TRUE" eq_refl)
    as (_ & _ & _ & _ & Htrue & _).
  pose proof (result_line_classification ("RESULT:False" +:+ nl) "RESULT:False" eq_refl)
    as (_ & _ & _ & _ & _ & Hfalse & _).
  pose proof (result_line_classification ("RESULT:[0, 1]" +:+ nl) "RESULT:[0, 1]" eq_refl)
    as (_ & _ & _ & _ & _ & _ & Hjava & Hcpp).
  split; [reflexivity|].
  destruct (Hfloat (FDec false 15 (-1)) eq_refl eq_refl) as [Hj Hc].
  destruct (Hdigits eq_refl ltac:(vm_compute; lia)) as [Hj' Hc'].
  refine (conj Hj (conj Hc (conj Hj' (conj (Hc' _ _) (conj (Htrue eq_refl)
            (conj (Hfalse eq_refl) (conj (Hjava eq_refl _ _) (Hcpp eq_refl))))))));
    discriminate.
Defined.

(** ** The in-process executor *)

Lemma python_handler_cases (I : interpreter) (e : raised) (out : string) :
  (exc_is_Exception e = true /\ str_raises I e = None
   /\ python_handler I e out = Returns (VNone, out, exc_type e +:+ ": " +:+ exc_text e))
  \/ (exists e', exc_is_Exception e = true /\ str_raises I e = Some e'
                 /\ python_handler I e out = Raises e')
  \/ (exc_is_Exception e = false /\ python_handler I e out = Raises e).
Proof.
  unfold python_handler. destruct (exc_is_Exception e); [|now right; right].
  destruct (str_raises I e) as [e'|]; [right; left; now exists e'|now left].
Qed.


(** The message is formatted outside any guard: an exception that does
    derive from [Exception] but whose [__str__] raises makes
    [execute_python] raise what [__str__] raised. *)
Example execute_python_propagates_str_failure :
  execute_python mute_interpreter "raise Mute()" [] "two_sum"
  = Raises (RuntimeError "no").
Proof. reflexivity. Qed.



(** A correct submission run in process gives the value the function
    returns, with its structure. *)
Example execute_python_two_sum :
  execute_python two_sum_interpreter "def two_sum(nums, target): ..." two_sum_args "two_sum"
  = Returns (VList [VInt 0; VInt 1], "hi", EmptyString)
  /\ execute_python two_sum_interpreter "def two_sum(nums, target): ..." no_pair_args "two_sum"
     = Returns (VList [VInt (-1); VInt (-1)], "hi", EmptyString).
Proof. split; reflexivity. Qed.

(** C3, at the failing input: [execute_python] runs the submission in the
    host interpreter without any timeout, so a call that never ends never
    gives control back; no [TimeoutExpired] is raised. *)
Theorem execute_python_never_times_out :
  execute_python spin_interpreter "def spin(): while True: pass" [] "spin" = NeverReturns
  /\ forall (I : interpreter) (code : string) (test_args : list value) (name : string),
       (py_exec I code = Diverges
        \/ exists out err namespace,
             py_exec I code = Finished out err (inr namespace)
             /\ truthy (default VNone (namespace !! name)) = true
             /\ py_call I namespace (default VNone (namespace !! name)) test_args = Diverges)
       <-> execute_python I code test_args name = NeverReturns.
Proof.
  split; [reflexivity|]. intros I code test_args name. unfold execute_python. split.
  - intros [->|(out & err & namespace & -> & Hf & Hcall)]; [reflexivity|].
    now rewrite Hf, Hcall.
  - destruct (py_exec I code) as [out err [e|namespace]|]; [| |now left].
    + destruct (python_handler_cases I e out)
        as [(_ & _ & ->)|[(e' & _ & _ & ->)|[_ ->]]]; discriminate.
    + destruct (truthy (default VNone (namespace !! name))) eqn:Hf; cbn [negb].
      * destruct (py_call I namespace _ test_args) as [out' err' [e|result]|] eqn:Hcall.
        -- destruct (python_handler_cases I e (out +:+ out'))
             as [(_ & _ & ->)|[(e' & _ & _ & ->)|[_ ->]]]; discriminate.
        -- discriminate.
        -- intros _. right. exists out, err, namespace. auto.
      * discriminate.
Qed.

(** ** The executors that run a child process *)

Section Bounded.

Context {A B : Type}.

Lemma bounded_ret (a : A) : bounded 0 (ret a).
Proof. intros w. cbn. split; [discriminate|lia]. Qed.

Lemma bounded_raise (e : raised) : bounded 0 (@raise A e).
Proof. intros w. cbn. split; [discriminate|lia]. Qed.

Lemma bounded_weaken (n n' : nat) (m : exec A) :
  (n <= n')%nat -> bounded n m -> bounded n' m.
Proof. intros Hle Hm w. destruct (Hm w) as [Hr Hc]. split; [assumption|lia]. Qed.

Lemma bounded_bind (n k : nat) (m : exec A) (f : A -> exec B) :
  bounded n m -> (forall a, bounded k (f a)) -> bounded (n + k) (bind m f).
Proof.
  intros Hm Hf w. unfold bind. destruct (Hm w) as [Hr Hc].
  destruct (m w) as [[a|e|] w']; cbn in *.
  - destruct (Hf a w') as [Hr' Hc']. split; [assumption|lia].
  - split; [discriminate|lia].
  - congruence.
Qed.

Lemma bounded_try_finally (n : nat) (body : exec A) (cleanup : world -> world) :
  (forall w, clock (cleanup w) = clock w) ->
  bounded n body -> bounded n (try_finally body cleanup).
Proof.
  intros Hclean Hbody w. unfold try_finally. destruct (Hbody w) as [Hr Hc].
  destruct (body w) as [[a|e|] w']; cbn in *; rewrite ?Hclean;
    (split; [congruence|lia]).
Qed.

End Bounded.

Section HostFacts.

Variable P : platform.

Lemma bounded_mkdtemp : bounded 0 (mkdtemp P).
Proof.
  intros w. unfold mkdtemp. destruct (mkdtemp_choice P w); cbn;
    (split; [discriminate|lia]).
Qed.

Lemma bounded_write_text (path text : string) : bounded 0 (write_text P path text).
Proof.
  intros w. unfold write_text. destruct (write_failure P path text w); cbn;
    (split; [discriminate|lia]).
Qed.

Lemma bounded_subprocess_run (argv : list string) (cwd : option string) (timeout : nat) :
  bounded timeout (subprocess_run P argv cwd timeout).
Proof.
  intros w. unfold subprocess_run.
  destruct (child P argv cwd w) as [e|secs rc out err eff|eff]; cbn.
  - split; [discriminate|lia].
  - destruct (secs <=? timeout)%nat eqn:E; cbn.
    + apply Nat.leb_le in E. split; [discriminate|lia].
    + split; [discriminate|lia].
  - split; [discriminate|lia].
Qed.

Lemma clock_rmtree (dir : string) (w : world) : clock (rmtree P dir w) = clock w.
Proof. reflexivity. Qed.

Lemma spawned_rmtree (dir : string) (w : world) : spawned (rmtree P dir w) = spawned w.
Proof. reflexivity. Qed.

(** After [rmtree], what lay at or below the directory and could be
    removed is gone. *)
Lemma rmtree_removes (dir path : string) (w : world) :
  under P dir path = true -> rmtree_leaves P dir w path = false ->
  files (rmtree P dir w) !! path = None.
Proof.
  intros Hunder Hgone. unfold rmtree. cbn [files].
  apply map_lookup_filter_None. right. intros x _. cbn. intros [H|H]; congruence.
Qed.

(** ... and everything else is as it was. *)
Lemma rmtree_keeps (dir path : string) (w : world) :
  under P dir path = false -> files (rmtree P dir w) !! path = files w !! path.
Proof.
  intros Hunder. unfold rmtree. cbn [files].
  destruct (files w !! path) as [x|] eqn:E.
  - apply map_lookup_filter_Some. split; [assumption|]. cbn. now left.
  - apply map_lookup_filter_None. now left.
Qed.

End HostFacts.

Create HintDb bounded_db.
#[local] Hint Resolve bounded_ret bounded_raise bounded_mkdtemp bounded_write_text
  bounded_subprocess_run : bounded_db.

(** Splits a [bounded] goal along the structure of the computation. *)
Ltac bounded_step :=
  match goal with
  | |- bounded _ (bind (write_text _ _ _) _) =>
      apply (bounded_bind 0); [apply bounded_write_text | intros ?]
  | |- bounded _ (bind (subprocess_run _ _ _ ?t) _) =>
      apply (bounded_bind t); [apply bounded_subprocess_run | intros ?]
  | |- bounded _ (bind (match ?x with _ => _ end) _) =>
      apply (bounded_bind 0); [destruct x; auto with bounded_db | intros ?]
  | |- bounded _ (if ?b then _ else _) => destruct b
  | |- bounded _ (match ?x with _ => _ end) => destruct x
  | |- bounded _ (ret _) => eapply bounded_weaken; [|apply bounded_ret]; lia
  | |- bounded _ (raise _) => eapply bounded_weaken; [|apply bounded_raise]; lia
  end.

Lemma bounded_execute_javascript P code test_args problem_name :
  bounded 5 (execute_javascript P code test_args problem_name).
Proof.
  unfold execute_javascript.
  apply (bounded_bind 0 5); [apply bounded_mkdtemp | intros temp_dir].
  apply bounded_try_finally; [apply clock_rmtree|].
  cbv zeta. change 5%nat with (0 + (0 + (5 + 0)))%nat.
  repeat bounded_step.
Qed.

Lemma bounded_execute_java P code test_args problem_name :
  bounded 15 (execute_java P code test_args problem_name).
Proof.
  unfold execute_java.
  apply (bounded_bind 0 15); [apply bounded_mkdtemp | intros temp_dir].
  apply bounded_try_finally; [apply clock_rmtree|].
  cbv zeta. change 15%nat with (0 + (10 + (5 + 0)))%nat.
  repeat bounded_step.
Qed.

Lemma bounded_execute_cpp P code test_args problem_name :
  bounded 15 (execute_cpp P code test_args problem_name).
Proof.
  unfold execute_cpp.
  apply (bounded_bind 0 15); [apply bounded_mkdtemp | intros temp_dir].
  apply bounded_try_finally; [apply clock_rmtree|].
  cbv zeta. change 15%nat with (0 + (10 + (5 + 0)))%nat.
  repeat bounded_step.
Qed.

(** A child that has not ended when the timeout expires makes
    [subprocess.run] raise [TimeoutExpired]. *)
Lemma subprocess_run_timeout (P : platform) (argv : list string) (cwd : option string)
    (timeout : nat) (w : world) :
  (exists effect, child P argv cwd w = RunsForever effect)
  \/ (exists secs rc out err effect,
        child P argv cwd w = Exits secs rc out err effect /\ (timeout < secs)%nat) ->
  fst (subprocess_run P argv cwd timeout w) = Raises (TimeoutExpired argv timeout)
  /\ clock (snd (subprocess_run P argv cwd timeout w)) = (clock w + timeout)%nat.
Proof.
  unfold subprocess_run.
  intros [(effect & ->)|(secs & rc & out & err & effect & -> & Hlt)]; [now split|].
  apply Nat.leb_gt in Hlt. rewrite Hlt. now split.
Qed.

(** The three executors that start a child process always give control
    back, within the sum of their timeouts; on the machine where the
    submission never ends they raise [TimeoutExpired]. *)
Lemma child_executors_come_back (P : platform) (code : string)
    (test_args : list value) (problem_name : string) (w : world) :
  (fst (execute_javascript P code test_args problem_name w) <> NeverReturns
   /\ (clock (snd (execute_javascript P code test_args problem_name w)) <= clock w + 5)%nat)
  /\ (fst (execute_java P code test_args problem_name w) <> NeverReturns
      /\ (clock (snd (execute_java P code test_args problem_name w)) <= clock w + 15)%nat)
  /\ (fst (execute_cpp P code test_args problem_name w) <> NeverReturns
      /\ (clock (snd (execute_cpp P code test_args problem_name w)) <= clock w + 15)%nat).
Proof.
  destruct (bounded_execute_javascript P code test_args problem_name w) as [? [_ ?]].
  destruct (bounded_execute_java P code test_args problem_name w) as [? [_ ?]].
  destruct (bounded_execute_cpp P code test_args problem_name w) as [? [_ ?]].
  auto.
Qed.

Example endless_program_times_out :
  fst (execute_javascript endless_program "while (true) {}" [] "f" empty_world)
  = Raises (TimeoutExpired ["node"; "/tmp/tmpb2/solution.js"] 5)
  /\ fst (execute_java endless_program "class Solution {}" [] "f" empty_world)
     = Raises (TimeoutExpired ["java"; "-cp"; "/tmp/tmpb2"; "TestRunner"] 5)
  /\ fst (execute_cpp endless_program "int f() { for (;;); }" [] "f" empty_world)
     = Raises (TimeoutExpired ["/tmp/tmpb2/solution"] 5).
Proof. vm_compute. repeat split; reflexivity. Qed.

(** *** Cleanup of the temporary directory *)

Lemma finally_rmtree {A} (P : platform) (body : exec A) (d path : string) (w : world) :
  fst (try_finally body (rmtree P d) w) <> NeverReturns ->
  under P d path = true ->
  (forall w', rmtree_leaves P d w' path = false) ->
  files (snd (try_finally body (rmtree P d) w)) !! path = None.
Proof.
  unfold try_finally. destruct (body w) as [[a|e|] w']; cbn; intros Hfin Hunder Hgone;
    [now apply rmtree_removes..|congruence].
Qed.

Lemma bind_mkdtemp {A} (P : platform) (k : string -> exec A) (w : world) (d : string) :
  mkdtemp_choice P w = inr d ->
  bind (mkdtemp P) k w = k d (World (<[d := Dir]> (files w)) (spawned w) (clock w)).
Proof. intros Hd. unfold bind, mkdtemp. now rewrite Hd. Qed.




(** X20: when [tempfile.mkdtemp] fails, its exception leaves each of the
    three child-process executors as it is, and the machine is left as
    it was: nothing is written and no process is started. *)
Lemma no_temp_dir_no_change (P : platform) (code : string)
    (test_args : list value) (problem_name : string) (w : world) (e : raised) :
  mkdtemp_choice P w = inl e ->
  execute_javascript P code test_args problem_name w = (Raises e, w)
  /\ execute_java P code test_args problem_name w = (Raises e, w)
  /\ execute_cpp P code test_args problem_name w = (Raises e, w).
Proof.
  intros He. unfold execute_javascript, execute_java, execute_cpp, bind, mkdtemp.
  now rewrite He.
Qed.

(** *** Compilation failure *)



(** *** The value an executor returns *)

(** The compiled-language parsers produce a Float, an Integer, a Boolean
    or a String, and nothing else. *)
Lemma java_result_scalar (s : string) : scalar (java_result s) = true.
Proof.
  unfold java_result.
  destruct (contains "." s); [destruct (py_float s)|destruct (py_int s)]; cbn;
    try reflexivity;
    destruct (String.eqb (lower s) "true"); try reflexivity;
    destruct (String.eqb (lower s) "false"); reflexivity.
Qed.

Lemma cpp_result_scalar (s : string) : scalar (cpp_result s) = true.
Proof.
  unfold cpp_result.
  destruct (contains "." s); [destruct (py_float s)|destruct (py_int s)]; cbn;
    try reflexivity;
    destruct (String.eqb s "1"); try reflexivity;
    destruct (String.eqb s "0"); reflexivity.
Qed.

Section Yields.

Context {A B : Type}.

Lemma yields_ret (Q : A -> Prop) (a : A) : Q a -> yields Q (ret a).
Proof. intros Ha w a' [= <-]. exact Ha. Qed.

Lemma yields_raise (Q : A -> Prop) (e : raised) : yields Q (raise e).
Proof. intros w a. discriminate. Qed.

Lemma yields_bind (Q : B -> Prop) (m : exec A) (f : A -> exec B) :
  (forall a, yields Q (f a)) -> yields Q (bind m f).
Proof.
  intros Hf w b. unfold bind. destruct (m w) as [[a|e|] w']; cbn.
  - apply Hf.
  - discriminate.
  - discriminate.
Qed.

Lemma yields_try_finally (Q : A -> Prop) (body : exec A) (cleanup : world -> world) :
  yields Q body -> yields Q (try_finally body cleanup).
Proof.
  intros Hbody w a. unfold try_finally. specialize (Hbody w).
  destruct (body w) as [[a'|e|] w']; cbn in *; [apply Hbody|discriminate..].
Qed.

End Yields.

(** Splits a [yields] goal along the structure of the computation. *)
Ltac yields_step :=
  match goal with
  | |- yields _ (bind _ _) => apply yields_bind; intros ?
  | |- yields _ (try_finally _ _) => apply yields_try_finally
  | |- yields _ (if ?b then _ else _) => destruct b
  | |- yields _ (match ?x with _ => _ end) => destruct x
  | |- yields _ (raise _) => apply yields_raise
  | |- yields _ (ret _) => apply yields_ret
  end.

Lemma execute_java_value (P : platform) (code : string) (test_args : list value)
    (problem_name : string) :
  yields (fun r => scalar r.1.1 = true) (execute_java P code test_args problem_name).
Proof.
  unfold execute_java. cbv zeta. repeat yields_step. apply java_result_scalar.
Qed.

Lemma execute_cpp_value (P : platform) (code : string) (test_args : list value)
    (problem_name : string) :
  yields (fun r => scalar r.1.1 = true) (execute_cpp P code test_args problem_name).
Proof.
  unfold execute_cpp. cbv zeta. repeat yields_step. apply cpp_result_scalar.
Qed.

(** The JavaScript executor decodes the result line as JSON and so keeps
    the structure of a list. *)
Example execute_javascript_two_sum :
  fst (execute_javascript (printing ("RESULT:[0,1]" +:+ nl)) "function two_sum() {}"
         two_sum_args "two_sum" empty_world)
  = Returns (VList [VInt 0; VInt 1], "RESULT:[0,1]" +:+ nl, EmptyString)
  /\ fst (execute_javascript (printing ("RESULT:[-1,-1]" +:+ nl)) "function two_sum() {}"
            no_pair_args "two_sum" empty_world)
     = Returns (VList [VInt (-1); VInt (-1)], "RESULT:[-1,-1]" +:+ nl, EmptyString).
Proof. vm_compute. split; reflexivity. Qed.

(** C1, at the failing input: for [two_sum([2,7,11,15], 9)] the Java
    harness passes the list as [new Object[]{2, 7, 11, 15}] and the C++
    harness as the text of the Python list; and whatever the compiler and
    the program then do, neither executor returns a list, so neither
    returns [[0,1]] (nor [[-1,-1]]): a program that prints the list gives
    back its text as a String. *)
Theorem compiled_executors_never_return_a_list :
  forall (P : platform) (code : string) (w : world),
    join ", " (map (python_to_java P) two_sum_args) = "new Object[]{2, 7, 11, 15}, 9"
    /\ join ", " (map (python_to_cpp P) two_sum_args) = "[2, 7, 11, 15], 9"
    /\ (forall test_args name items out err,
          fst (execute_java P code test_args name w) <> Returns (VList items, out, err))
    /\ (forall test_args name items out err,
          fst (execute_cpp P code test_args name w) <> Returns (VList items, out, err))
    /\ fst (execute_java (printing ("RESULT:[0, 1]" +:+ nl)) code two_sum_args "two_sum"
              empty_world)
       = Returns (VStr "[0, 1]", "RESULT:[0, 1]" +:+ nl, EmptyString)
    /\ fst (execute_cpp (printing ("RESULT:[0, 1]" +:+ nl)) code two_sum_args "two_sum"
              empty_world)
       = Returns (VStr "[0, 1]", "RESULT:[0, 1]" +:+ nl, EmptyString).
Proof.
  intros P code w. repeat apply conj.
  - vm_compute. reflexivity.
  - vm_compute. reflexivity.
  - intros test_args name items out err H.
    apply execute_java_value in H. discriminate.
  - intros test_args name items out err H.
    apply execute_cpp_value in H. discriminate.
  - vm_compute. reflexivity.
  - vm_compute. reflexivity.
Qed.

(** ** The step tracer *)

Section TracerFacts.

Variable breakpoints : gset Z.
Variable max_steps : Z.
Variable code_lines : list string.

#[local] Abbreviation tracer := (Tracer.tracer breakpoints max_steps code_lines).
#[local] Abbreviation deliver := (Tracer.deliver breakpoints max_steps code_lines).
#[local] Abbreviation recording := (Tracer.recording max_steps).
#[local] Abbreviation stopped := (Tracer.stopped max_steps).

(** The closure, in terms of what is recordable and the record made. *)
Lemma tracer_unfold (st : tstate) (ev : trace_event) :
  tracer st ev
  = if recordable breakpoints ev then
      match step_of code_lines ev with
      | Returns this_step =>
          let trace' := (trace st ++ [this_step])%list in
          if Z.of_nat (length trace') >=? max_steps
          then TState trace' true None
          else TState trace' (truncated st) (slot_of ev (sys_trace st))
      | _ => TState (trace st) (truncated st) None
      end
    else st.
Proof.
  unfold Tracer.tracer, recordable.
  destruct (String.eqb (co_filename (ev_frame ev)) "<string>"); cbn [negb andb];
    [|reflexivity].
  destruct (bool_decide (ev_name ev ∈ ["call"; "line"; "return"])); cbn [andb];
    [|reflexivity].
  destruct (_ || _); reflexivity.
Qed.

Lemma previews_tame (items : list (string * pyobj)) (slot : option tracefn) :
  forallb (fun kv => tame kv.2) items = true ->
  (exists l, previews items = Returns l) /\ after_previews items slot = slot.
Proof.
  revert slot. induction items as [|[k v] items IH]; intros slot; cbn [forallb previews after_previews].
  - eauto.
  - intros [Hv Hrest]%andb_prop. cbn [snd] in Hv. unfold tame in Hv. unfold after_repr.
    destruct (obj_settrace v); [discriminate|].
    destruct (_safe_repr v) as [t| |]; [|discriminate..].
    destruct (IH slot Hrest) as [[l ->] ->]. eauto.
Qed.

(** At a quiet event the closure builds its record and the trace slot is
    as it was. *)
Lemma quiet_step (ev : trace_event) (slot : option tracefn) :
  quiet ev = true ->
  step_of code_lines ev = Returns (record_of code_lines ev) /\ slot_of ev slot = slot.
Proof.
  unfold quiet. intros [[_ Hlocals]%andb_prop Harg]%andb_prop.
  assert (exists l, locals_snapshot (ev_frame ev) = Returns l
                    /\ match f_locals (ev_frame ev) with
                       | Some items => after_previews items slot
                       | None => slot
                       end = slot) as (l & Hl & Hslot).
  { unfold locals_snapshot. destruct (f_locals (ev_frame ev)) as [items|]; [|eauto].
    destruct (previews_tame items slot Hlocals) as [[l ->] ->]. eauto. }
  unfold record_of, step_of, slot_of. rewrite Hl, Hslot.
  destruct (String.eqb (ev_name ev) "return"); [|now split].
  cbn [negb orb] in Harg. unfold tame in Harg. unfold after_repr.
  destruct (obj_settrace (ev_arg ev)); [discriminate|].
  destruct (_safe_repr (ev_arg ev)); [now split|discriminate..].
Qed.

Lemma tracer_quiet (st : tstate) (ev : trace_event) :
  quiet ev = true ->
  tracer st ev
  = if recordable breakpoints ev then
      let trace' := (trace st ++ [record_of code_lines ev])%list in
      if Z.of_nat (length trace') >=? max_steps
      then TState trace' true None
      else TState trace' (truncated st) (sys_trace st)
    else st.
Proof.
  intros Hq. rewrite tracer_unfold.
  destruct (quiet_step ev (sys_trace st) Hq) as [-> ->]. reflexivity.
Qed.

Lemma tracer_step (st : tstate) (ev : trace_event) :
  quiet ev = true ->
  recording st -> recording (tracer st ev) \/ stopped (tracer st ev).
Proof.
  intros Hq (Hhook & Htr & Hlen). rewrite tracer_quiet by assumption.
  destruct (recordable breakpoints ev); [|left; now repeat split].
  cbv zeta. set (this_step := record_of code_lines ev).
  assert (Z.of_nat (length (trace st ++ [this_step])) = Z.of_nat (length (trace st)) + 1)
    as Hnew by (rewrite length_app; cbn; lia).
  destruct (Z.of_nat (length (trace st ++ [this_step])) >=? max_steps) eqn:E.
  - right. apply Z.geb_le in E. repeat split; cbn [sys_trace truncated trace]. lia.
  - left. rewrite Z.geb_leb in E. apply Z.leb_gt in E.
    repeat split; cbn [sys_trace truncated trace]; try assumption.
Qed.

Lemma deliver_cons (st : tstate) (ev : trace_event) (events : list trace_event)
    (f : tracefn) :
  quiet ev = true -> sys_trace st = Some f ->
  deliver st (ev :: events) = deliver (tracer st ev) events.
Proof.
  intros Hq H. cbn [Tracer.deliver]. unfold quiet in Hq.
  destruct (ev_settrace ev); [discriminate|]. now rewrite H.
Qed.

(** Once the hook is gone, and for as long as the submission does not
    put it back, no further event reaches the tracer: the trace no
    longer grows. *)
Lemma deliver_stopped (st : tstate) (events : list trace_event) :
  Forall (fun ev => quiet ev = true) events ->
  sys_trace st = None -> deliver st events = st.
Proof.
  intros Hq H. induction Hq as [|ev events Hev _ IH]; [reflexivity|].
  cbn [Tracer.deliver]. unfold quiet in Hev.
  destruct (ev_settrace ev); [discriminate|]. now rewrite H.
Qed.

Lemma deliver_recording (events : list trace_event) (st : tstate) :
  Forall (fun ev => quiet ev = true) events ->
  recording st -> recording (deliver st events) \/ stopped (deliver st events).
Proof.
  intros Hq. revert st. induction Hq as [|ev events Hev Hq IH]; intros st Hst; [now left|].
  rewrite (deliver_cons st ev events RequestTracer Hev) by apply Hst.
  destruct (tracer_step st ev Hev Hst) as [Hrec|Hstop]; [now apply IH|].
  right. rewrite deliver_stopped; [assumption|assumption|]. apply Hstop.
Qed.

(** With a cap of at least one, and a submission that leaves the tracing
    alone, the trace never exceeds the cap, and the flag is set exactly
    when the trace has reached it. *)
Lemma deliver_capped (events : list trace_event) :
  1 <= max_steps ->
  Forall (fun ev => quiet ev = true) events ->
  let st := deliver (TState [] false (Some RequestTracer)) events in
  Z.of_nat (length (trace st)) <= max_steps
  /\ (truncated st = true <-> Z.of_nat (length (trace st)) = max_steps)
  /\ (truncated st = true <-> sys_trace st = None).
Proof.
  intros Hcap Hq st.
  assert (recording (TState [] false (Some RequestTracer))) as H0
    by (repeat split; cbn; lia).
  destruct (deliver_recording events _ Hq H0)
    as [(Hhook & Htr & Hlen)|(Hhook & Htr & Hlen)]; fold st in Hhook, Htr, Hlen;
    rewrite Hhook, Htr; repeat split; try lia; congruence.
Qed.

End TracerFacts.

Lemma choose_args_rejects (req : debug_request) (tests : list (list value))
    (answer : outcome response) :
  choose_args req tests = inl answer -> answered_before_tracing answer = true.
Proof.
  unfold choose_args.
  destruct (req_testIndex req) as [i|].
  - destruct (py_index tests i); [discriminate|now intros [= <-]].
  - destruct (req_customArgsJson req) as [[|c t]|].
    + destruct tests; discriminate.
    + destruct (json_loads (String c t)) as [[]| |]; try discriminate;
        now intros [= <-].
    + destruct tests; discriminate.
Qed.


(** C8, at the failing input: with [maxSteps] at 0 (or below) the first
    event is recorded before the cap is looked at, so the trace sent back
    holds one record, more than the cap allows. *)
Theorem zero_cap_still_records :
  debug_solution small_debugger small_catalogue None (request_with_cap 0)
  = (Returns (TraceDone [call_step] true EmptyString EmptyString "5" "(2, 3)"), None)
  /\ debug_solution small_debugger small_catalogue None (request_with_cap (-3))
     = (Returns (TraceDone [call_step] true EmptyString EmptyString "5" "(2, 3)"), None)
  /\ Z.of_nat (length [call_step]) > 0.
Proof. vm_compute. repeat split; reflexivity. Qed.

Example positive_caps :
  (exists steps, fst (debug_solution small_debugger small_catalogue None (request_with_cap 2))
                 = Returns (TraceDone steps true EmptyString EmptyString "5" "(2, 3)")
                 /\ length steps = 2%nat)
  /\ (exists steps, fst (debug_solution small_debugger small_catalogue None (request_with_cap 3))
                    = Returns (TraceDone steps true EmptyString EmptyString "5" "(2, 3)")
                    /\ length steps = 3%nat)
  /\ (exists steps, fst (debug_solution small_debugger small_catalogue None (request_with_cap 4))
                    = Returns (TraceDone steps false EmptyString EmptyString "5" "(2, 3)")
                    /\ length steps = 3%nat).
Proof. repeat split; eexists; split; vm_compute; reflexivity. Qed.

(** A submission that puts the trace function back after the tracer has
    taken it out at the cap gets one more record for each call it then
    makes: with a cap of 3 the trace sent back holds five. *)
Example cap_exceeded_after_reinstall :
  exists steps,
    fst (debug_solution reinstalling_debugger small_catalogue None reinstalling_request)
    = Returns (TraceDone steps true EmptyString EmptyString "5" "(2, 3)")
    /\ length steps = 5%nat.
Proof. eexists; split; vm_compute; reflexivity. Qed.

(** C9, at the failing input.  The answer of a completed run is built
    after the clause [finally: sys.settrace(None)], and building it
    calls [_safe_repr(retval)], which runs the [__repr__] of the object
    the submission returned.  Here that [__repr__] puts back the trace
    function the submission had kept: the request ends normally, with
    its answer, and the tracer of the request is installed in the
    process when it is over. *)
Theorem trace_hook_survives_the_request :
  debug_solution keeper_debugger small_catalogue None keeper_request
  = (Returns (TraceDone keeper_trace false EmptyString EmptyString "Keeper()" "(2, 3)"),
     Some RequestTracer).
Proof. vm_compute. reflexivity. Qed.

(** On every other path the slot is emptied: when the request is over,
    by an answer or by an exception of any kind, the trace slot is
    empty, or the request was answered before any submitted code ran
    and the handler has not touched the slot, or the slot holds what
    the [__repr__] of the returned object or of the arguments put in it
    while the answer was built. *)
Lemma trace_hook_left_only_by_repr (D : debugger)
    (PROBLEMS : gmap string (list (list value))) (req : debug_request)
    (slot : option tracefn) :
  fst (debug_solution D PROBLEMS slot req) = NeverReturns
  \/ snd (debug_solution D PROBLEMS slot req) = None
  \/ (snd (debug_solution D PROBLEMS slot req) = slot
      /\ answered_before_tracing (fst (debug_solution D PROBLEMS slot req)) = true)
  \/ (exists obj, obj_settrace obj = Some (snd (debug_solution D PROBLEMS slot req))).
Proof.
  unfold debug_solution.
  destruct (PROBLEMS !! req_problem req) as [tests|]; [|right; right; left; now split].
  destruct (choose_args req tests) as [answer|args] eqn:E.
  { right; right; left; split; [reflexivity|]. now apply (choose_args_rejects req tests). }
  destruct (breakpoint_set (req_breakpoints req)) as [bps|];
    [|right; right; left; now split].
  assert (forall e steps out err, snd (failed D e steps out err) = None) as Hfailed.
  { intros e steps out err. unfold failed.
    destruct (exc_is_Exception e); [destruct (dbg_str_raises D e)|]; reflexivity. }
  destruct (dbg_exec D (req_code req)) as [out err [e|namespace]|]; [| |now left].
  { right; left. apply Hfailed. }
  destruct (namespace !! _) as [user_func|]; [|right; now left].
  destruct (dbg_call D namespace user_func args) as [events out' err' [e|retval]|];
    [| |now left].
  - right; left. apply Hfailed.
  - unfold completed_run, after_repr.
    destruct (_safe_repr retval) as [ret_preview|e|]; cbn [fst snd].
    + destruct (_safe_repr (args_after D args)) as [args_used|e|]; cbn [fst snd];
        [| |now left];
        (destruct (obj_settrace (args_after D args)) as [f|] eqn:Hargs;
         [right; right; right; now exists (args_after D args)|];
         destruct (obj_settrace retval) as [f|] eqn:Hret;
         [right; right; right; now exists retval|right; now left]).
    + destruct (obj_settrace retval) as [f|] eqn:Hret;
        [right; right; right; now exists retval|right; now left].
    + now left.
Qed.

(** * Further properties *)

Local Open Scope list_scope.

(** ** The [.env] loader *)

Lemma env_get_set_eq (k v : string) (d : list (string * string)) :
  env_get k (env_set k v d) = Some v.
Proof.
  induction d as [|[k' v'] d IH]; cbn; [now rewrite String.eqb_refl|].
  destruct (String.eqb k k') eqn:E; cbn; now rewrite E.
Qed.

Lemma env_get_set_ne (k k0 v : string) (d : list (string * string)) :
  k <> k0 -> env_get k (env_set k0 v d) = env_get k d.
Proof.
  intros Hne. induction d as [|[k' v'] d IH]; cbn.
  - now apply String.eqb_neq in Hne as ->.
  - destruct (String.eqb k0 k') eqn:E0; cbn; [|now rewrite IH].
    apply String.eqb_eq in E0 as <-.
    now apply String.eqb_neq in Hne as ->.
Qed.

Lemma parse_lines_snoc (lines : list string) (raw : string) :
  parse_lines (lines ++ [raw])
  = match assignment raw with
    | Some (k, v) => env_set k v (parse_lines lines)
    | None => parse_lines lines
    end.
Proof. unfold parse_lines. now rewrite fold_left_app. Qed.

Lemma parse_lines_unassigned (k : string) (before after : list string) :
  unassigned k after ->
  env_get k (parse_lines (before ++ after)) = env_get k (parse_lines before).
Proof.
  induction after as [|raw after IH] using rev_ind; intros Hun.
  - now rewrite app_nil_r.
  - rewrite app_assoc, parse_lines_snoc.
    assert (unassigned k after) as Hafter.
    { intros r v Hin. apply Hun. apply in_or_app. now left. }
    destruct (assignment raw) as [[k0 v0]|] eqn:E; [|now apply IH].
    rewrite env_get_set_ne; [now apply IH|].
    intros ->. apply (Hun raw v0); [|assumption]. apply in_or_app. right. now left.
Qed.

(** X1: in [_parse_env_file] the last assignment of a name wins: when a
    line assigns [v] to [k] and no later line assigns [k], the dict holds
    [v] for [k], whatever the earlier lines say. *)
Theorem parse_last_assignment_wins (before after : list string) (raw k v : string) :
  assignment raw = Some (k, v) ->
  unassigned k after ->
  env_get k (parse_lines (before ++ raw :: after)) = Some v.
Proof.
  intros Hraw Hun.
  change (before ++ raw :: after) with (before ++ [raw] ++ after).
  rewrite app_assoc, parse_lines_unassigned by assumption.
  rewrite parse_lines_snoc, Hraw. apply env_get_set_eq.
Qed.

Lemma parse_last_assignment_wins_witness :
  env_get "A" (parse_lines ["A=1"; "# A=2"; " A = 3 "; "B=x=y"; "A"]) = Some "3".
Proof.
  apply (parse_last_assignment_wins ["A=1"; "# A=2"] ["B=x=y"; "A"] " A = 3 " "A" "3").
  - vm_compute. reflexivity.
  - intros raw v [<-|[<-|[]]]; vm_compute; discriminate.
Defined.

Lemma environ_update_snoc (items : list (string * string)) (k v : string)
    (environ : gmap string string) :
  environ_update (items ++ [(k, v)]) environ
  = match environ_update items environ with
    | (Some e, environ') => (Some e, environ')
    | (None, environ') =>
        match environ_set k v environ' with
        | inl e => (Some e, environ')
        | inr environ'' => (None, environ'')
        end
    end.
Proof.
  revert environ. induction items as [|[k0 v0] items IH]; intros environ; cbn.
  - now destruct (environ_set k v environ).
  - destruct (environ_set k0 v0 environ); [reflexivity|apply IH].
Qed.

Lemma environ_set_ok (k v : string) (environ environ' : gmap string string) :
  environ_set k v environ = inr environ' -> environ' = <[k := v]> environ.
Proof.
  unfold environ_set. destruct (_ || _); [discriminate|].
  destruct (String.eqb k EmptyString); [discriminate|]. now intros [= <-].
Qed.

Lemma line_items_snoc (lines : list string) (raw : string) :
  line_items (lines ++ [raw])
  = line_items lines ++ match assignment raw with Some kv => [kv] | None => [] end.
Proof.
  unfold line_items. rewrite omap_app. cbn. now destruct (assignment raw).
Qed.

Lemma load_lines_lookup (lines : list string) (environ environ' : gmap string string)
    (k : string) :
  environ_update (line_items lines) environ = (None, environ') ->
  environ' !! k = match env_get k (parse_lines lines) with
                  | Some v => Some v
                  | None => environ !! k
                  end.
Proof.
  revert environ'. induction lines as [|raw lines IH] using rev_ind; intros environ'.
  - cbn. now intros [= <-].
  - rewrite line_items_snoc, parse_lines_snoc.
    destruct (assignment raw) as [[k0 v0]|].
    + rewrite environ_update_snoc.
      destruct (environ_update (line_items lines) environ) as [[e|] env1]; [discriminate|].
      destruct (environ_set k0 v0 env1) as [e|env2] eqn:Eset; [discriminate|].
      intros [= <-]. apply environ_set_ok in Eset as ->.
      destruct (decide (k = k0)) as [->|Hne].
      * now rewrite env_get_set_eq, lookup_insert_eq.
      * rewrite env_get_set_ne, lookup_insert_ne by congruence. now apply IH.
    + rewrite app_nil_r. apply IH.
Qed.

(** X2: when [_load_env_file] completes, the environment it leaves is the
    old one overridden by the dict that [_parse_env_file] builds from the
    same file: a name the file assigns has the file's last value, every
    other name keeps its value.  A file that does not exist changes
    nothing. *)
Theorem load_is_parse_over_environ (file : option string)
    (environ environ' : gmap string string) (k : string) :
  _load_env_file file environ = (None, environ') ->
  environ' !! k = match env_get k (_parse_env_file file) with
                  | Some v => Some v
                  | None => environ !! k
                  end.
Proof.
  destruct file as [content|]; cbn.
  - apply load_lines_lookup.
  - now intros [= <-].
Qed.

Lemma load_is_parse_over_environ_witness :
  let file := Some ("A=1" +:+ nl +:+ "# note" +:+ nl +:+ "B = two" +:+ nl +:+ "A=3") in
  let environ : gmap string string := {["A" := "old"; "C" := "kept"]} in
  (snd (_load_env_file file environ)) !! "A" = Some "3"
  /\ (snd (_load_env_file file environ)) !! "C" = Some "kept".
Proof.
  cbv zeta. split.
  - exact (load_is_parse_over_environ
             (Some ("A=1" +:+ nl +:+ "# note" +:+ nl +:+ "B = two" +:+ nl +:+ "A=3"))
             {["A" := "old"; "C" := "kept"]} _ "A" eq_refl).
  - exact (load_is_parse_over_environ
             (Some ("A=1" +:+ nl +:+ "# note" +:+ nl +:+ "B = two" +:+ nl +:+ "A=3"))
             {["A" := "old"; "C" := "kept"]} _ "C" eq_refl).
Defined.

Lemma env_set_keys (k v : string) (d : list (string * string)) :
  NoDup (map fst d) -> NoDup (map fst (env_set k v d))
  /\ forall x, In x (map fst (env_set k v d)) -> x = k \/ In x (map fst d).
Proof.
  induction d as [|[k' v'] d IH]; cbn.
  - intros _. split; [repeat constructor; now rewrite list_elem_of_In|]. intros x [->|[]]. now left.
  - intros Hnd. apply NoDup_cons in Hnd as [Hnotin Hnd].
    destruct (String.eqb k k') eqn:E; cbn.
    + split; [now apply NoDup_cons|]. tauto.
    + destruct (IH Hnd) as [IH1 IH2]. split.
      * apply NoDup_cons. split; [|assumption].
        rewrite list_elem_of_In. intros Hin. apply IH2 in Hin as [->|Hin].
        -- now rewrite String.eqb_refl in E.
        -- apply Hnotin. now rewrite list_elem_of_In.
      * intros x [->|Hin]; [right; now left|]. apply IH2 in Hin. tauto.
Qed.

Lemma parse_lines_keys (lines : list string) : NoDup (map fst (parse_lines lines)).
Proof.
  induction lines as [|raw lines IH] using rev_ind; [constructor|].
  rewrite parse_lines_snoc. destruct (assignment raw) as [[k v]|]; [|assumption].
  now apply env_set_keys.
Qed.

Lemma environ_update_lookup (d : list (string * string))
    (environ environ' : gmap string string) (k v : string) :
  NoDup (map fst d) ->
  environ_update d environ = (None, environ') ->
  env_get k d = Some v -> environ' !! k = Some v.
Proof.
  revert environ. induction d as [|[k0 v0] d IH]; intros environ Hnd; [discriminate|].
  cbn in *. apply NoDup_cons in Hnd as [Hnotin Hnd].
  destruct (environ_set k0 v0 environ) as [e|env1] eqn:Eset; [discriminate|].
  apply environ_set_ok in Eset as ->. intros Hup.
  destruct (String.eqb k k0) eqn:E.
  - apply String.eqb_eq in E as ->. intros [= <-].
    assert (forall d' (env env' : gmap string string),
               k0 ∉ map fst d' -> environ_update d' env = (None, env') ->
               env' !! k0 = env !! k0) as Hkeep.
    { clear. induction d' as [|[k1 v1] d' IHd]; intros env env' Hnotin; cbn.
      - now intros [= <-].
      - destruct (environ_set k1 v1 env) as [e|env1] eqn:Eset; [discriminate|].
        apply environ_set_ok in Eset as ->. intros Hup.
        cbn in Hnotin. apply not_elem_of_cons in Hnotin as [Hne Hnotin].
        rewrite (IHd _ _ Hnotin Hup). apply lookup_insert_ne. congruence. }
    rewrite (Hkeep d _ _ Hnotin Hup). apply lookup_insert_eq.
  - now apply (IH _ Hnd Hup).
Qed.

(** X3: when [reload_env_if_valid] answers [loaded from .env], the key it
    returns starts with [sk-] and is longer than 20 characters, the
    environment now holds that key under [OPENAI_API_KEY], and every other
    assignment of the file has been copied into the environment too. *)
Theorem reload_loaded_key_is_valid (file : option string)
    (environ environ' : gmap string string) (key : option string) :
  reload_env_if_valid file environ = (inr (key, "loaded from .env"), environ') ->
  exists k,
    key = Some k
    /\ startswith "sk-" k = true /\ (20 < String.length k)%nat
    /\ environ' !! "OPENAI_API_KEY" = Some k
    /\ forall name v, env_get name (_parse_env_file file) = Some v ->
                      environ' !! name = Some v.
Proof.
  unfold reload_env_if_valid.
  destruct (_ && _validate_env_dict (_parse_env_file file)) eqn:Hvalid.
  - apply andb_prop in Hvalid as [_ Hvalid]. unfold _validate_env_dict in Hvalid.
    destruct (environ_update (_parse_env_file file) environ) as [[e|] env1] eqn:Hup;
      [discriminate|].
    intros [= <- <-].
    assert (NoDup (map fst (_parse_env_file file))) as Hnd.
    { destruct file; [apply parse_lines_keys|constructor]. }
    destruct (env_get "OPENAI_API_KEY" (_parse_env_file file)) as [k|] eqn:Hk;
      [|discriminate].
    cbn [default from_option id] in Hvalid. apply andb_prop in Hvalid as [Hsk Hlen].
    exists k. repeat split; try assumption.
    + now apply Nat.ltb_lt.
    + now apply (environ_update_lookup _ _ _ _ _ Hnd Hup).
    + intros name v Hget. exact (environ_update_lookup _ _ _ _ _ Hnd Hup Hget).
  - destruct (negb _); discriminate.
Qed.

Lemma reload_loaded_key_is_valid_witness :
  exists k,
    Some "sk-0123456789abcdefghij" = Some k
    /\ startswith "sk-" k = true /\ (20 < String.length k)%nat
    /\ (snd (reload_env_if_valid
               (Some ("OPENAI_MODEL=gpt-4" +:+ nl +:+ "OPENAI_API_KEY = sk-0123456789abcdefghij"))
               ∅)) !! "OPENAI_API_KEY" = Some k
    /\ forall name v,
         env_get name (_parse_env_file
                         (Some ("OPENAI_MODEL=gpt-4" +:+ nl
                                +:+ "OPENAI_API_KEY = sk-0123456789abcdefghij"))) = Some v ->
         (snd (reload_env_if_valid
                 (Some ("OPENAI_MODEL=gpt-4" +:+ nl
                        +:+ "OPENAI_API_KEY = sk-0123456789abcdefghij"))
                 ∅)) !! name = Some v.
Proof.
  exact (reload_loaded_key_is_valid
           (Some ("OPENAI_MODEL=gpt-4" +:+ nl +:+ "OPENAI_API_KEY = sk-0123456789abcdefghij"))
           ∅ _ (Some "sk-0123456789abcdefghij") eq_refl).
Defined.

(** X4: a [.env] file that is missing, or whose key is not valid, never
    touches the environment: [reload_env_if_valid] then answers from the
    environment alone, with its key when that is not empty and with no
    key otherwise; in particular an invalid key of the file is never
    returned. *)
Theorem reload_invalid_file_keeps_environ (file : option string)
    (environ : gmap string string) :
  _validate_env_dict (_parse_env_file file) = false ->
  reload_env_if_valid file environ
  = (inr (match environ !! "OPENAI_API_KEY" with
          | Some (String c k) => (Some (String c k), "from environment")
          | _ => (None, "no API key found")
          end), environ).
Proof.
  intros Hinvalid. unfold reload_env_if_valid. rewrite Hinvalid, andb_false_r.
  destruct (environ !! "OPENAI_API_KEY") as [[|c k]|]; reflexivity.
Qed.

Lemma reload_invalid_file_keeps_environ_witness :
  reload_env_if_valid (Some ("OPENAI_API_KEY=sk-short" +:+ nl +:+ "DEBUG=1"))
                      {["OPENAI_API_KEY" := "from-the-shell"]}
  = (inr (Some "from-the-shell", "from environment"),
     {["OPENAI_API_KEY" := "from-the-shell"]}).
Proof.
  exact (reload_invalid_file_keeps_environ
           (Some ("OPENAI_API_KEY=sk-short" +:+ nl +:+ "DEBUG=1"))
           {["OPENAI_API_KEY" := "from-the-shell"]} eq_refl).
Defined.

(** ** The step tracer, event by event *)

Lemma length_append (x y : string) :
  String.length (x +:+ y) = (String.length x + String.length y)%nat.
Proof.
  induction x as [|c x IH]; [reflexivity|].
  change (String c x +:+ y) with (String c (x +:+ y)). cbn. now rewrite IH.
Qed.

Lemma char_length_append (x y : string) :
  char_length (x +:+ y) = (char_length x + char_length y)%nat.
Proof.
  induction x as [|c x IH]; [reflexivity|].
  change (String c x +:+ y) with (String c (x +:+ y)). cbn [char_length].
  destruct (is_continuation c); rewrite IH; reflexivity.
Qed.

Lemma char_length_take_chars (n : nat) (s : string) :
  (char_length (take_chars n s) <= n)%nat.
Proof.
  revert n. induction s as [|c s IH]; intros n; cbn [take_chars char_length]; [lia|].
  destruct (is_continuation c) eqn:E.
  - cbn [char_length]. rewrite E. apply IH.
  - destruct n as [|n]; cbn [char_length]; [lia|]. rewrite E. specialize (IH n). lia.
Qed.

Lemma cut_bounded (s : string) : (char_length (cut s) <= preview_limit)%nat.
Proof.
  unfold cut, preview_limit. destruct (200 <? char_length s)%nat eqn:E.
  - rewrite char_length_append. pose proof (char_length_take_chars 200 s).
    change (char_length "…") with 1%nat. lia.
  - apply Nat.ltb_ge in E. lia.
Qed.

Lemma _safe_repr_bounded (obj : pyobj) (s : string) :
  _safe_repr obj = Returns s -> (char_length s <= preview_limit)%nat.
Proof.
  unfold _safe_repr. destruct (obj_repr obj) as [text|e str_fails].
  - intros [= <-]. apply cut_bounded.
  - destruct (exc_is_Exception e); [|discriminate].
    destruct str_fails; [discriminate|]. intros [= <-]. apply cut_bounded.
Qed.

Lemma previews_bounded_each (items : list (string * pyobj)) (l : list (string * string)) :
  previews items = Returns l ->
  Forall (fun kv => (char_length kv.2 <= preview_limit)%nat) l.
Proof.
  revert l. induction items as [|[k v] items IH]; intros l; cbn [previews].
  - intros [= <-]. constructor.
  - destruct (_safe_repr v) as [t| |] eqn:Hv; [|discriminate..].
    destruct (previews items) as [l'| |]; [|discriminate..].
    intros [= <-]. constructor; [|now apply IH].
    cbn. now apply (_safe_repr_bounded v).
Qed.

Lemma record_of_bounded (code_lines : list string) (ev : trace_event) :
  previews_bounded (record_of code_lines ev).
Proof.
  unfold previews_bounded, record_of, step_of.
  destruct (locals_snapshot (ev_frame ev)) as [locals| |] eqn:Hlocals;
    [|split; [constructor|exact I]..].
  assert (Forall (fun kv => (char_length kv.2 <= preview_limit)%nat) locals) as Hall.
  { unfold locals_snapshot in Hlocals.
    destruct (f_locals (ev_frame ev)) as [items|]; [|injection Hlocals as <-; constructor].
    destruct (previews items) as [l|e|] eqn:Hp.
    - injection Hlocals as <-. now apply (previews_bounded_each items).
    - destruct (exc_is_Exception e); [|discriminate]. injection Hlocals as <-. constructor.
    - discriminate. }
  destruct (String.eqb (ev_name ev) "return").
  - destruct (_safe_repr (ev_arg ev)) as [r| |] eqn:Hr; cbn [step_locals step_return];
      [|split; [constructor|exact I]..].
    split; [exact Hall|]. now apply (_safe_repr_bounded (ev_arg ev)).
  - cbn [step_locals step_return]. now split.
Qed.

Section TraceFacts.

Variable breakpoints : gset Z.
Variable max_steps : Z.
Variable code_lines : list string.

#[local] Abbreviation tracer := (Tracer.tracer breakpoints max_steps code_lines).
#[local] Abbreviation deliver := (Tracer.deliver breakpoints max_steps code_lines).

(** The closure appends at most the record of the event, and only of a
    recordable one. *)
Lemma tracer_trace (st : tstate) (ev : trace_event) (s : step) :
  In s (trace (tracer st ev)) ->
  In s (trace st) \/ (recordable breakpoints ev = true /\ s = record_of code_lines ev).
Proof.
  rewrite tracer_unfold. destruct (recordable breakpoints ev); [|now left].
  unfold record_of. destruct (step_of code_lines ev) as [this_step| |]; [|now left..].
  cbv zeta. intros Hin.
  assert (In s (trace st ++ [this_step])) as Hin' by now destruct (_ >=? _) in Hin.
  apply in_app_or in Hin' as [Hin'|[<-|[]]]; [now left|now right].
Qed.

(** Events delivered in two runs are events delivered in one. *)
Lemma deliver_app (st : tstate) (events more : list trace_event) :
  deliver st (events ++ more) = deliver (deliver st events) more.
Proof.
  revert st. induction events as [|ev events IH]; intros st; [reflexivity|].
  cbn [app Tracer.deliver].
  destruct (ev_settrace ev) as [f|]; cbn [sys_trace];
    [destruct f|destruct (sys_trace st)]; apply IH.
Qed.

Lemma deliver_records (events : list trace_event) (st : tstate) (s : step) :
  In s (trace (deliver st events)) ->
  In s (trace st)
  \/ exists ev, In ev events /\ recordable breakpoints ev = true
                /\ s = record_of code_lines ev.
Proof.
  revert st. induction events as [|ev events IH]; intros st; [now left|].
  cbn [Tracer.deliver].
  set (st1 := match ev_settrace ev with
              | Some f => TState (trace st) (truncated st) f
              | None => st
              end).
  assert (trace st1 = trace st) as Htrace by (unfold st1; now destruct (ev_settrace ev)).
  destruct (sys_trace st1); intros Hin.
  - apply IH in Hin as [Hin|(ev' & Hev' & Hrec & ->)].
    + apply tracer_trace in Hin as [Hin|[Hrec ->]].
      * left. now rewrite <- Htrace.
      * right. exists ev. repeat split; [now left|assumption].
    + right. exists ev'. repeat split; [now right|assumption].
  - apply IH in Hin as [Hin|(ev' & Hev' & Hrec & ->)].
    + left. now rewrite <- Htrace.
    + right. exists ev'. repeat split; [now right|assumption].
Qed.

(** While the tracer records, and the submission leaves the tracing
    alone, the trace grows by the records of the recordable events, up
    to the cap. *)
Lemma deliver_prefix (events : list trace_event) (st : tstate) :
  Forall (fun ev => quiet ev = true) events ->
  recording max_steps st ->
  let records := map (record_of code_lines) (List.filter (recordable breakpoints) events) in
  let st' := deliver st events in
  trace st' = trace st ++ take (Z.to_nat max_steps - length (trace st)) records
  /\ truncated st'
     = bool_decide (max_steps <= Z.of_nat (length (trace st) + length records)).
Proof.
  intros Hq. revert st.
  induction Hq as [|ev events Hev Hq IH]; intros st (Hon & Htr & Hlen).
  - cbn. rewrite take_nil, app_nil_r, Htr. split; [reflexivity|].
    symmetry. apply bool_decide_eq_false. lia.
  - cbv zeta. rewrite (deliver_cons _ _ _ st ev events RequestTracer Hev Hon).
    rewrite tracer_quiet by assumption. cbn [List.filter].
    destruct (recordable breakpoints ev) eqn:Hrec.
    + cbv zeta. cbn [map]. set (r := record_of code_lines ev).
      set (records := map (record_of code_lines) (List.filter (recordable breakpoints) events)).
      assert (length (trace st ++ [r]) = S (length (trace st))) as Hl
          by (rewrite length_app; cbn; lia).
      destruct (Z.of_nat (length (trace st ++ [r])) >=? max_steps) eqn:E.
      * apply Z.geb_le in E. rewrite deliver_stopped by (assumption || reflexivity).
        cbn [trace truncated].
        replace (Z.to_nat max_steps - length (trace st))%nat with 1%nat by lia.
        cbn [take]. rewrite take_0. split; [reflexivity|].
        symmetry. apply bool_decide_eq_true. cbn [length]. lia.
      * rewrite Z.geb_leb in E. apply Z.leb_gt in E.
        destruct (IH (TState (trace st ++ [r]) (truncated st) (sys_trace st)))
          as [IHt IHf]; [repeat split; cbn; (assumption || lia)|].
        cbv zeta in IHt, IHf. fold records in IHt, IHf. cbn [trace] in IHt, IHf.
        rewrite IHt, IHf, Hl. split.
        -- replace (Z.to_nat max_steps - length (trace st))%nat
             with (S (Z.to_nat max_steps - S (length (trace st))))%nat by lia.
           cbn [take]. now rewrite <- app_assoc.
        -- apply bool_decide_ext. cbn [length]. lia.
    + apply (IH st). now repeat split.
Qed.

End TraceFacts.

(** X14: with a cap of at least one, and a submission that leaves the
    tracing alone (at no event has it called [sys.settrace], nor do the
    [__repr__]s of the objects previewed, and their previews can be
    taken), the trace is exactly the records of the first [maxSteps]
    recordable events, in the order of the events (an event is
    recordable when it comes from the submitted code, is a [call],
    [line] or [return], and lies on a breakpoint if any is set), and
    [truncated] tells whether there were at least [maxSteps] of them. *)
Theorem trace_is_prefix_of_recordable (breakpoints : gset Z) (max_steps : Z)
    (code_lines : list string) (events : list trace_event) :
  1 <= max_steps ->
  Forall (fun ev => quiet ev = true) events ->
  let records := map (record_of code_lines) (List.filter (recordable breakpoints) events) in
  let st := deliver breakpoints max_steps code_lines
                    (TState [] false (Some RequestTracer)) events in
  trace st = take (Z.to_nat max_steps) records
  /\ truncated st = bool_decide (max_steps <= Z.of_nat (length records)).
Proof.
  intros Hcap Hq records st.
  destruct (deliver_prefix breakpoints max_steps code_lines events
              (TState [] false (Some RequestTracer)) Hq) as [Ht Hf].
  { repeat split; cbn; lia. }
  cbv zeta in Ht, Hf. cbn [trace length] in Ht, Hf.
  rewrite Nat.sub_0_r in Ht. now split.
Qed.

Lemma trace_is_prefix_of_recordable_witness :
  trace (deliver ∅ 2 ["def summation(a, b): return a + b"]
                 (TState [] false (Some RequestTracer))
                 (Event (Frame "contextlib.py" 1 None) "call" none None :: three_events))
  = take 2 (map (record_of ["def summation(a, b): return a + b"])
                (List.filter (recordable ∅)
                   (Event (Frame "contextlib.py" 1 None) "call" none None :: three_events)))
  /\ truncated (deliver ∅ 2 ["def summation(a, b): return a + b"]
                        (TState [] false (Some RequestTracer))
                        (Event (Frame "contextlib.py" 1 None) "call" none None
                         :: three_events))
     = bool_decide
         (2 <= Z.of_nat (length (map (record_of ["def summation(a, b): return a + b"])
                                  (List.filter (recordable ∅)
                                     (Event (Frame "contextlib.py" 1 None) "call" none None
                                      :: three_events))))).
Proof.
  refine (trace_is_prefix_of_recordable ∅ 2 ["def summation(a, b): return a + b"]
            (Event (Frame "contextlib.py" 1 None) "call" none None :: three_events)
            ltac:(lia) _).
  repeat constructor.
Defined.

(** X15: whatever the cap, a record of the trace always comes from an
    event of the submitted code of kind [call], [line] or [return], and
    when breakpoints are set its line is one of them: frames of the
    server's own code never show in a trace. *)
Theorem trace_holds_only_recordable (breakpoints : gset Z) (max_steps : Z)
    (code_lines : list string) (events : list trace_event) (s : step) :
  In s (trace (deliver breakpoints max_steps code_lines
                       (TState [] false (Some RequestTracer)) events)) ->
  (exists ev, In ev events /\ co_filename (ev_frame ev) = "<string>"
              /\ s = record_of code_lines ev)
  /\ step_event s ∈ ["call"; "line"; "return"]
  /\ (breakpoints <> ∅ -> step_line s ∈ breakpoints).
Proof.
  intros Hin. apply deliver_records in Hin as [[]|(ev & Hev & Hrec & ->)].
  unfold recordable in Hrec.
  apply andb_prop in Hrec as [[Hfile Hkind]%andb_prop Hbp].
  apply String.eqb_eq in Hfile. apply bool_decide_eq_true in Hkind.
  assert (step_event (record_of code_lines ev) = ev_name ev
          /\ step_line (record_of code_lines ev) = f_lineno (ev_frame ev)) as [Hname Hline].
  { unfold record_of, step_of.
    destruct (locals_snapshot (ev_frame ev)); [|now split..].
    destruct (String.eqb (ev_name ev) "return"); [|now split].
    destruct (_safe_repr (ev_arg ev)); now split. }
  repeat split.
  - exists ev. auto.
  - now rewrite Hname.
  - intros Hne. rewrite Hline. apply orb_prop in Hbp as [Hbp|Hbp].
    + apply bool_decide_eq_true in Hbp. contradiction.
    + now apply bool_decide_eq_true in Hbp.
Qed.

Lemma trace_holds_only_recordable_witness :
  (exists ev, In ev three_events /\ co_filename (ev_frame ev) = "<string>"
              /\ call_step = record_of [summation_code] ev)
  /\ step_event call_step ∈ ["call"; "line"; "return"]
  /\ (({[1]} : gset Z) <> ∅ -> step_line call_step ∈ ({[1]} : gset Z)).
Proof.
  apply (trace_holds_only_recordable {[1]} 0 [summation_code] three_events call_step).
  vm_compute. now left.
Defined.


(** ** Submission of a solution *)

Section SubmitFacts.

Variable P : platform.
Variable I : interpreter.
Variable special_eq : value -> value -> bool.
Variable PROBLEMS : gmap string (list (list value * value)).

#[local] Abbreviation run_cases := (Submit.run_cases P special_eq).
#[local] Abbreviation submit_solution := (Submit.submit_solution P I special_eq PROBLEMS).

Lemma language_lookup (language : string) :
  language <> "python" -> language <> "javascript" ->
  language <> "java" -> language <> "cpp" ->
  LANGUAGE_EXECUTORS P I !! language = None.
Proof.
  intros H1 H2 H3 H4. unfold LANGUAGE_EXECUTORS.
  rewrite !lookup_insert_ne by congruence.
  apply lookup_singleton_ne. congruence.
Qed.

(** X5: a request is checked before anything runs.  A body that is
    missing, a problem that is not in the catalogue (whatever the
    language), and, for a known problem, a language that is none of
    [python], [javascript], [java] and [cpp] are each answered with their
    own error, and the machine is left untouched: no file is written and
    no process is started. *)
Theorem submit_rejects_before_running (w : world) :
  submit_solution None w = (Returns InvalidJson, w)
  /\ (forall data,
        (sub_problem data = None
         \/ exists name, sub_problem data = Some name /\ PROBLEMS !! name = None) ->
        submit_solution (Some data) w = (Returns SubmitInvalidProblem, w))
  /\ (forall data name tests language,
        sub_problem data = Some name -> PROBLEMS !! name = Some tests ->
        sub_language data = Some language ->
        language <> "python" -> language <> "javascript" ->
        language <> "java" -> language <> "cpp" ->
        submit_solution (Some data) w = (Returns (UnsupportedLanguage language), w)).
Proof.
  repeat apply conj.
  - reflexivity.
  - intros data [Hnone|(name & Hname & Hmiss)]; unfold Submit.submit_solution.
    + now rewrite Hnone.
    + rewrite Hname. cbn. now rewrite Hmiss.
  - intros data name tests language Hname Htests Hlang H1 H2 H3 H4.
    unfold Submit.submit_solution. rewrite Hname. cbn. rewrite Htests, Hlang. cbn.
    now rewrite language_lookup.
Qed.

Lemma run_cases_shape (run : executor) (code func_name : string)
    (tests : list (list value * value)) :
  forall i results n_passed n_failed w results' n_passed' n_failed' w',
    run_cases run code func_name i tests results n_passed n_failed w
    = (Returns (results', n_passed', n_failed'), w') ->
    exists new,
      results' = results ++ new
      /\ length new = length tests
      /\ map test_num new = seq (S i) (length tests)
      /\ n_passed' = (n_passed + length (List.filter passed new))%nat
      /\ n_failed' = (n_failed + length (List.filter (fun r => negb (passed r)) new))%nat.
Proof.
  induction tests as [|[args expected] tests IH];
    intros i results n_passed n_failed w results' n_passed' n_failed' w'.
  - cbn. intros [= <- <- <- _]. exists []. rewrite app_nil_r. cbn. repeat split; lia.
  - cbn [Submit.run_cases].
    destruct (run code args func_name w) as [[[[result out] err]|e|] w1]; [| |discriminate].
    + destruct (py_eq special_eq result expected); intros H;
        apply IH in H as (new & -> & Hlen & Hnum & -> & ->);
        eexists (_ :: new); rewrite <- app_assoc;
          (split; [reflexivity|]); cbn; rewrite Hnum, Hlen;
          (split; [reflexivity|]); (split; [reflexivity|]); split; lia.
    + destruct (exc_is_Exception e); [|discriminate]. intros H.
      apply IH in H as (new & -> & Hlen & Hnum & -> & ->).
      eexists (_ :: new). rewrite <- app_assoc.
      split; [reflexivity|]. cbn. rewrite Hnum, Hlen.
      split; [reflexivity|]. split; [reflexivity|]. split; lia.
Qed.

Lemma filter_passed_split (results : list test_result) :
  (length (List.filter passed results)
   + length (List.filter (fun r => negb (passed r)) results))%nat = length results.
Proof.
  induction results as [|r results IH]; [reflexivity|]. cbn.
  destruct (passed r); cbn; lia.
Qed.

(** X6: in the answer to a judged submission the counts agree with the
    list of results: there is one result per test of the problem,
    numbered from 1 in the order of the tests, [total] is their number,
    [passed] counts the results marked as passed, and [passed] and
    [failed] add up to [total]. *)
Theorem judged_counts (data : submit_request) (name : string)
    (tests : list (list value * value)) (w w' : world)
    (n_passed n_failed total : nat) (results : list test_result) :
  sub_problem data = Some name ->
  PROBLEMS !! name = Some tests ->
  submit_solution (Some data) w = (Returns (Judged n_passed n_failed total results), w') ->
  total = length tests
  /\ length results = total
  /\ map test_num results = seq 1 total
  /\ n_passed = length (List.filter passed results)
  /\ (n_passed + n_failed)%nat = total.
Proof.
  intros Hname Htests. unfold Submit.submit_solution. rewrite Hname. cbn. rewrite Htests. cbn.
  destruct (LANGUAGE_EXECUTORS P I !! _) as [run|]; [|discriminate].
  unfold bind.
  destruct (Submit.run_cases _ _ _ _ _ _ _ _ _ _ _) as [[[[rs p] f]|e|] w1] eqn:Hrun;
    [|discriminate..].
  cbn. intros [= <- <- <- <- _].
  apply run_cases_shape in Hrun as (new & -> & Hlen & Hnum & -> & ->).
  cbn. pose proof (filter_passed_split new). repeat split; try lia. exact Hnum.
Qed.

End SubmitFacts.

Section SubmitRuns.

Variable P : platform.
Variable I : interpreter.
Variable special_eq : value -> value -> bool.
Variable PROBLEMS : gmap string (list (list value * value)).

#[local] Abbreviation run_cases' := (Submit.run_cases P special_eq).
#[local] Abbreviation submit_solution' := (Submit.submit_solution P I special_eq PROBLEMS).

Lemma language_python : LANGUAGE_EXECUTORS P I !! "python" = Some (in_process I).
Proof. unfold LANGUAGE_EXECUTORS. now rewrite lookup_insert. Qed.

Lemma language_javascript :
  LANGUAGE_EXECUTORS P I !! "javascript" = Some (execute_javascript P).
Proof.
  unfold LANGUAGE_EXECUTORS. rewrite lookup_insert_ne by discriminate.
  now rewrite lookup_insert.
Qed.

Lemma language_java : LANGUAGE_EXECUTORS P I !! "java" = Some (execute_java P).
Proof.
  unfold LANGUAGE_EXECUTORS. rewrite !lookup_insert_ne by discriminate.
  now rewrite lookup_insert.
Qed.

Lemma language_cpp : LANGUAGE_EXECUTORS P I !! "cpp" = Some (execute_cpp P).
Proof.
  unfold LANGUAGE_EXECUTORS. rewrite !lookup_insert_ne by discriminate.
  now rewrite lookup_singleton.
Qed.

(** The handler on a request that passes the checks. *)
Lemma submit_runs (data : submit_request) (name : string)
    (tests : list (list value * value)) (run : executor) :
  sub_problem data = Some name ->
  PROBLEMS !! name = Some tests ->
  LANGUAGE_EXECUTORS P I !! default "python" (sub_language data) = Some run ->
  submit_solution' (Some data)
  = bind (run_cases' run (default EmptyString (sub_code data)) (entry_point name) 0 tests [] 0%nat 0%nat)
         (fun r => ret (Judged r.1.2 r.2 (length tests) r.1.1)).
Proof.
  intros Hname Htests Hrun. unfold Submit.submit_solution.
  rewrite Hname. cbn. rewrite Htests. cbn. now rewrite Hrun.
Qed.

Lemma py_eq_scalar_structured (a b : value) :
  scalar a = true -> structured b = true -> py_eq special_eq a b = false.
Proof. destruct a, b; try discriminate; reflexivity. Qed.

Lemma run_cases_none_passes (run : executor) (code func_name : string)
    (tests : list (list value * value)) :
  (forall args, yields (fun r => scalar r.1.1 = true) (run code args func_name)) ->
  Forall (fun t => structured t.2 = true) tests ->
  forall i results n_passed n_failed w results' n_passed' n_failed' w',
    run_cases' run code func_name i tests results n_passed n_failed w
    = (Returns (results', n_passed', n_failed'), w') ->
    n_passed' = n_passed.
Proof.
  intros Hrun Hall. induction Hall as [|[args expected] tests Hexp Hall IH];
    intros i results n_passed n_failed w results' n_passed' n_failed' w'.
  - cbn. now intros [= _ <- _ _].
  - cbn [Submit.run_cases]. pose proof (Hrun args w) as Hval.
    destruct (run code args func_name w) as [[[[result out] err]|e|] w1]; [| |discriminate].
    + rewrite py_eq_scalar_structured; [apply IH| |exact Hexp].
      exact (Hval _ eq_refl).
    + destruct (exc_is_Exception e); [apply IH|discriminate].
Qed.

(** X7: a Java or C++ submission never passes a test whose expected value
    is [None], a list, a tuple or a dict, whatever the submitted program
    prints: on a problem with such tests only, every judged answer
    reports zero passed and all tests failed. *)
Theorem compiled_submission_fails_structured_tests (data : submit_request)
    (name : string) (tests : list (list value * value)) (w w' : world)
    (n_passed n_failed total : nat) (results : list test_result) :
  sub_language data = Some "java" \/ sub_language data = Some "cpp" ->
  sub_problem data = Some name ->
  PROBLEMS !! name = Some tests ->
  Forall (fun t => structured t.2 = true) tests ->
  submit_solution' (Some data) w
  = (Returns (Judged n_passed n_failed total results), w') ->
  n_passed = 0%nat /\ n_failed = length tests
  /\ Forall (fun r => passed r = false) results.
Proof.
  intros Hlang Hname Htests Hall.
  assert (exists run, LANGUAGE_EXECUTORS P I !! default "python" (sub_language data) = Some run
                      /\ forall code args func_name,
                           yields (fun r => scalar r.1.1 = true) (run code args func_name))
    as (run & Hrun & Hval).
  { destruct Hlang as [-> | ->]; cbn.
    - exists (execute_java P). split; [apply language_java|]. intros. apply execute_java_value.
    - exists (execute_cpp P). split; [apply language_cpp|]. intros. apply execute_cpp_value. }
  rewrite (submit_runs _ _ _ _ Hname Htests Hrun). unfold bind.
  destruct (Submit.run_cases _ _ _ _ _ _ _ _ _ _ _) as [[[[rs p] f]|e|] w1] eqn:Hcases;
    [|discriminate..].
  cbn. intros [= <- <- <- <- _].
  pose proof (run_cases_none_passes _ _ _ _ (fun args => Hval _ args _) Hall
                _ _ _ _ _ _ _ _ _ Hcases) as ->.
  apply run_cases_shape in Hcases as (new & -> & Hlen & _ & Hp & ->).
  cbn in *. pose proof (filter_passed_split new) as Hsplit.
  split; [reflexivity|]. split; [lia|].
  assert (length (List.filter passed new) = 0)%nat as Hnone by lia.
  apply Forall_forall. intros r Hr.
  destruct (passed r) eqn:E; [|reflexivity].
  assert (In r (List.filter passed new)) as Hin.
  { apply filter_In. split; [now apply list_elem_of_In|exact E]. }
  destruct (List.filter passed new); [destruct Hin|discriminate].
Qed.

End SubmitRuns.

Lemma compiled_submission_fails_structured_tests_witness :
  match fst (Submit.submit_solution (printing "RESULT:[0, 1]") exit_interpreter no_special
               two_problems (submission "two_sum" "java") empty_world) with
  | Returns (Judged n_passed n_failed _ results) =>
      n_passed = 0%nat /\ n_failed = length two_sum_tests
      /\ Forall (fun r => passed r = false) results
  | _ => False
  end.
Proof.
  destruct (Submit.submit_solution (printing "RESULT:[0, 1]") exit_interpreter no_special
              two_problems (submission "two_sum" "java") empty_world)
    as [[[| | |n_passed n_failed total results]| |] w'] eqn:E;
    try (vm_compute in E; discriminate).
  refine (compiled_submission_fails_structured_tests (printing "RESULT:[0, 1]")
            exit_interpreter no_special two_problems
            (SubmitRequest (Some "two_sum") (Some "code") (Some "java"))
            "two_sum" two_sum_tests empty_world w' n_passed n_failed total results
            (or_introl eq_refl) eq_refl eq_refl _ E).
  repeat constructor.
Defined.

Section SubmitTime.

Variable P : platform.
Variable I : interpreter.
Variable special_eq : value -> value -> bool.
Variable PROBLEMS : gmap string (list (list value * value)).

#[local] Abbreviation run_cases'' := (Submit.run_cases P special_eq).
#[local] Abbreviation submit_solution'' := (Submit.submit_solution P I special_eq PROBLEMS).

Lemma bounded_run_cases (k : nat) (run : executor) (code func_name : string)
    (tests : list (list value * value)) :
  (forall args, bounded k (run code args func_name)) ->
  forall i results n_passed n_failed,
    bounded (k * length tests)
            (run_cases'' run code func_name i tests results n_passed n_failed).
Proof.
  intros Hrun. induction tests as [|[args expected] tests IH];
    intros i results n_passed n_failed w.
  - cbn. split; [discriminate|lia].
  - cbn [Submit.run_cases length]. destruct (Hrun args w) as [Hback Hclock].
    destruct (run code args func_name w) as [[[[result out] err]|e|] w1];
      cbn [fst snd] in *; [| |congruence].
    + destruct (py_eq special_eq result expected);
        match goal with
        | |- context [Submit.run_cases _ _ _ _ _ ?i _ ?rs ?p ?f w1] =>
            destruct (IH i rs p f w1) as [Hback' Hclock']
        end; (split; [assumption|lia]).
    + destruct (exc_is_Exception e).
      * match goal with
        | |- context [Submit.run_cases _ _ _ _ _ ?i _ ?rs ?p ?f w1] =>
            destruct (IH i rs p f w1) as [Hback' Hclock']
        end. split; [assumption|lia].
      * cbn. split; [discriminate|lia].
Qed.


End SubmitTime.


Section Polite.

Variable P : platform.
Hypothesis civil_machine : civil P.

Lemma polite_ret {A} (a : A) : polite (ret a).
Proof. intros w. exact Logic.I. Qed.

Lemma polite_raise {A} (e : raised) : exc_is_Exception e = true -> polite (@raise A e).
Proof. intros He w. exact He. Qed.

Lemma polite_bind {A B} (m : exec A) (f : A -> exec B) :
  polite m -> (forall a, polite (f a)) -> polite (bind m f).
Proof.
  intros Hm Hf w. unfold bind. specialize (Hm w).
  destruct (m w) as [[a|e|] w1]; cbn in *; [apply Hf|exact Hm|exact Hm].
Qed.

Lemma polite_try_finally {A} (body : exec A) (cleanup : world -> world) :
  polite body -> polite (try_finally body cleanup).
Proof.
  intros Hbody w. unfold try_finally. specialize (Hbody w).
  destruct (body w) as [[a|e|] w1]; cbn in *; exact Hbody.
Qed.

Lemma polite_mkdtemp : polite (mkdtemp P).
Proof.
  intros w. unfold mkdtemp. destruct (mkdtemp_choice P w) as [e|d] eqn:E; cbn.
  - exact (proj1 civil_machine w e E).
  - exact Logic.I.
Qed.

Lemma polite_write_text (path text : string) : polite (write_text P path text).
Proof.
  intros w. unfold write_text. destruct (write_failure P path text w) as [e|] eqn:E; cbn.
  - exact (proj1 (proj2 civil_machine) path text w e E).
  - exact Logic.I.
Qed.

Lemma polite_subprocess_run (argv : list string) (cwd : option string) (timeout : nat) :
  polite (subprocess_run P argv cwd timeout).
Proof.
  intros w. unfold subprocess_run.
  destruct (child P argv cwd w) as [e|secs rc out err eff|eff] eqn:E; cbn.
  - exact (proj2 (proj2 civil_machine) argv cwd w e E).
  - destruct (secs <=? timeout)%nat; cbn; [exact Logic.I|reflexivity].
  - reflexivity.
Qed.

End Polite.

(** Splits a [polite] goal along the structure of the computation. *)
Ltac polite_step H :=
  match goal with
  | |- polite (bind (mkdtemp _) _) =>
      apply polite_bind; [apply (polite_mkdtemp _ H) | intros ?]
  | |- polite (bind (write_text _ _ _) _) =>
      apply polite_bind; [apply (polite_write_text _ H) | intros ?]
  | |- polite (bind (subprocess_run _ _ _ _) _) =>
      apply polite_bind; [apply (polite_subprocess_run _ H) | intros ?]
  | |- polite (bind _ _) => apply polite_bind; [| intros ?]
  | |- polite (try_finally _ _) => apply polite_try_finally
  | |- polite (if ?b then _ else _) => destruct b
  | |- polite (match ?x with _ => _ end) => destruct x
  | |- polite (ret _) => apply polite_ret
  | |- polite (raise _) => apply polite_raise; reflexivity
  end.

Lemma polite_execute_javascript P code test_args problem_name :
  civil P -> polite (execute_javascript P code test_args problem_name).
Proof. intros H. unfold execute_javascript. cbv zeta. repeat polite_step H. Qed.

Lemma polite_execute_java P code test_args problem_name :
  civil P -> polite (execute_java P code test_args problem_name).
Proof. intros H. unfold execute_java. cbv zeta. repeat polite_step H. Qed.

Lemma polite_execute_cpp P code test_args problem_name :
  civil P -> polite (execute_cpp P code test_args problem_name).
Proof. intros H. unfold execute_cpp. cbv zeta. repeat polite_step H. Qed.

Section SubmitJudges.

Variable P : platform.
Variable I : interpreter.
Variable special_eq : value -> value -> bool.
Variable PROBLEMS : gmap string (list (list value * value)).

(** With an executor that always comes back, by a value or by an
    exception of the [Exception] hierarchy, the loop runs every test and
    appends the verdict of each. *)
Lemma run_cases_verdicts (run : executor) (code func_name : string)
    (tests : list (list value * value)) :
  (forall args, polite (run code args func_name)) ->
  forall i results n_passed n_failed w,
    let new := verdicts P special_eq i tests (executions run code func_name tests w) in
    exists w',
      Submit.run_cases P special_eq run code func_name i tests results n_passed n_failed w
      = (Returns (results ++ new,
                  (n_passed + length (List.filter passed new))%nat,
                  (n_failed + length (List.filter (fun r => negb (passed r)) new))%nat),
         w').
Proof.
  intros Hrun. induction tests as [|[args expected] tests IH];
    intros i results n_passed n_failed w.
  - cbn. rewrite app_nil_r, !Nat.add_0_r. eauto.
  - cbv zeta. cbn [Submit.run_cases executions verdicts]. pose proof (Hrun args w) as Hpol.
    destruct (run code args func_name w) as [[[[result out] err]|e|] w1];
      cbn [fst snd] in *.
    + unfold verdict at 1 2 3. cbn [fst snd].
      destruct (py_eq special_eq result expected);
        match goal with
        | |- context [Submit.run_cases _ _ _ _ _ _ _ ?rs ?p ?f w1] =>
            destruct (IH (S i) rs p f w1) as [w' ->]
        end; exists w'; cbn; rewrite <- app_assoc; cbn;
          repeat f_equal; lia.
    + rewrite Hpol. unfold verdict at 1 2 3.
      match goal with
      | |- context [Submit.run_cases _ _ _ _ _ _ _ ?rs ?p ?f w1] =>
          destruct (IH (S i) rs p f w1) as [w' ->]
      end. exists w'. cbn. rewrite <- app_assoc. cbn. repeat f_equal; lia.
    + destruct Hpol.
Qed.


(** X10: a Python submission runs inside the server, and nothing shields
    the request from it: when, on any test of the problem, the submitted
    code leaves by an exception outside the [Exception] hierarchy
    ([sys.exit()], for one) or never ends, [submit_solution] returns no
    answer at all, not even the results of the tests before: it never
    comes back, or that kind of exception leaves it. *)
Theorem python_submission_can_abort (data : submit_request) (name : string)
    (tests : list (list value * value)) (args : list value) (expected : value)
    (w : world) :
  sub_language data = Some "python" \/ sub_language data = None ->
  sub_problem data = Some name ->
  PROBLEMS !! name = Some tests ->
  In (args, expected) tests ->
  match execute_python I (default EmptyString (sub_code data)) args (entry_point name) with
  | Returns _ => False
  | Raises e => exc_is_Exception e = false
  | NeverReturns => True
  end ->
  fst (Submit.submit_solution P I special_eq PROBLEMS (Some data) w) = NeverReturns
  \/ exists e,
       fst (Submit.submit_solution P I special_eq PROBLEMS (Some data) w) = Raises e
       /\ exc_is_Exception e = false.
Proof.
  intros Hlang Hname Htests Hin Hbad.
  assert (LANGUAGE_EXECUTORS P I !! default "python" (sub_language data)
          = Some (in_process I)) as Hrun.
  { destruct Hlang as [-> | ->]; cbn; apply language_python. }
  rewrite (submit_runs _ _ _ _ _ _ _ _ Hname Htests Hrun). unfold bind.
  set (code := default EmptyString (sub_code data)) in *.
  assert (forall i results n_passed n_failed,
            fst (Submit.run_cases P special_eq (in_process I) code (entry_point name) i tests
                   results n_passed n_failed w) = NeverReturns
            \/ exists e,
                 fst (Submit.run_cases P special_eq (in_process I) code (entry_point name)
                        i tests results n_passed n_failed w) = Raises e
                 /\ exc_is_Exception e = false) as Hnone.
  { clear Htests Hrun. induction tests as [|[args' expected'] tests IH]; [destruct Hin|].
    intros i results n_passed n_failed. cbn [Submit.run_cases].
    change (in_process I code args' (entry_point name) w)
      with (execute_python I code args' (entry_point name), w).
    destruct Hin as [[= -> ->]|Hin].
    - destruct (execute_python I code args (entry_point name)) as [[[result out] err]|e|];
        [destruct Hbad| |now left].
      rewrite Hbad. right. now exists e.
    - destruct (execute_python I code args' (entry_point name)) as [[[result out] err]|e|].
      + destruct (py_eq special_eq result expected'); now apply IH.
      + destruct (exc_is_Exception e) eqn:E; [now apply IH|]. right. now exists e.
      + now left. }
  specialize (Hnone 0%nat [] 0%nat 0%nat).
  destruct (Submit.run_cases _ _ _ _ _ _ _ _ _ _ _) as [[r|e|] w1] eqn:Hcases; cbn in *.
  - destruct Hnone as [Hn|(e & He & _)]; discriminate.
  - destruct Hnone as [Hn|(e' & [= <-] & He)]; [discriminate|]. right. now exists e.
  - now left.
Qed.

End SubmitJudges.

Lemma civil_printing (out : string) : civil (printing out).
Proof. repeat split; intros; discriminate. Qed.

Lemma civil_rejecting_compiler : civil rejecting_compiler.
Proof.
  repeat split; intros; try discriminate.
  cbn in H. repeat case_match; discriminate.
Qed.


Lemma python_submission_can_abort_witness :
  fst (Submit.submit_solution (printing "RESULT:5") exit_interpreter no_special two_problems
         (Some (SubmitRequest (Some "summation") (Some "import sys; sys.exit(1)") None))
         empty_world) = NeverReturns
  \/ exists e,
       fst (Submit.submit_solution (printing "RESULT:5") exit_interpreter no_special
              two_problems
              (Some (SubmitRequest (Some "summation") (Some "import sys; sys.exit(1)") None))
              empty_world) = Raises e
       /\ exc_is_Exception e = false.
Proof.
  exact (python_submission_can_abort (printing "RESULT:5") exit_interpreter no_special
           two_problems (SubmitRequest (Some "summation") (Some "import sys; sys.exit(1)") None)
           "summation" summation_tests [VInt 0; VInt 0] (VInt 0) empty_world
           (or_intror eq_refl) eq_refl eq_refl
           (or_intror (or_intror (or_introl eq_refl))) eq_refl).
Defined.

Lemma judged_counts_witness :
  match fst (Submit.submit_solution (printing "RESULT:5") exit_interpreter no_special
               two_problems (submission "summation" "java") empty_world) with
  | Returns (Judged n_passed n_failed total results) =>
      total = length summation_tests
      /\ length results = total
      /\ map test_num results = seq 1 total
      /\ n_passed = length (List.filter passed results)
      /\ (n_passed + n_failed)%nat = total
  | _ => False
  end.
Proof.
  destruct (Submit.submit_solution (printing "RESULT:5") exit_interpreter no_special
              two_problems (submission "summation" "java") empty_world)
    as [[[| | |n_passed n_failed total results]| |] w'] eqn:E;
    try (vm_compute in E; discriminate).
  exact (judged_counts (printing "RESULT:5") exit_interpreter no_special two_problems
           (SubmitRequest (Some "summation") (Some "code") (Some "java"))
           "summation" summation_tests empty_world w' n_passed n_failed total results
           eq_refl eq_refl E).
Defined.

(** ** Hints *)

(** X11: [get_hints_for] keeps the promise of its docstring, a dict with
    the keys [bullets] and [pseudocode], for every problem name, known or
    not, on every table whose per-language and [default] entries are
    such dicts, provided the language asked for is not itself [bullets]
    or [pseudocode]; asked for the language [bullets] on an entry in the
    flat format it returns the stored bullets instead, which is no such
    dict. *)
Theorem hints_have_both_keys (HINTS : gmap string value) (problem_name language : string) :
  well_formed_table HINTS ->
  (language <> "bullets" -> language <> "pseudocode" ->
   is_hints (get_hints_for HINTS problem_name language) = true)
  /\ (forall e items,
        HINTS !! problem_name = Some (VDict e) ->
        dict_get "bullets" e = Some (VList items) ->
        get_hints_for HINTS problem_name "bullets" = VList items).
Proof.
  intros Hwf. split.
  - intros Hb Hp. unfold get_hints_for.
    destruct (HINTS !! problem_name) as [entry|] eqn:Hentry; [|reflexivity].
    destruct entry as [| | | | | | |e|]; try reflexivity.
    unfold has_key.
    destruct (dict_get language e) as [v|] eqn:Hlang; cbn.
    { exact (Hwf _ _ _ _ Hentry Hb Hp Hlang). }
    destruct (dict_get "bullets" e) as [b|] eqn:Hbul; cbn; [reflexivity|].
    destruct (dict_get "pseudocode" e) as [c|] eqn:Hpse; cbn; [reflexivity|].
    destruct (dict_get "default" e) as [v|] eqn:Hdef; cbn; [|reflexivity].
    refine (Hwf _ _ _ _ Hentry _ _ Hdef); discriminate.
  - intros e items Hentry Hbul. unfold get_hints_for. rewrite Hentry.
    unfold has_key. now rewrite Hbul.
Qed.

Lemma hints_have_both_keys_witness :
  (is_hints (get_hints_for
               {[ "summation" :=
                    VDict [("python", VDict [("bullets", VList [VStr "Use +"]);
                                             ("pseudocode", VStr "return a + b")])];
                  "coin_change" :=
                    VDict [("bullets", VList [VStr "Bottom-up DP"]);
                           ("pseudocode", VStr "dp[0] = 0")] ]}
               "coin_change" "java") = true)
  /\ get_hints_for
       {[ "summation" :=
            VDict [("python", VDict [("bullets", VList [VStr "Use +"]);
                                     ("pseudocode", VStr "return a + b")])];
          "coin_change" :=
            VDict [("bullets", VList [VStr "Bottom-up DP"]);
                   ("pseudocode", VStr "dp[0] = 0")] ]}
       "coin_change" "bullets" = VList [VStr "Bottom-up DP"].
Proof.
  assert (well_formed_table
            {[ "summation" :=
                 VDict [("python", VDict [("bullets", VList [VStr "Use +"]);
                                          ("pseudocode", VStr "return a + b")])];
               "coin_change" :=
                 VDict [("bullets", VList [VStr "Bottom-up DP"]);
                        ("pseudocode", VStr "dp[0] = 0")] ]}) as Hwf.
  { intros name e k v Hentry Hb Hp Hget.
    apply lookup_insert_Some in Hentry as [[_ [= <-]]|[_ Hentry]].
    - cbn in Hget. destruct (String.eqb k "python"); [now injection Hget as <-|discriminate].
    - apply lookup_singleton_Some in Hentry as [_ [= <-]]. cbn in Hget.
      destruct (String.eqb_spec k "bullets"); [contradiction|].
      destruct (String.eqb_spec k "pseudocode"); [contradiction|discriminate]. }
  split.
  - apply (proj1 (hints_have_both_keys _ "coin_change" "java" Hwf)); discriminate.
  - exact (proj2 (hints_have_both_keys _ "coin_change" "java" Hwf) _ _ eq_refl eq_refl).
Defined.

(** ** The practice test runner *)

Section PracticeFacts.

Variable special_eq : value -> value -> bool.

Lemma check_counts (func : practice_function) (args : list value) (expected : value)
    (c c' : counters) :
  check special_eq func args expected c = Returns c' ->
  total c' = S (total c)
  /\ (PASSED c <= PASSED c')%nat /\ (FAILED c <= FAILED c')%nat /\ (TODO c <= TODO c')%nat.
Proof.
  unfold check, total.
  destruct (func args) as [result|e|]; [| |discriminate].
  - destruct (py_eq special_eq result expected); intros [= <-]; cbn; lia.
  - destruct (String.eqb (exc_type e) "NotImplementedError");
      [|destruct (exc_is_Exception e); [|discriminate]]; intros [= <-]; cbn; lia.
Qed.


(** X13: the functions shipped in [problems/] are stubs, and a stub is
    no failure: each check of one of them, with as many arguments as the
    function has parameters, is counted as to do, whatever the arguments
    and the expected value, so a run of such checks leaves [PASSED] and
    [FAILED] as they were and the exit status of the script with them. *)
Theorem shipped_stubs_are_todo (checks : list (practice_function * list value * value))
    (c : counters) :
  Forall (fun ch => In (ch.1.1, length ch.1.2) shipped) checks ->
  check_all special_eq checks c
  = Returns (Counters (PASSED c) (FAILED c) (TODO c + length checks))
  /\ exit_status (Counters (PASSED c) (FAILED c) (TODO c + length checks)) = exit_status c.
Proof.
  intros Hall. split; [|reflexivity]. revert c.
  induction Hall as [|[[func args] expected] checks Hin Hall IH]; intros c.
  - cbn. rewrite Nat.add_0_r. now destruct c.
  - cbn [check_all length].
    assert (check special_eq func args expected c
            = Returns (Counters (PASSED c) (FAILED c) (S (TODO c)))) as ->.
    { cbn in Hin. unfold check.
      repeat (destruct Hin as [[= <- Hlen]|Hin];
              [cbv [coin_change frequency_sort group_anagrams max_subarray
                      merge_intervals number_of_islands product_except_self
                      three_sum two_sum_sorted not_implemented];
               rewrite <- Hlen; reflexivity|]).
      destruct Hin. }
    rewrite IH. cbn. do 2 f_equal. lia.
Qed.

End PracticeFacts.


Lemma shipped_stubs_are_todo_witness :
  check_all no_special coin_checks (Counters 0 0 0) = Returns (Counters 0 0 4)
  /\ exit_status (Counters 0 0 4) = 0%nat.
Proof.
  refine (shipped_stubs_are_todo no_special coin_checks (Counters 0 0 0) _).
  repeat constructor; cbn; tauto.
Defined.

(** ** The result line *)

Lemma split_nonempty (sep : ascii) (s : string) : split sep s <> [].
Proof.
  destruct s as [|c s]; cbn; [discriminate|].
  destruct (Ascii.eqb c sep); [discriminate|].
  destruct (split sep s); discriminate.
Qed.

Lemma split_append (a b : string) :
  split "010" (a +:+ nl +:+ b) = split "010" a ++ split "010" b.
Proof.
  induction a as [|c a IH]; [reflexivity|].
  change (String c a +:+ nl +:+ b) with (String c (a +:+ nl +:+ b)).
  cbn [split]. destruct (Ascii.eqb c "010").
  - now rewrite IH.
  - rewrite IH. pose proof (split_nonempty "010" a).
    destruct (split "010" a); [contradiction|reflexivity].
Qed.

Lemma split_one_line (s : string) : contains "010" s = false -> split "010" s = [s].
Proof.
  induction s as [|c s IH]; [reflexivity|]. cbn [contains split].
  intros [Hc Hs]%orb_false_elim. rewrite Ascii.eqb_sym, Hc, (IH Hs). reflexivity.
Qed.

Lemma find_append {A} (f : A -> bool) (l m : list A) :
  List.find f (l ++ m) = match List.find f l with Some x => Some x | None => List.find f m end.
Proof. induction l as [|x l IH]; [reflexivity|]. cbn. now destruct (f x). Qed.

(** X17: the executors take the first line of the captured output that
    starts with [RESULT:] and look no further: when nothing before it
    makes such a line, a line the submission prints itself is taken for
    the result, and whatever follows it, the line the harness prints
    included, is ignored. *)
Theorem first_result_line_wins (before line after : string) :
  first_result_line before = None ->
  contains "010" line = false ->
  startswith "RESULT:" line = true ->
  first_result_line (line +:+ nl +:+ after) = Some line
  /\ first_result_line (before +:+ nl +:+ line +:+ nl +:+ after) = Some line.
Proof.
  unfold first_result_line. intros Hbefore Hline Hstart.
  assert (List.find (startswith "RESULT:") (split "010" (line +:+ nl +:+ after)) = Some line)
    as Hfirst.
  { rewrite split_append, (split_one_line _ Hline). cbn. now rewrite Hstart. }
  split; [exact Hfirst|].
  now rewrite split_append, find_append, Hbefore.
Qed.

Lemma first_result_line_wins_witness :
  first_result_line ("RESULT:[0, 1]" +:+ nl +:+ "RESULT:[9, 9]")
  = Some "RESULT:[0, 1]"
  /\ first_result_line ("debug: start" +:+ nl +:+ "RESULT:[0, 1]" +:+ nl +:+ "RESULT:[9, 9]")
     = Some "RESULT:[0, 1]".
Proof.
  exact (first_result_line_wins "debug: start" "RESULT:[0, 1]" "RESULT:[9, 9]"
           eq_refl eq_refl eq_refl).
Defined.

Ltac yields_case :=
  match goal with
  | |- yields _ (bind _ _) => apply yields_bind; intros ?
  | |- yields _ (try_finally _ _) => apply yields_try_finally
  | |- yields _ (if ?b then _ else _) => destruct b
  | |- yields _ (match ?x with _ => _ end) => let E := fresh "E" in destruct x eqn:E
  | |- yields _ (raise _) => apply yields_raise
  | |- yields _ (ret _) => apply yields_ret
  end.

Lemma execute_javascript_parses (P : platform) (code : string) (test_args : list value)
    (problem_name : string) :
  yields (fun r => exists line, first_result_line r.1.2 = Some line
                                /\ json_loads (slice_from 7 line) = Decoded r.1.1)
         (execute_javascript P code test_args problem_name).
Proof. unfold execute_javascript. cbv zeta. repeat yields_case. cbn. eauto. Qed.

Lemma execute_java_parses (P : platform) (code : string) (test_args : list value)
    (problem_name : string) :
  yields (fun r => exists line, first_result_line r.1.2 = Some line
                                /\ r.1.1 = java_result (strip (slice_from 7 line)))
         (execute_java P code test_args problem_name).
Proof. unfold execute_java. cbv zeta. repeat yields_case. cbn. eauto. Qed.

Lemma execute_cpp_parses (P : platform) (code : string) (test_args : list value)
    (problem_name : string) :
  yields (fun r => exists line, first_result_line r.1.2 = Some line
                                /\ r.1.1 = cpp_result (strip (slice_from 7 line)))
         (execute_cpp P code test_args problem_name).
Proof. unfold execute_cpp. cbv zeta. repeat yields_case. cbn. eauto. Qed.

(** X18: whenever one of the three child-process executors returns, the
    value it returns is read off the captured output it returns with it:
    it is what [json.loads] (JavaScript) or the result parser (Java, C++)
    makes of the text after [RESULT:] on the first such line of that
    output. *)
Theorem returned_value_is_parsed_output (P : platform) (code : string)
    (test_args : list value) (problem_name : string) (w : world)
    (result : value) (out err : string) :
  (fst (execute_javascript P code test_args problem_name w) = Returns (result, out, err) ->
   exists line, first_result_line out = Some line
                /\ json_loads (slice_from 7 line) = Decoded result)
  /\ (fst (execute_java P code test_args problem_name w) = Returns (result, out, err) ->
      exists line, first_result_line out = Some line
                   /\ result = java_result (strip (slice_from 7 line)))
  /\ (fst (execute_cpp P code test_args problem_name w) = Returns (result, out, err) ->
      exists line, first_result_line out = Some line
                   /\ result = cpp_result (strip (slice_from 7 line))).
Proof.
  repeat apply conj.
  - apply (execute_javascript_parses P code test_args problem_name w (result, out, err)).
  - apply (execute_java_parses P code test_args problem_name w (result, out, err)).
  - apply (execute_cpp_parses P code test_args problem_name w (result, out, err)).
Qed.

(** ** Instances *)

Lemma marshal_round_trip_witness :
  read_literal Cpp (python_to_java (printing EmptyString) (VStr quoted)) = Some quoted
  /\ read_literal Cpp (python_to_cpp (printing EmptyString) (VStr quoted)) = Some quoted.
Proof. exact (marshal_round_trip (printing EmptyString) Cpp quoted eq_refl). Defined.

Lemma no_temp_dir_no_change_witness :
  execute_javascript full_disk "code" two_sum_args "two_sum" empty_world
  = (Raises (Exc "OSError" "[Errno 28] No space left on device" true), empty_world)
  /\ execute_java full_disk "code" two_sum_args "two_sum" empty_world
     = (Raises (Exc "OSError" "[Errno 28] No space left on device" true), empty_world)
  /\ execute_cpp full_disk "code" two_sum_args "two_sum" empty_world
     = (Raises (Exc "OSError" "[Errno 28] No space left on device" true), empty_world).
Proof.
  exact (no_temp_dir_no_change full_disk "code" two_sum_args "two_sum" empty_world
           (Exc "OSError" "[Errno 28] No space left on device" true) eq_refl).
Defined.

